(** * The WinHTTP network layer of the SDK (src/win32/net.cpp)

    A shallow embedding of [WinHttpIO::post], [WinHttpIO::cancel] and
    [WinHttpIO::asynccallback], with [addevents], [postpos], [doio] and
    the event and critical-section helpers.  Requests ([HttpReq]) and per-attempt
    contexts ([WinHttpContext]) live in two heaps indexed by address, so
    that the back links [req->httpiohandle] and [httpctx->req] alias the
    way the C++ pointers do.  Every call into WinHTTP, zlib or the Win32
    event API is recorded in the list of calls a function returns; what
    such a call answers is chosen by the environment and is an argument
    of the function. *)

From Stdlib Require Import ZArith List Lia Bool Ascii String Strings.Byte.
From stdpp Require Import base option gmap.

Import ListNotations.
Local Open Scope Z_scope.

(** ** Data *)

(** Modelled from the spec: the enum [reqstatus_t] is declared in a header,
    not in net.cpp; the spec lists its values as Prepared, InFlight,
    Success and Failure. *)
Inductive reqstatus_t :=
  | REQ_PREPARED
  | REQ_INFLIGHT
  | REQ_SUCCESS
  | REQ_FAILURE.

Inductive contenttype_t := REQ_BINARY | REQ_JSON.

(** A WinHTTP handle; [None] is the NULL handle. *)
Definition HINTERNET := option nat.

(** A pointer used as a condition. *)
Definition non_null {A} (p : option A) : bool :=
  match p with Some _ => true | None => false end.

(** The fields of [z_stream] the driver touches.  [next_out] is kept as an
    offset into [req->in], the string it points into; [inited] records
    that [inflateInit2] ran on the stream. *)
Record z_stream := mk_z {
  avail_in : Z;
  avail_out : Z;
  next_out : Z;
  inited : bool
}.

Record HttpReq := mk_req {
  status : reqstatus_t;
  httpstatus : Z;
  httpiohandle : option nat;      (* void*: the attached WinHttpContext *)
  posturl : string;
  out : list byte;
  in_ : list byte;                (* std::string in *)
  buf : option (list byte);       (* raw destination buffer, or NULL *)
  bufpos : Z;
  contentlength : Z;
  binary : bool;
  type : contenttype_t
}.

Record WinHttpContext := mk_ctx {
  hRequest : HINTERNET;
  hConnect : HINTERNET;
  req : option nat;               (* backlink to the HttpReq, or NULL *)
  (* httpio, the backlink to the one WinHttpIO object, is left out *)
  postpos : Z;
  postlen : Z;
  postdata : list byte;
  gzip : bool;
  z : z_stream
}.

Record WinHttpIO := mk_io {
  hSession : HINTERNET;
  csHTTP : nat;                   (* recursion count of the critical section *)
  waiter : option nat;
  noinetds : bool;
  success : bool
}.

Record state := mk_state {
  reqs : gmap nat HttpReq;
  ctxs : gmap nat WinHttpContext;
  httpio : WinHttpIO
}.

(** Field updates, one per assigned field. *)
Definition set_status (v : reqstatus_t) (r : HttpReq) : HttpReq :=
  mk_req v (httpstatus r) (httpiohandle r) (posturl r) (out r) (in_ r)
         (buf r) (bufpos r) (contentlength r) (binary r) (type r).
Definition set_httpstatus (v : Z) (r : HttpReq) : HttpReq :=
  mk_req (status r) v (httpiohandle r) (posturl r) (out r) (in_ r)
         (buf r) (bufpos r) (contentlength r) (binary r) (type r).
Definition set_httpiohandle (v : option nat) (r : HttpReq) : HttpReq :=
  mk_req (status r) (httpstatus r) v (posturl r) (out r) (in_ r)
         (buf r) (bufpos r) (contentlength r) (binary r) (type r).
Definition set_in (v : list byte) (r : HttpReq) : HttpReq :=
  mk_req (status r) (httpstatus r) (httpiohandle r) (posturl r) (out r) v
         (buf r) (bufpos r) (contentlength r) (binary r) (type r).
Definition set_bufpos (v : Z) (r : HttpReq) : HttpReq :=
  mk_req (status r) (httpstatus r) (httpiohandle r) (posturl r) (out r) (in_ r)
         (buf r) v (contentlength r) (binary r) (type r).
Definition set_contentlength (v : Z) (r : HttpReq) : HttpReq :=
  mk_req (status r) (httpstatus r) (httpiohandle r) (posturl r) (out r) (in_ r)
         (buf r) (bufpos r) v (binary r) (type r).

Definition set_hRequest (v : HINTERNET) (c : WinHttpContext) : WinHttpContext :=
  mk_ctx v (hConnect c) (req c) (postpos c) (postlen c) (postdata c) (gzip c) (z c).
Definition set_hConnect (v : HINTERNET) (c : WinHttpContext) : WinHttpContext :=
  mk_ctx (hRequest c) v (req c) (postpos c) (postlen c) (postdata c) (gzip c) (z c).
Definition set_req (v : option nat) (c : WinHttpContext) : WinHttpContext :=
  mk_ctx (hRequest c) (hConnect c) v (postpos c) (postlen c) (postdata c) (gzip c) (z c).
Definition set_postpos (v : Z) (c : WinHttpContext) : WinHttpContext :=
  mk_ctx (hRequest c) (hConnect c) (req c) v (postlen c) (postdata c) (gzip c) (z c).
Definition set_postlen (v : Z) (c : WinHttpContext) : WinHttpContext :=
  mk_ctx (hRequest c) (hConnect c) (req c) (postpos c) v (postdata c) (gzip c) (z c).
Definition set_postdata (v : list byte) (c : WinHttpContext) : WinHttpContext :=
  mk_ctx (hRequest c) (hConnect c) (req c) (postpos c) (postlen c) v (gzip c) (z c).
Definition set_gzip (v : bool) (c : WinHttpContext) : WinHttpContext :=
  mk_ctx (hRequest c) (hConnect c) (req c) (postpos c) (postlen c) (postdata c) v (z c).
Definition set_z (v : z_stream) (c : WinHttpContext) : WinHttpContext :=
  mk_ctx (hRequest c) (hConnect c) (req c) (postpos c) (postlen c) (postdata c) (gzip c) v.

Definition set_csHTTP (v : nat) (d : WinHttpIO) : WinHttpIO :=
  mk_io (hSession d) v (waiter d) (noinetds d) (success d).
Definition set_noinetds (v : bool) (d : WinHttpIO) : WinHttpIO :=
  mk_io (hSession d) (csHTTP d) (waiter d) v (success d).
Definition set_success (v : bool) (d : WinHttpIO) : WinHttpIO :=
  mk_io (hSession d) (csHTTP d) (waiter d) (noinetds d) v.

(** ** Calls that leave the driver *)

(** The four integers of [WinHttpSetTimeouts], named as its prototype in
    winhttp.h names them. *)
Record timeouts := mk_timeouts {
  nResolveTimeout : Z;
  nConnectTimeout : Z;
  nSendTimeout : Z;
  nReceiveTimeout : Z
}.

Inductive header_query :=
  | QUERY_STATUS_CODE
  | QUERY_ORIGINAL_CONTENT_LENGTH
  | QUERY_CONTENT_ENCODING.

Inductive oscall :=
  | WinHttpConnect (session : HINTERNET) (host : string) (port : Z)
  | WinHttpOpenRequest (connect : HINTERNET) (path : string) (secure : bool)
  | WinHttpSetTimeouts (h : HINTERNET) (t : timeouts)
  | WinHttpSetStatusCallback (h : HINTERNET)
  | WinHttpSendRequest (h : HINTERNET) (headers : string) (first total : Z) (context : nat)
  | WinHttpWriteData (h : HINTERNET) (pos len : Z)
  | WinHttpReceiveResponse (h : HINTERNET)
  | WinHttpQueryHeaders (h : HINTERNET) (q : header_query)
  | WinHttpQueryDataAvailable (h : HINTERNET)
  | WinHttpReadData (h : HINTERNET) (size : Z)
  | WinHttpCloseHandle (h : nat)
  | Inflate (avail : Z)
  | InflateInit2 (windowBits : Z)
  | SetEvent                       (* on hWakeupEvent *)
  | Inetstatus (up : bool).

(** ** The monad of the driver's code

    A computation reads and updates the two heaps and the driver object,
    lists the calls it makes, and is undefined ([None]) where the C++ would
    dereference a pointer to no live object or fail an [assert]. *)
Definition M (A : Type) : Type := state -> option (A * state * list oscall).

Definition ret {A} (a : A) : M A := fun s => Some (a, s, []).

Definition bind {A B} (m : M A) (k : A -> M B) : M B := fun s =>
  match m s with
  | None => None
  | Some (a, s1, e1) =>
      match k a s1 with
      | None => None
      | Some (b, s2, e2) => Some (b, s2, e1 ++ e2)
      end
  end.

Declare Scope drv_scope.
Delimit Scope drv_scope with drv.
Notation "'do' x <- m ; k" := (bind m (fun x => k))
  (at level 10, x name, m at level 100, k at level 200) : drv_scope.
Notation "'do_' m ; k" := (bind m (fun _ => k))
  (at level 10, m at level 100, k at level 200) : drv_scope.
Local Open Scope drv_scope.

Definition call (c : oscall) : M unit := fun s => Some (tt, s, [c]).
Definition abort {A} : M A := fun _ => None.

Definition get_req (p : nat) : M HttpReq := fun s =>
  match reqs s !! p with
  | Some r => Some (r, s, [])
  | None => None
  end.

Definition get_ctx (p : nat) : M WinHttpContext := fun s =>
  match ctxs s !! p with
  | Some c => Some (c, s, [])
  | None => None
  end.

Definition get_io : M WinHttpIO := fun s => Some (httpio s, s, []).

(** [p->field = v] on a request, a context, the driver. *)
Definition upd_req (p : nat) (f : HttpReq -> HttpReq) : M unit := fun s =>
  match reqs s !! p with
  | Some r => Some (tt, mk_state (<[p := f r]> (reqs s)) (ctxs s) (httpio s), [])
  | None => None
  end.

Definition upd_ctx (p : nat) (f : WinHttpContext -> WinHttpContext) : M unit := fun s =>
  match ctxs s !! p with
  | Some c => Some (tt, mk_state (reqs s) (<[p := f c]> (ctxs s)) (httpio s), [])
  | None => None
  end.

Definition upd_io (f : WinHttpIO -> WinHttpIO) : M unit := fun s =>
  Some (tt, mk_state (reqs s) (ctxs s) (f (httpio s)), []).

(** [new WinHttpContext]: the object lands at an address that holds no
    live context.  The struct is declared in meganet.h, not in net.cpp,
    and post() assigns only some of its fields (never [gzip] or [z]), so
    the contents of the fresh object are an argument. *)
Definition new_ctx (fresh_ctx : WinHttpContext) : M nat := fun s =>
  let p := fresh (dom (ctxs s)) in
  Some (p, mk_state (reqs s) (<[p := fresh_ctx]> (ctxs s)) (httpio s), []).

(** [delete httpctx] *)
Definition delete_ctx (p : nat) : M unit := fun s =>
  match ctxs s !! p with
  | Some _ => Some (tt, mk_state (reqs s) (delete p (ctxs s)) (httpio s), [])
  | None => None
  end.

(** ** WinHttpIO's small members *)

(** [WinHttpIO::httpevent]: trigger wakeup. *)
Definition httpevent : M unit := call SetEvent.

Definition entercs : M unit := upd_io (fun d => set_csHTTP (S (csHTTP d)) d).

Definition leavecs : M unit := fun s =>
  match csHTTP (httpio s) with
  | O => None
  | S n => upd_io (set_csHTTP n) s
  end.

(** [WinHttpIO::cancel]: cancel pending HTTP request. *)
Definition cancel (rp : nat) : M unit :=
  do r <- get_req rp;
  match httpiohandle r with
  | Some cp =>
      do_ upd_ctx cp (set_req None);
      do_ upd_req rp (set_httpstatus 0);
      do_ upd_req rp (set_status REQ_FAILURE);
      do_ upd_req rp (set_httpiohandle None);
      do c <- get_ctx cp;
      do_ match hConnect c with Some h => call (WinHttpCloseHandle h) | None => ret tt end;
      match hRequest c with Some h => call (WinHttpCloseHandle h) | None => ret tt end
  | None => ret tt
  end.

(** ** The buffer protocol of HttpReq

    [reserveput], [completeput] and [setcontentlength] are members of
    HttpReq defined outside net.cpp. *)

(** [s.resize(n)] on a string of bytes. *)
Definition resize (n : Z) (l : list byte) : list byte :=
  take (Z.to_nat n) l ++ replicate (Z.to_nat n - length l)%nat x00.

(** Bytes stored through a pointer [off] bytes into a buffer. *)
Definition write_at (off : Z) (data buffer : list byte) : list byte :=
  take (Z.to_nat off) buffer ++ data
    ++ drop (Z.to_nat off + length data)%nat buffer.

(** Modelled from the spec: [reserveput] is the reserve operation
    "reserveBuffer(size) -> writable region" on the incoming buffer; the
    region starts at the bytes committed so far, and the string [in] is
    grown to hold it when the request has no raw buffer.  It answers the
    size of the region through its pointer argument. *)
Definition reserveput (rp : nat) (size : Z) : M Z :=
  do r <- get_req rp;
  match buf r with
  | Some _ => ret size
  | None =>
      do_ (if Z.of_nat (length (in_ r)) <? bufpos r + size
           then upd_req rp (set_in (resize (bufpos r + size) (in_ r)))
           else ret tt);
      ret size
  end.

(** Modelled from the spec: [completeput] is the completion operation
    "commitBuffer(n)": [n] more bytes of the incoming buffer are committed. *)
Definition completeput (rp : nat) (n : Z) : M unit :=
  upd_req rp (fun r => set_bufpos (bufpos r + n) r).

(** Modelled from the spec: [setcontentlength] is
    "setDeclaredContentLength(n)". *)
Definition setcontentlength (rp : nat) (n : Z) : M unit :=
  upd_req rp (set_contentlength n).

(** Modelled from the spec: [inetstatus] is "notifyConnectivity(up)", the
    side channel to the waiter; an outage is on record until the transport
    is reported up again. *)
Definition inetstatus (up : bool) : M unit :=
  do_ call (Inetstatus up);
  upd_io (set_noinetds (negb up)).

(** ** Constants of zlib.h and winhttp.h *)
Definition Z_OK : Z := 0.
Definition Z_STREAM_END : Z := 1.
Definition MAX_WBITS : Z := 15.
Definition ERROR_WINHTTP_TIMEOUT : Z := 12002.
Definition DWORD_MAX : Z := 2 ^ 32.

Inductive callback_status :=
  | WINHTTP_CALLBACK_STATUS_HANDLE_CLOSING
  | WINHTTP_CALLBACK_STATUS_DATA_AVAILABLE
  | WINHTTP_CALLBACK_STATUS_READ_COMPLETE
  | WINHTTP_CALLBACK_STATUS_HEADERS_AVAILABLE
  | WINHTTP_CALLBACK_STATUS_REQUEST_ERROR
  | WINHTTP_CALLBACK_STATUS_SECURE_FAILURE
  | WINHTTP_CALLBACK_STATUS_SENDREQUEST_COMPLETE
  | WINHTTP_CALLBACK_STATUS_WRITE_COMPLETE
  | WINHTTP_CALLBACK_STATUS_OTHER (code : Z).

#[global] Instance callback_status_eq_dec : EqDecision callback_status.
Proof. solve_decision. Defined.

(** ** What the environment answers during one callback *)
Record answers := mk_answers {
  read_data : bool;                       (* WinHttpReadData *)
  inflate_ret : Z;                        (* inflate: its return code, *)
  inflate_taken : Z;                      (*   the input it consumed, *)
  inflate_given : list byte;              (*   the output it produced *)
  query_data_available : bool;            (* WinHttpQueryDataAvailable *)
  query_status_code : option Z;           (* WinHttpQueryHeaders, status code *)
  query_original_content_length : option Z;
  query_content_encoding : option string;
  last_error : Z;                         (* GetLastError() *)
  write_data : bool;                      (* WinHttpWriteData *)
  receive_response : bool                 (* WinHttpReceiveResponse *)
}.

(** [inflate(&httpctx->z, Z_NO_FLUSH)]: the output goes where [next_out]
    points, into the [in] of the request the stream was set up for. *)
Definition inflate (env : answers) (cp rp : nat) : M Z :=
  do c <- get_ctx cp;
  do r <- get_req rp;
  let zs := z c in
  let n := Z.of_nat (length (inflate_given env)) in
  do_ call (Inflate (avail_in zs));
  do_ upd_req rp (set_in (write_at (next_out zs) (inflate_given env) (in_ r)));
  do_ upd_ctx cp (set_z (mk_z (avail_in zs - inflate_taken env)
                              (avail_out zs - n) (next_out zs + n) (inited zs)));
  ret (inflate_ret env).

Section Driver.

(** [HTTP_POST_CHUNK_SIZE] is #defined in a header outside net.cpp. *)
Variable HTTP_POST_CHUNK_SIZE : Z.

(** ** WinHttpIO::asynccallback, case by case

    [cp] is [httpctx] and [rp] the request it was found bound to at entry.
    Output under [debug] prints and assigns nothing; it is left out. *)

(** case WINHTTP_CALLBACK_STATUS_DATA_AVAILABLE *)
Definition on_data_available (env : answers) (hInternet : HINTERNET)
    (cp rp : nat) (size : Z) : M unit :=
  do_ (if size =? 0 then
         do r <- get_req rp;
         do_ upd_req rp (set_status (if httpstatus r =? 200 then REQ_SUCCESS
                                     else REQ_FAILURE));
         do_ upd_io (set_success true);
         httpevent
       else
         do c <- get_ctx cp;
         do size <- (if gzip c then ret size else reserveput rp size);
         do_ call (WinHttpReadData hInternet size);
         if read_data env then
           do c <- get_ctx cp;
           if gzip c then
             do_ upd_ctx cp (fun c => set_z (mk_z size (avail_out (z c))
                                    (next_out (z c)) (inited (z c))) c);
             do t <- inflate env cp rp;
             do c <- get_ctx cp;
             if negb (t =? Z_OK)
                && (negb (t =? Z_STREAM_END) || negb (avail_out (z c) =? 0))
             then cancel rp
             else ret tt
           else ret tt
         else cancel rp);
  httpevent.

(** case WINHTTP_CALLBACK_STATUS_READ_COMPLETE *)
Definition on_read_complete (env : answers) (cp rp : nat)
    (dwStatusInformationLength : Z) : M unit :=
  if dwStatusInformationLength =? 0 then ret tt
  else
    do_ completeput rp dwStatusInformationLength;
    do c <- get_ctx cp;
    do_ call (WinHttpQueryDataAvailable (hRequest c));
    if query_data_available env then ret tt
    else do_ cancel rp; httpevent.

(** case WINHTTP_CALLBACK_STATUS_HEADERS_AVAILABLE *)
Definition on_headers_available (env : answers) (cp rp : nat) : M unit :=
  do c <- get_ctx cp;
  do_ call (WinHttpQueryHeaders (hRequest c) QUERY_STATUS_CODE);
  match query_status_code env with
  | None => do_ cancel rp; httpevent
  | Some statusCode =>
      do_ upd_req rp (set_httpstatus statusCode);
      do r <- get_req rp;
      do_ match buf r with
          | Some _ => upd_ctx cp (set_gzip false)
          | None =>
              (* obtain original content length - always present if gzip is in use *)
              do_ call (WinHttpQueryHeaders (hRequest c) QUERY_ORIGINAL_CONTENT_LENGTH);
              match query_original_content_length env with
              | Some contentLength =>
                  do_ setcontentlength rp contentLength;
                  (* check for gzip content encoding *)
                  do_ call (WinHttpQueryHeaders (hRequest c) QUERY_CONTENT_ENCODING);
                  let g := match query_content_encoding env with
                           | Some contentEncoding => String.eqb contentEncoding "gzip"
                           | None => false
                           end in
                  do_ upd_ctx cp (set_gzip g);
                  if g then
                    do_ upd_ctx cp (fun c => set_z (mk_z 0 (avail_out (z c))
                                           (next_out (z c)) (inited (z c))) c);
                    do_ call (InflateInit2 (MAX_WBITS + 16));
                    do_ upd_ctx cp (fun c => set_z (mk_z (avail_in (z c))
                                           (avail_out (z c)) (next_out (z c)) true) c);
                    do_ upd_req rp (fun r => set_in (resize contentLength (in_ r)) r);
                    do_ upd_ctx cp (fun c => set_z (mk_z (avail_in (z c))
                                           contentLength (next_out (z c)) (inited (z c))) c);
                    upd_ctx cp (fun c => set_z (mk_z (avail_in (z c))
                                           (avail_out (z c)) 0 (inited (z c))) c)
                  else ret tt
              | None => ret tt
              end
          end;
      do_ call (WinHttpQueryDataAvailable (hRequest c));
      if query_data_available env then
        do d <- get_io;
        if non_null (waiter d) && noinetds d then inetstatus true
        else ret tt
      else do_ cancel rp; httpevent
  end.

(** case WINHTTP_CALLBACK_STATUS_SECURE_FAILURE *)
Definition on_secure_failure (rp : nat) : M unit :=
  do_ cancel rp; httpevent.

(** case WINHTTP_CALLBACK_STATUS_REQUEST_ERROR, which falls through *)
Definition on_request_error (env : answers) (rp : nat) : M unit :=
  do d <- get_io;
  do_ (if non_null (waiter d)
          && negb (last_error env =? ERROR_WINHTTP_TIMEOUT)
       then inetstatus false else ret tt);
  on_secure_failure rp.

(** case WINHTTP_CALLBACK_STATUS_SENDREQUEST_COMPLETE and
    case WINHTTP_CALLBACK_STATUS_WRITE_COMPLETE; [postpos], [postlen],
    [pos] and [t] are of type unsigned. *)
Definition on_write_complete (env : answers) (cp rp : nat) : M unit :=
  do c <- get_ctx cp;
  if postpos c <? postlen c then
    let pos := postpos c in
    let t := (postlen c - pos) mod DWORD_MAX in
    let t := if t >? HTTP_POST_CHUNK_SIZE then HTTP_POST_CHUNK_SIZE else t in
    do_ upd_ctx cp (fun c => set_postpos ((postpos c + t) mod DWORD_MAX) c);
    do_ call (WinHttpWriteData (hRequest c) pos t);
    do_ (if write_data env then ret tt else cancel rp);
    httpevent
  else
    do_ call (WinHttpReceiveResponse (hRequest c));
    if receive_response env then ret tt
    else do_ cancel rp; httpevent.

(** handle WinHTTP callbacks (which can be in a worker thread context) *)
Definition asynccallback (env : answers) (hInternet : HINTERNET)
    (dwContext : nat) (dwInternetStatus : callback_status)
    (lpvStatusInformation : Z) (dwStatusInformationLength : Z) : M unit :=
  do httpctx <- get_ctx dwContext;
  match dwInternetStatus with
  | WINHTTP_CALLBACK_STATUS_HANDLE_CLOSING =>
      match req httpctx with
      | Some _ => abort           (* assert(!httpctx->req), compiled in *)
      | None => delete_ctx dwContext
      end
  | _ =>
      do_ entercs;
      (* request cancellations that occured after asynccallback() was
         entered are caught here *)
      match req httpctx with
      | None => leavecs
      | Some rp =>
          do_ match dwInternetStatus with
              | WINHTTP_CALLBACK_STATUS_DATA_AVAILABLE =>
                  on_data_available env hInternet dwContext rp lpvStatusInformation
              | WINHTTP_CALLBACK_STATUS_READ_COMPLETE =>
                  on_read_complete env dwContext rp dwStatusInformationLength
              | WINHTTP_CALLBACK_STATUS_HEADERS_AVAILABLE =>
                  on_headers_available env dwContext rp
              | WINHTTP_CALLBACK_STATUS_REQUEST_ERROR =>
                  on_request_error env rp
              | WINHTTP_CALLBACK_STATUS_SECURE_FAILURE =>
                  on_secure_failure rp
              | WINHTTP_CALLBACK_STATUS_SENDREQUEST_COMPLETE
              | WINHTTP_CALLBACK_STATUS_WRITE_COMPLETE =>
                  on_write_complete env dwContext rp
              | _ => ret tt
              end;
          leavecs
      end
  end.

(** ** WinHttpIO::post *)

(** What [WinHttpCrackUrl] extracts from the URL. *)
Record url_components := mk_url {
  szHost : string;
  nPort : Z;
  lpszUrlPath : string;
  https : bool                    (* nScheme == INTERNET_SCHEME_HTTPS *)
}.

Record post_answers := mk_post_answers {
  fresh_ctx : WinHttpContext;            (* what new WinHttpContext holds *)
  crack_url : option url_components;     (* MultiByteToWideChar && WinHttpCrackUrl *)
  connect : HINTERNET;                   (* WinHttpConnect *)
  open_request : HINTERNET;              (* WinHttpOpenRequest *)
  send_request : bool                    (* WinHttpSendRequest *)
}.

Definition the_timeouts : timeouts := mk_timeouts 0 20000 20000 1800000.

(** POST request to URL.  The inner computation answers whether post()
    left through its [return] after a successful send. *)
Definition post (env : post_answers) (rp : nat) (data : option (list byte))
    (len : Z) : M unit :=
  do httpctx <- new_ctx (fresh_ctx env);
  do_ upd_ctx httpctx (set_req (Some rp));
  do_ upd_req rp (set_httpiohandle (Some httpctx));
  do returned <-
    match crack_url env with
    | Some urlComp =>
        do d <- get_io;
        do_ call (WinHttpConnect (hSession d) (szHost urlComp) (nPort urlComp));
        do_ upd_ctx httpctx (set_hConnect (connect env));
        match connect env with
        | Some _ =>
            do_ call (WinHttpOpenRequest (connect env) (lpszUrlPath urlComp)
                                         (https urlComp));
            do_ upd_ctx httpctx (set_hRequest (open_request env));
            match open_request env with
            | Some _ =>
                do_ call (WinHttpSetTimeouts (open_request env) the_timeouts);
                do_ call (WinHttpSetStatusCallback (open_request env));
                do r <- get_req rp;
                let pwszHeaders :=
                  if match type r with REQ_JSON => true | REQ_BINARY => false end
                     || negb (non_null (buf r))
                  then String.append "Content-Type: application/json"
                         (String "013"%char (String "010"%char "Accept-Encoding: gzip"))
                  else "Content-Type: application/octet-stream"%string in
                (* data is sent in HTTP_POST_CHUNK_SIZE instalments to ensure
                   semi-smooth UI progress info *)
                do_ upd_ctx httpctx (set_postlen
                      (match data with
                       | Some _ => len
                       | None => Z.of_nat (length (out r))
                       end mod DWORD_MAX));
                do_ upd_ctx httpctx (set_postdata
                      (match data with Some d => d | None => out r end));
                do_ upd_ctx httpctx (fun c => set_postpos
                      (if postlen c <? HTTP_POST_CHUNK_SIZE then postlen c
                       else HTTP_POST_CHUNK_SIZE) c);
                do c <- get_ctx httpctx;
                do_ call (WinHttpSendRequest (hRequest c) pwszHeaders
                                             (postpos c) (postlen c) httpctx);
                if send_request env then
                  do_ upd_req rp (set_status REQ_INFLIGHT);
                  ret true
                else ret false
            | None => ret false
            end
        | None =>
            do_ upd_ctx httpctx (set_hRequest None);
            ret false
        end
    | None =>
        do_ upd_ctx httpctx (set_hRequest None);
        do_ upd_ctx httpctx (set_hConnect None);
        ret false
    end;
  if returned : bool then ret tt
  else upd_req rp (set_status REQ_FAILURE).

End Driver.

(** ** The driver as its callers see it

    The application thread calls post() and cancel(); WinHTTP calls
    asynccallback().  [run] performs such calls one after the other, the
    shared lock serialising them. *)
Inductive op :=
  | Post (env : post_answers) (rp : nat) (data : option (list byte)) (len : Z)
  | Cancel (rp : nat)
  | Callback (env : answers) (hInternet : HINTERNET) (dwContext : nat)
             (dwInternetStatus : callback_status)
             (lpvStatusInformation dwStatusInformationLength : Z).

Definition step (chunk : Z) (o : op) : M unit :=
  match o with
  | Post env rp data len => post chunk env rp data len
  | Cancel rp => cancel rp
  | Callback env h cp st info len => asynccallback chunk env h cp st info len
  end.

Fixpoint run (chunk : Z) (os : list op) : M unit :=
  match os with
  | [] => ret tt
  | o :: os => do_ step chunk o; run chunk os
  end.

(** The state cancel() leaves behind when the request [rp], whose record
    is [r], is attached to the context [cp], whose record is [c]. *)
Definition cancelled (s : state) (rp : nat) (r : HttpReq) (cp : nat)
    (c : WinHttpContext) : state :=
  mk_state
    (<[rp := set_httpiohandle None (set_status REQ_FAILURE (set_httpstatus 0 r))]> (reqs s))
    (<[cp := set_req None c]> (ctxs s))
    (httpio s).

Definition close_calls (c : WinHttpContext) : list oscall :=
  match hConnect c with Some h => [WinHttpCloseHandle h] | None => [] end
  ++ match hRequest c with Some h => [WinHttpCloseHandle h] | None => [] end.

(** A request is detached when it has no context attached and no context
    points back to it. *)
Definition detached (s : state) (rp : nat) : Prop :=
  (exists r, reqs s !! rp = Some r /\ httpiohandle r = None)
  /\ forall cp c, ctxs s !! cp = Some c -> req c <> Some rp.

(** The context [cp], if live before, is live after. *)
Definition keeps_ctx (cp : nat) : relation state := fun s s' =>
  is_Some (ctxs s !! cp) -> is_Some (ctxs s' !! cp).

(** The request [rp] stays, and its status either stays or becomes one
    of the two final values. *)
Definition status_moves (rp : nat) : relation state := fun s s' =>
  forall r, reqs s !! rp = Some r ->
    exists r', reqs s' !! rp = Some r'
      /\ (status r' = status r \/ status r' = REQ_SUCCESS
          \/ status r' = REQ_FAILURE).

(** The record of [rp] is untouched and no context starts to point back
    to it. *)
Definition leaves_alone (rp : nat) : relation state := fun s s' =>
  reqs s' !! rp = reqs s !! rp
  /\ forall cp c', ctxs s' !! cp = Some c' -> req c' = Some rp ->
       exists c, ctxs s !! cp = Some c /\ req c = Some rp.

(** A call of cancel() or of asynccallback(), or of post() for another
    request than [rp]: anything but a fresh post() of [rp]. *)
Definition no_post_of (rp : nat) (o : op) : Prop :=
  match o with
  | Post _ p _ _ => p <> rp
  | _ => True
  end.

(** The timeouts in the spec's words: connect 0, send 20000 and receive
    20000 milliseconds.  (Its "overall cap" of 1,800,000 names no parameter
    of WinHttpSetTimeouts.) *)
Definition spec_timeouts (t : timeouts) : Prop :=
  nConnectTimeout t = 0 /\ nSendTimeout t = 20000 /\ nReceiveTimeout t = 20000.

(** The value of [httpctx->gzip] when the HEADERS_AVAILABLE handler is
    done with the encoding, read off the handler: cleared for a raw
    buffer, decided by Content-Encoding when Original-Content-Length was
    read, and otherwise whatever it was. *)
Definition gzip_after_headers (env : answers) (r : HttpReq)
    (c : WinHttpContext) : bool :=
  match buf r with
  | Some _ => false
  | None =>
      match query_original_content_length env with
      | Some _ =>
          match query_content_encoding env with
          | Some contentEncoding => String.eqb contentEncoding "gzip"
          | None => false
          end
      | None => gzip c
      end
  end.

(** The gzip path in the spec's words: Original-Content-Length was read,
    the Content-Encoding query succeeded, and its value is exactly
    "gzip". *)
Definition spec_gzip_path (env : answers) : Prop :=
  is_Some (query_original_content_length env)
  /\ query_content_encoding env = Some "gzip"%string.

(** zlib's contract for one call of inflate: it writes no more than
    [avail_out] bytes. *)
Definition zlib_contract (env : answers) (c : WinHttpContext) : Prop :=
  Z.of_nat (length (inflate_given env)) <= avail_out (z c).

(** The output side of the stream: [next_out] bytes are written, and
    together with the room left they make up the declared content length. *)
Definition stream_inv (r : HttpReq) (c : WinHttpContext) : Prop :=
  0 <= next_out (z c) /\ 0 <= avail_out (z c)
  /\ next_out (z c) + avail_out (z c) = contentlength r.

(** What the handler of DATA_AVAILABLE treats as a failed inflate, given
    the return code and the room left after the call. *)
Definition inflate_failed (t avail : Z) : Prop :=
  (t <> Z_OK /\ t <> Z_STREAM_END) \/ (t = Z_STREAM_END /\ avail <> 0).

(** The stream of the context [cp], its gzip flag and the declared
    content length of the request [rp] are as they were. *)
Definition keeps_stream (cp rp : nat) : relation state := fun s s' =>
  forall c r, ctxs s !! cp = Some c -> reqs s !! rp = Some r ->
    exists c' r', ctxs s' !! cp = Some c' /\ reqs s' !! rp = Some r'
      /\ z c' = z c /\ gzip c' = gzip c
      /\ contentlength r' = contentlength r.

(** While gzip is active the output side of the stream is consistent. *)
Definition stream_ok (r : HttpReq) (c : WinHttpContext) : Prop :=
  gzip c = true -> stream_inv r c.

(** ** The upload of a body, as WinHTTP sees it *)

(** The size of the piece of the body a call hands to WinHTTP: the part
    sent along with the request, and each later write. *)
Definition chunk_of (c : oscall) : option Z :=
  match c with
  | WinHttpSendRequest _ _ first _ _ => Some first
  | WinHttpWriteData _ _ len => Some len
  | _ => None
  end.

Definition chunks (e : list oscall) : list Z := omap chunk_of e.

Definition total_of (l : list Z) : Z := foldr Z.add 0 l.

Definition all_but_last_are (v : Z) (l : list Z) : Prop :=
  forall i x, l !! i = Some x -> (S i < length l)%nat -> x = v.

(** WinHTTP reports the request as sent, then each write as complete,
    [k] times. *)
Definition upload_ops (env : answers) (h : HINTERNET) (cp : nat) (k : nat)
    : list op :=
  Callback env h cp WINHTTP_CALLBACK_STATUS_SENDREQUEST_COMPLETE 0 0
  :: replicate k (Callback env h cp WINHTTP_CALLBACK_STATUS_WRITE_COMPLETE 0 0).

(** Cursor and total of the context [cp] are as they were. *)
Definition keeps_cursor (cp : nat) : relation state := fun s s' =>
  forall c, ctxs s !! cp = Some c ->
    exists c', ctxs s' !! cp = Some c' /\ postlen c' = postlen c
               /\ postpos c' = postpos c.

(** ** A sample session

    One JSON request of seven bytes, a chunk size of three, and the
    answers of a server that replies 200 with a gzip body of declared
    length two. *)
Definition ex_chunk : Z := 3.

Definition ex_body : list byte := [x7b; x22; x61; x22; x3a; x31; x7d].

Definition ex_req : HttpReq :=
  mk_req REQ_PREPARED 0 None "https://g.api.mega.co.nz/cs" ex_body []
         None 0 0 false REQ_JSON.

Definition ex_io : WinHttpIO := mk_io (Some 1%nat) 1 (Some 5%nat) false false.

Definition ex_s0 : state := mk_state {[ 0%nat := ex_req ]} ∅ ex_io.

(** Fresh memory that happens to be zeroed, and fresh memory in which the
    byte of [gzip] happens to be set. *)
Definition ex_zeroed : WinHttpContext :=
  mk_ctx None None None 0 0 [] false (mk_z 0 0 0 false).
Definition ex_dirty : WinHttpContext :=
  mk_ctx None None None 0 0 [] true (mk_z 0 0 0 false).

Definition ex_url : url_components := mk_url "g.api.mega.co.nz" 443 "/cs" true.

Definition ex_post_ok : post_answers :=
  mk_post_answers ex_zeroed (Some ex_url) (Some 10%nat) (Some 11%nat) true.
Definition ex_post_dirty : post_answers :=
  mk_post_answers ex_dirty (Some ex_url) (Some 10%nat) (Some 11%nat) true.
Definition ex_post_bad_url : post_answers :=
  mk_post_answers ex_zeroed None None None false.

(** Every call succeeds; the headers announce gzip and two bytes; inflate
    ends the stream having produced "{}". *)
Definition ex_gzip : answers :=
  mk_answers true Z_STREAM_END 22 [x7b; x7d] true (Some 200) (Some 2)
             (Some "gzip"%string) 0 true true.

(** Every call succeeds; the headers carry no Original-Content-Length. *)
Definition ex_plain : answers :=
  mk_answers true Z_OK 0 [] true (Some 200) None None 0 true true.

Definition ex_callback (env : answers) (st : callback_status) (info len : Z)
    : op :=
  Callback env (Some 11%nat) 0%nat st info len.

(** post(), the body sent in three pieces, the headers received. *)
Definition ex_until_headers (penv : post_answers) (env : answers) : list op :=
  [ Post penv 0%nat None 0;
    ex_callback env WINHTTP_CALLBACK_STATUS_SENDREQUEST_COMPLETE 0 0;
    ex_callback env WINHTTP_CALLBACK_STATUS_WRITE_COMPLETE 0 0;
    ex_callback env WINHTTP_CALLBACK_STATUS_WRITE_COMPLETE 0 0;
    ex_callback env WINHTTP_CALLBACK_STATUS_HEADERS_AVAILABLE 0 0 ].

(** The request and its context once the gzip headers are in. *)
Definition ex_req_streaming : HttpReq :=
  mk_req REQ_INFLIGHT 200 (Some 0%nat) "https://g.api.mega.co.nz/cs" ex_body
         [x00; x00] None 0 2 false REQ_JSON.
Definition ex_ctx_streaming : WinHttpContext :=
  mk_ctx (Some 11%nat) (Some 10%nat) (Some 0%nat) 7 7 ex_body true
         (mk_z 0 2 0 true).
Definition ex_streaming : state :=
  mk_state {[ 0%nat := ex_req_streaming ]} {[ 0%nat := ex_ctx_streaming ]} ex_io.

(** The same two after cancel(). *)
Definition ex_req_cancelled : HttpReq :=
  set_httpiohandle None (set_status REQ_FAILURE (set_httpstatus 0 ex_req_streaming)).
Definition ex_ctx_cancelled : WinHttpContext := set_req None ex_ctx_streaming.
Definition ex_cancelled : state :=
  mk_state {[ 0%nat := ex_req_cancelled ]} {[ 0%nat := ex_ctx_cancelled ]} ex_io.

(** The whole exchange up to natural completion: the server's plain reply
    is announced, and the transfer ends with a chunk size of zero. *)
Definition ex_until_complete : list op :=
  ex_until_headers ex_post_ok ex_plain
  ++ [ex_callback ex_plain WINHTTP_CALLBACK_STATUS_DATA_AVAILABLE 0 0].

(** ** The remaining members of WinHttpIO *)

Definition set_waiter (v : option nat) (d : WinHttpIO) : WinHttpIO :=
  mk_io (hSession d) (csHTTP d) v (noinetds d) (success d).

(** [WinHttpIO::addevents]: ensure wakeup from WinHttpIO events.  The two
    statements after the assignment hand the wakeup event and the address
    of the critical section to the waiter object, which is not part of the
    driver's state. *)
Definition addevents (cwaiter : nat) (flags : Z) : M unit :=
  upd_io (set_waiter (Some cwaiter)).

(** [WinHttpIO::postpos]: supply progress information on POST data. *)
Definition WinHttpIO_postpos (handle : nat) : M Z :=
  do c <- get_ctx handle;
  ret (postpos c).

(** [WinHttpIO::doio]: process events. *)
Definition doio : M bool := ret false.

(** ** Requests and contexts that point at each other *)

(** Every back link of a context is answered by the request's
    httpiohandle, and every httpiohandle by the context's back link. *)
Definition linked (s : state) : Prop :=
  (forall cp c rp, ctxs s !! cp = Some c -> req c = Some rp ->
     exists r, reqs s !! rp = Some r /\ httpiohandle r = Some cp)
  /\ (forall rp r cp, reqs s !! rp = Some r -> httpiohandle r = Some cp ->
        exists c, ctxs s !! cp = Some c /\ req c = Some rp).

(** The calls the application and WinHTTP may make in a state: post() for
    a live request that has no context attached, cancel() for a live
    request, a callback for a live context, HANDLE_CLOSING only once the
    context is detached. *)
Definition admissible (s : state) (o : op) : Prop :=
  match o with
  | Post _ rp _ _ => exists r, reqs s !! rp = Some r /\ httpiohandle r = None
  | Cancel rp => is_Some (reqs s !! rp)
  | Callback _ _ cp st _ _ =>
      exists c, ctxs s !! cp = Some c
                /\ (st = WINHTTP_CALLBACK_STATUS_HANDLE_CLOSING -> req c = None)
  end.

(** Each call of the sequence is admissible in the state it is made in. *)
Fixpoint admissible_run (chunk : Z) (os : list op) (s : state) : Prop :=
  match os with
  | [] => True
  | o :: os =>
      admissible s o
      /\ forall s' e, step chunk o s = Some (tt, s', e) ->
                      admissible_run chunk os s'
  end.

(** What one callback does to the request [rp] (record [r]) and the
    context [cp] (record [c]) it is delivered for, [s'] being the state
    and [e] the calls it leaves. *)
Definition callback_effect (s : state) (cp rp : nat) (c : WinHttpContext)
    (r : HttpReq) (env : answers) (st : callback_status)
    (s' : state) (e : list oscall) : Prop :=
  exists r' c',
    reqs s' !! rp = Some r' /\ ctxs s' !! cp = Some c'
    /\ (forall p, p <> rp -> reqs s' !! p = reqs s !! p)
    /\ (forall p, p <> cp -> ctxs s' !! p = ctxs s !! p)
    /\ (hSession (httpio s') = hSession (httpio s)
        /\ csHTTP (httpio s') = csHTTP (httpio s)
        /\ waiter (httpio s') = waiter (httpio s))
    /\ (hRequest c' = hRequest c /\ hConnect c' = hConnect c
        /\ postlen c' = postlen c)
    /\ ((req c' = Some rp /\ httpiohandle r' = Some cp
         /\ forall h, ~ In (WinHttpCloseHandle h) e)
        \/ (req c' = None /\ httpiohandle r' = None
            /\ status r' = REQ_FAILURE /\ httpstatus r' = 0
            /\ In SetEvent e
            /\ (forall h, hConnect c = Some h -> In (WinHttpCloseHandle h) e)
            /\ (forall h, hRequest c = Some h -> In (WinHttpCloseHandle h) e)))
    /\ (status r' <> status r -> In SetEvent e)
    /\ (forall up, In (Inetstatus up) e ->
          is_Some (waiter (httpio s))
          /\ ((up = true
               /\ st = WINHTTP_CALLBACK_STATUS_HEADERS_AVAILABLE
               /\ noinetds (httpio s) = true
               /\ query_data_available env = true)
              \/ (up = false
                  /\ st = WINHTTP_CALLBACK_STATUS_REQUEST_ERROR
                  /\ last_error env <> ERROR_WINHTTP_TIMEOUT))).

(** ** What post() and the upload come to *)

(** Every set-up call of post() succeeds. *)
Definition post_ok (env : post_answers) : bool :=
  match crack_url env, connect env, open_request env with
  | Some _, Some _, Some _ => send_request env
  | _, _, _ => false
  end.

(** post() asks for a gzip reply: a JSON request, or a binary one without a
    buffer of the caller's. *)
Definition wants_gzip (r : HttpReq) : bool :=
  match type r with REQ_JSON => true | REQ_BINARY => negb (non_null (buf r)) end.

(** A request in flight has a live context attached whose cursor lies
    within the body. *)
Definition inflight_ok (s : state) : Prop :=
  forall rp r, reqs s !! rp = Some r -> status r = REQ_INFLIGHT ->
    exists cp c, httpiohandle r = Some cp /\ ctxs s !! cp = Some c
                 /\ 0 <= postpos c <= postlen c /\ postlen c < DWORD_MAX.

(** The region of the body a write hands to WinHTTP: offset and length. *)
Definition write_of (c : oscall) : option (Z * Z) :=
  match c with
  | WinHttpWriteData _ pos len => Some (pos, len)
  | _ => None
  end.

Definition writes (e : list oscall) : list (Z * Z) := omap write_of e.

(** The regions follow one another from [from] up to [to], none empty. *)
Fixpoint contiguous (from to : Z) (l : list (Z * Z)) : Prop :=
  match l with
  | [] => from = to
  | (pos, len) :: l => pos = from /\ 0 < len /\ contiguous (from + len) to l
  end.

(** The bytes of a region. *)
Definition piece (data : list byte) (w : Z * Z) : list byte :=
  take (Z.to_nat (snd w)) (drop (Z.to_nat (fst w)) data).

(** ** Further sample states *)

(** post() has handed over the first three bytes of the body. *)
Definition ex_req_sending : HttpReq :=
  set_status REQ_INFLIGHT (set_httpiohandle (Some 0%nat) ex_req).
Definition ex_ctx_sending : WinHttpContext :=
  mk_ctx (Some 11%nat) (Some 10%nat) (Some 0%nat) 3 7 ex_body false
         (mk_z 0 0 0 false).
Definition ex_sending : state :=
  mk_state {[ 0%nat := ex_req_sending ]} {[ 0%nat := ex_ctx_sending ]} ex_io.

(** WinHttpWriteData fails. *)
Definition ex_write_fails : answers :=
  mk_answers true Z_OK 0 [] true (Some 200) None None 0 false true.

(** A download into a buffer of the caller's, on a context whose gzip
    flag is set. *)
Definition ex_req_raw : HttpReq :=
  mk_req REQ_INFLIGHT 0 (Some 0%nat) "https://g.api.mega.co.nz/dl" [] []
         (Some [x00; x00]) 0 0 true REQ_BINARY.
Definition ex_raw : state :=
  mk_state {[ 0%nat := ex_req_raw ]} {[ 0%nat := ex_ctx_streaming ]} ex_io.

(** post() and the first completion WinHTTP reports. *)
Definition ex_first_write : list op :=
  [ Post ex_post_ok 0%nat None 0;
    ex_callback ex_plain WINHTTP_CALLBACK_STATUS_SENDREQUEST_COMPLETE 0 0 ].

(** The reply breaks off: inflate consumes the chunk, produces one byte
    of the two declared and asks for more input (Z_OK). *)
Definition ex_short : answers :=
  mk_answers true Z_OK 22 [x7b] true (Some 200) (Some 2)
             (Some "gzip"%string) 0 true true.

(** The gzip exchange of the sample session, the body broken off after
    one chunk: the headers, one chunk of data, the chunk size 0. *)
Definition ex_until_short : list op :=
  ex_until_headers ex_post_ok ex_gzip
  ++ [ex_callback ex_short WINHTTP_CALLBACK_STATUS_DATA_AVAILABLE 22 4;
      ex_callback ex_short WINHTTP_CALLBACK_STATUS_DATA_AVAILABLE 0 4].

(** A relation between the state before and the state after, whatever
    the computation answers. *)
Definition preserves {A} (R : relation state) (m : M A) : Prop :=
  forall s a s' e, m s = Some (a, s', e) -> R s s'.

(** ** Basic facts *)

Lemma state_eta s : mk_state (reqs s) (ctxs s) (httpio s) = s.
Proof. by destruct s. Qed.

Lemma io_eta d n : set_csHTTP (csHTTP d) (set_csHTTP n d) = d.
Proof. by destruct d. Qed.

Lemma locked_state_eta s n :
  mk_state (reqs s) (ctxs s)
           (set_csHTTP (csHTTP (httpio s)) (set_csHTTP n (httpio s))) = s.
Proof. rewrite io_eta. apply state_eta. Qed.

Lemma bind_Some {A B} (m : M A) (k : A -> M B) s b s' e :
  bind m k s = Some (b, s', e) ->
  exists a s1 e1 e2, m s = Some (a, s1, e1) /\ k a s1 = Some (b, s', e2)
                     /\ e = e1 ++ e2.
Proof.
  unfold bind. destruct (m s) as [[[a s1] e1]|] eqn:Hm; [|done].
  destruct (k a s1) as [[[b' s2] e2]|] eqn:Hk; [|done].
  intros [= <- <- <-]. exists a, s1, e1, e2. by rewrite Hk.
Qed.

(** Unfolding the monad on a state whose lookups are known. *)
Ltac known :=
  repeat match goal with
         | H : _ !! _ = _ |- _ => rewrite H
         | H : req _ = _ |- _ => rewrite H
         | H : httpiohandle _ = _ |- _ => rewrite H
         | H : gzip _ = _ |- _ => rewrite H
         | H : buf _ = _ |- _ => rewrite H
         end.

Ltac drive :=
  unfold bind, get_req, get_ctx, get_io, upd_req, upd_ctx, upd_io, call, ret,
         httpevent, entercs, leavecs, new_ctx, delete_ctx, abort;
  repeat (progress (simpl; known; rewrite ?lookup_insert_eq)).

Lemma cancel_attached s rp r cp c :
  reqs s !! rp = Some r -> httpiohandle r = Some cp -> ctxs s !! cp = Some c ->
  cancel rp s = Some (tt, cancelled s rp r cp c, close_calls c).
Proof.
  intros Hr Hh Hc. unfold cancel, cancelled, close_calls. drive.
  rewrite !insert_insert_eq.
  destruct (hConnect c), (hRequest c); reflexivity.
Qed.

Lemma cancel_detached s rp r :
  reqs s !! rp = Some r -> httpiohandle r = None ->
  cancel rp s = Some (tt, s, []).
Proof. intros Hr Hh. unfold cancel. by drive. Qed.

(** ** Relations every step of a computation respects *)

Section Preserves.
Variable R : relation state.
Hypothesis R_preorder : PreOrder R.

Lemma preserves_ret {A} (a : A) : preserves R (ret a).
Proof. intros s a' s' e [= _ <- _]. reflexivity. Qed.

Lemma preserves_abort {A} : preserves R (@abort A).
Proof. intros s a s' e [=]. Qed.

Lemma preserves_call c : preserves R (call c).
Proof. intros s a s' e [= _ <- _]. reflexivity. Qed.

Lemma preserves_bind {A B} (m : M A) (k : A -> M B) :
  preserves R m -> (forall a, preserves R (k a)) -> preserves R (bind m k).
Proof.
  intros Hm Hk s b s' e (a & s1 & e1 & e2 & H1 & H2 & _)%bind_Some.
  transitivity s1; [by eapply Hm | by eapply Hk].
Qed.

Lemma preserves_get_req p : preserves R (get_req p).
Proof.
  intros s a s' e. unfold get_req. destruct (reqs s !! p); [|done].
  intros [= _ <- _]. reflexivity.
Qed.

Lemma preserves_get_ctx p : preserves R (get_ctx p).
Proof.
  intros s a s' e. unfold get_ctx. destruct (ctxs s !! p); [|done].
  intros [= _ <- _]. reflexivity.
Qed.

Lemma preserves_get_io : preserves R get_io.
Proof. intros s a s' e [= _ <- _]. reflexivity. Qed.

Lemma preserves_httpevent : preserves R httpevent.
Proof. apply preserves_call. Qed.

Lemma preserves_upd_req p f :
  (forall s r, reqs s !! p = Some r ->
               R s (mk_state (<[p := f r]> (reqs s)) (ctxs s) (httpio s))) ->
  preserves R (upd_req p f).
Proof.
  intros H s a s' e. unfold upd_req.
  destruct (reqs s !! p) eqn:E; [|done]. intros [= _ <- _]. by apply H.
Qed.

Lemma preserves_upd_ctx p f :
  (forall s c, ctxs s !! p = Some c ->
               R s (mk_state (reqs s) (<[p := f c]> (ctxs s)) (httpio s))) ->
  preserves R (upd_ctx p f).
Proof.
  intros H s a s' e. unfold upd_ctx.
  destruct (ctxs s !! p) eqn:E; [|done]. intros [= _ <- _]. by apply H.
Qed.

Lemma preserves_upd_io f :
  (forall s, R s (mk_state (reqs s) (ctxs s) (f (httpio s)))) ->
  preserves R (upd_io f).
Proof. intros H s a s' e [= _ <- _]. apply H. Qed.

Lemma preserves_leavecs :
  (forall s f, R s (mk_state (reqs s) (ctxs s) (f (httpio s)))) ->
  preserves R leavecs.
Proof.
  intros H s a s' e. unfold leavecs. destruct (csHTTP (httpio s)); [done|].
  intros [= _ <- _]. apply H.
Qed.
End Preserves.

(** Splits a computation along its binds and branches; what is left are
    the heap updates, for the relation at hand to account for. *)
Ltac preserve_step :=
  first
    [ apply preserves_ret | apply preserves_abort | apply preserves_call
    | apply preserves_get_req | apply preserves_get_ctx | apply preserves_get_io
    | apply preserves_httpevent
    | apply preserves_bind; [| | intros ?]
    | match goal with
      | |- preserves _ (match ?x with _ => _ end) => destruct x
      | |- PreOrder _ => typeclasses eauto
      end ].

Ltac preserve := repeat preserve_step.

(** ** Contexts are deleted on HANDLE_CLOSING only *)

#[local] Instance keeps_ctx_preorder cp : PreOrder (keeps_ctx cp).
Proof. split; unfold keeps_ctx; [intros s | intros s1 s2 s3]; auto. Qed.

Lemma keeps_ctx_reqs cp s rs d :
  keeps_ctx cp s (mk_state rs (ctxs s) d).
Proof. by unfold keeps_ctx. Qed.

Lemma keeps_ctx_insert cp s rs p c d :
  keeps_ctx cp s (mk_state rs (<[p := c]> (ctxs s)) d).
Proof.
  unfold keeps_ctx; simpl. intros H.
  destruct (decide (p = cp)) as [->|Hne];
    [rewrite lookup_insert_eq | rewrite lookup_insert_ne]; eauto.
Qed.

Lemma keeps_ctx_upd_req cp p f : preserves (keeps_ctx cp) (upd_req p f).
Proof. apply preserves_upd_req. intros. apply keeps_ctx_reqs. Qed.

Lemma keeps_ctx_upd_ctx cp p f : preserves (keeps_ctx cp) (upd_ctx p f).
Proof. apply preserves_upd_ctx. intros. apply keeps_ctx_insert. Qed.

Lemma keeps_ctx_upd_io cp f : preserves (keeps_ctx cp) (upd_io f).
Proof. apply preserves_upd_io. intros. apply keeps_ctx_reqs. Qed.

Lemma keeps_ctx_leavecs cp : preserves (keeps_ctx cp) leavecs.
Proof. apply preserves_leavecs. intros. apply keeps_ctx_reqs. Qed.

Lemma keeps_ctx_new_ctx cp c0 : preserves (keeps_ctx cp) (new_ctx c0).
Proof. intros s a s' e [= _ <- _]. apply keeps_ctx_insert. Qed.

Lemma keeps_ctx_delete_other cp p : p <> cp -> preserves (keeps_ctx cp) (delete_ctx p).
Proof.
  intros Hne s a s' e. unfold delete_ctx. destruct (ctxs s !! p); [|done].
  intros [= _ <- _]. unfold keeps_ctx; simpl. by rewrite lookup_delete_ne.
Qed.

Create HintDb keeps discriminated.
#[local] Hint Resolve keeps_ctx_upd_req keeps_ctx_upd_ctx keeps_ctx_upd_io
  keeps_ctx_leavecs keeps_ctx_new_ctx : keeps.

Ltac keeps := preserve; auto with keeps.

Lemma keeps_ctx_cancel cp rp : preserves (keeps_ctx cp) (cancel rp).
Proof. unfold cancel. keeps. Qed.

#[local] Hint Resolve keeps_ctx_cancel : keeps.

Lemma keeps_ctx_inflate cp env p rp : preserves (keeps_ctx cp) (inflate env p rp).
Proof. unfold inflate. keeps. Qed.

#[local] Hint Resolve keeps_ctx_inflate : keeps.

Lemma keeps_ctx_post cp chunk env rp data len :
  preserves (keeps_ctx cp) (post chunk env rp data len).
Proof. unfold post. keeps. Qed.

Lemma keeps_ctx_asynccallback cp chunk env h p st info len :
  ~ (p = cp /\ st = WINHTTP_CALLBACK_STATUS_HANDLE_CLOSING) ->
  preserves (keeps_ctx cp) (asynccallback chunk env h p st info len).
Proof.
  intros Hne.
  unfold asynccallback, on_data_available, on_read_complete,
    on_headers_available, on_request_error, on_secure_failure,
    on_write_complete, reserveput, completeput, setcontentlength, inetstatus,
    entercs.
  destruct st; keeps.
  apply keeps_ctx_delete_other. intros ->. by apply Hne.
Qed.

(** ** C3: a cancelled request and its context *)

(** C3. Once cancel() has detached a request (the request has no context
    attached, the context's back link is NULL): cancel() on the request
    changes nothing and makes no call; asynccallback() for the context with
    any status other than HANDLE_CLOSING finds the NULL back link and
    returns with requests, contexts and driver as they were, having made
    no call; HANDLE_CLOSING deletes the context; and no other call into the
    driver (post, cancel, a callback with another status or for another
    context) makes the context disappear. *)
Theorem cancelled_request_is_inert chunk s rp r cp c :
  reqs s !! rp = Some r -> httpiohandle r = None ->
  ctxs s !! cp = Some c -> req c = None ->
  cancel rp s = Some (tt, s, [])
  /\ (forall env h st info len,
        st <> WINHTTP_CALLBACK_STATUS_HANDLE_CLOSING ->
        asynccallback chunk env h cp st info len s = Some (tt, s, []))
  /\ (forall env h info len,
        asynccallback chunk env h cp WINHTTP_CALLBACK_STATUS_HANDLE_CLOSING
                      info len s
        = Some (tt, mk_state (reqs s) (delete cp (ctxs s)) (httpio s), []))
  /\ (forall o s' e,
        step chunk o s = Some (tt, s', e) -> ctxs s' !! cp = None ->
        exists env h info len,
          o = Callback env h cp WINHTTP_CALLBACK_STATUS_HANDLE_CLOSING info len).
Proof.
  intros Hr Hh Hc Hreq. repeat split.
  - by apply cancel_detached with r.
  - intros env h st info len Hst. unfold asynccallback.
    destruct st; try done; drive; by rewrite locked_state_eta.
  - intros env h info len. unfold asynccallback. by drive.
  - intros o s' e Hstep Hgone.
    assert (Hlive : is_Some (ctxs s !! cp)) by eauto.
    destruct o as [env rp' data len | rp' | env h p st info len]; simpl in Hstep.
    + apply (keeps_ctx_post cp) in Hstep. apply Hstep in Hlive.
      rewrite Hgone in Hlive. by destruct Hlive.
    + apply (keeps_ctx_cancel cp) in Hstep. apply Hstep in Hlive.
      rewrite Hgone in Hlive. by destruct Hlive.
    + destruct (decide (p = cp)) as [->|Hp].
      * destruct st; try by eauto.
        all: apply (keeps_ctx_asynccallback cp) in Hstep; [| by intros [_ ?]].
        all: apply Hstep in Hlive; rewrite Hgone in Hlive; by destruct Hlive.
      * apply (keeps_ctx_asynccallback cp) in Hstep; [| by intros [? _]].
        apply Hstep in Hlive. rewrite Hgone in Hlive. by destruct Hlive.
Qed.

(** ** C10 and C8: the two callbacks that end a transfer step *)

(** C10. READ_COMPLETE reporting zero bytes, for a context still bound to
    its request, changes nothing: requests (buffer, committed bytes,
    status), contexts (cursors) and driver are as before, and no call (no
    chunk-size query, no read, no wakeup) is made. *)
Theorem read_complete_zero_is_noop chunk env h s cp c rp info :
  ctxs s !! cp = Some c -> req c = Some rp ->
  asynccallback chunk env h cp WINHTTP_CALLBACK_STATUS_READ_COMPLETE info 0 s
  = Some (tt, s, []).
Proof.
  intros Hc Hreq. unfold asynccallback, on_read_complete. drive.
  by rewrite locked_state_eta.
Qed.

(** C8. DATA_AVAILABLE with size 0, for a context still bound to its
    request: the status of the request becomes REQ_SUCCESS when httpstatus
    is 200 and REQ_FAILURE otherwise; nothing else of the request changes,
    no other request and no context changes, the driver records the
    success; the calls made are wakeups (SetEvent) and nothing else, so no
    read and no chunk-size query is issued. *)
Theorem data_available_zero_completes chunk env h s cp c rp r len :
  ctxs s !! cp = Some c -> req c = Some rp -> reqs s !! rp = Some r ->
  exists s' r',
    asynccallback chunk env h cp WINHTTP_CALLBACK_STATUS_DATA_AVAILABLE 0 len s
    = Some (tt, s', [SetEvent; SetEvent])
    /\ reqs s' !! rp = Some r'
    /\ status r' = (if httpstatus r =? 200 then REQ_SUCCESS else REQ_FAILURE)
    /\ (httpstatus r' = httpstatus r /\ httpiohandle r' = httpiohandle r
        /\ posturl r' = posturl r /\ out r' = out r /\ in_ r' = in_ r
        /\ buf r' = buf r /\ bufpos r' = bufpos r
        /\ contentlength r' = contentlength r /\ binary r' = binary r
        /\ type r' = type r)
    /\ (forall p, p <> rp -> reqs s' !! p = reqs s !! p)
    /\ ctxs s' = ctxs s
    /\ (success (httpio s') = true
        /\ hSession (httpio s') = hSession (httpio s)
        /\ csHTTP (httpio s') = csHTTP (httpio s)
        /\ waiter (httpio s') = waiter (httpio s)
        /\ noinetds (httpio s') = noinetds (httpio s))
    /\ s' = mk_state
              (<[rp := set_status (if httpstatus r =? 200 then REQ_SUCCESS
                                   else REQ_FAILURE) r]> (reqs s))
              (ctxs s)
              (set_success true (httpio s)).
Proof.
  intros Hc Hreq Hr. unfold asynccallback, on_data_available. drive.
  eexists _, _. split; [reflexivity|]. simpl.
  split; [apply lookup_insert_eq|].
  split; [reflexivity|].
  split; [by repeat split|].
  split; [by intros p Hp; rewrite lookup_insert_ne|].
  split; [reflexivity|].
  split; [by repeat split|].
  by destruct (httpio s).
Qed.

(** ** C2: READ_COMPLETE commits, DATA_AVAILABLE inflates *)

(** C2, as the code has it. READ_COMPLETE carrying n > 0 bytes, for a
    context still bound to its request, commits exactly n bytes through
    completeput() and issues the next chunk-size query, whether gzip is
    active or not; it makes no other call, so nothing is fed to the
    decompressor, unless the query fails, in which case the request is
    cancelled and the wakeup raised.  The decompressor is fed by the
    DATA_AVAILABLE handler: with gzip active and size > 0 it issues the read
    and, that call succeeding, inflates size bytes into the request's
    incoming buffer at the stream's output position. *)
Theorem read_complete_commits chunk env h s cp c rp r info n size len :
  ctxs s !! cp = Some c -> req c = Some rp ->
  reqs s !! rp = Some r -> httpiohandle r = Some cp ->
  n <> 0 ->
  let r1 := set_bufpos (bufpos r + n) r in
  let s1 := mk_state (<[rp := r1]> (reqs s)) (ctxs s) (httpio s) in
  asynccallback chunk env h cp WINHTTP_CALLBACK_STATUS_READ_COMPLETE info n s
  = (if query_data_available env
     then Some (tt, s1, [WinHttpQueryDataAvailable (hRequest c)])
     else Some (tt, cancelled s1 rp r1 cp c,
                WinHttpQueryDataAvailable (hRequest c)
                  :: close_calls c ++ [SetEvent]))
  /\ (gzip c = true -> size <> 0 -> read_data env = true ->
      exists s' e',
        asynccallback chunk env h cp WINHTTP_CALLBACK_STATUS_DATA_AVAILABLE
                      size len s
        = Some (tt, s', WinHttpReadData h size :: Inflate size :: e')
        /\ in_ <$> reqs s' !! rp
           = Some (write_at (next_out (z c)) (inflate_given env) (in_ r))).
Proof.
  intros Hc Hreq Hr Hh Hn r1 s1. split.
  - unfold asynccallback, on_read_complete.
    destruct (Z.eqb_spec n 0) as [|_]; [done|].
    unfold completeput. drive.
    destruct (query_data_available env).
    + drive. subst s1 r1. by rewrite io_eta.
    + erewrite cancel_attached;
        [| simpl; apply lookup_insert_eq | exact Hh | exact Hc].
      drive. unfold cancelled. subst s1 r1. simpl.
      by rewrite io_eta, app_nil_r.
  - intros Hg Hsize Hread.
    unfold asynccallback, on_data_available.
    destruct (Z.eqb_spec size 0) as [|_]; [done|].
    unfold inflate. drive. rewrite Hread. drive.
    destruct (negb (inflate_ret env =? Z_OK)
              && (negb (inflate_ret env =? Z_STREAM_END)
                  || negb (avail_out (z c)
                           - Z.of_nat (length (inflate_given env)) =? 0))).
    + erewrite cancel_attached;
        [| simpl; apply lookup_insert_eq | exact Hh
         | simpl; apply lookup_insert_eq].
      drive. eexists _, _; split; [reflexivity|]. simpl.
      by rewrite lookup_insert_eq.
    + drive. eexists _, _; split; [reflexivity|]. simpl.
      by rewrite lookup_insert_eq.
Qed.

(** ** C4: post() that fails synchronously *)

Lemma fresh_ctx_free s : ctxs s !! fresh (dom (ctxs s)) = None.
Proof. apply not_elem_of_dom, is_fresh. Qed.

(** C4, as the code has it. When a synchronous setup step of post() fails
    (URL conversion or parse, connect, open-request, or send), post()
    returns with the request's status REQ_FAILURE and the context it
    created still attached: httpiohandle points to the new context, whose
    back link points to the request; the handles that were not obtained
    are NULL in it, the ones obtained are kept (for cancel() to close). *)
Theorem post_failure_keeps_context chunk env s rp r data len :
  reqs s !! rp = Some r ->
  crack_url env = None \/ connect env = None \/ open_request env = None
    \/ send_request env = false ->
  let cp := fresh (dom (ctxs s)) in
  exists s' e r' c',
    post chunk env rp data len s = Some (tt, s', e)
    /\ reqs s' !! rp = Some r'
    /\ status r' = REQ_FAILURE
    /\ httpiohandle r' = Some cp
    /\ ctxs s !! cp = None
    /\ ctxs s' !! cp = Some c'
    /\ req c' = Some rp
    /\ hConnect c' = match crack_url env with
                     | Some _ => connect env
                     | None => None
                     end
    /\ hRequest c' = match crack_url env, connect env with
                     | Some _, Some _ => open_request env
                     | _, _ => None
                     end.
Proof.
  intros Hr Hfail cp. unfold post. drive.
  destruct (crack_url env) as [u|]; drive.
  2: { eexists _, _, _, _. split; [reflexivity|]. simpl.
       rewrite !lookup_insert_eq. repeat split; try done. apply fresh_ctx_free. }
  destruct (connect env) as [hc|] eqn:Ec; drive.
  2: { eexists _, _, _, _. split; [reflexivity|]. simpl.
       rewrite !lookup_insert_eq. repeat split; try done. apply fresh_ctx_free. }
  destruct (open_request env) as [hr|] eqn:Eo; drive.
  2: { eexists _, _, _, _. split; [reflexivity|]. simpl.
       rewrite !lookup_insert_eq. repeat split; try done. apply fresh_ctx_free. }
  destruct (send_request env) eqn:Es; [by destruct Hfail as [|[|[|]]]|]. drive.
  eexists _, _, _, _. split; [reflexivity|]. simpl.
  rewrite !lookup_insert_eq. repeat split; try done. apply fresh_ctx_free.
Qed.

(** ** C9: the timeouts post() sets *)

(** C9, as the code has it. post() calls WinHttpSetTimeouts on the request
    handle it has just opened, and on nothing else, with the four values
    0, 20000, 20000 and 1800000 in the order of the WinHTTP prototype:
    resolve = 0, connect = 20000, send = 20000, receive = 1800000
    milliseconds; it does so whenever a request handle was created. *)
Theorem post_sets_timeouts chunk env s rp data len s' e :
  post chunk env rp data len s = Some (tt, s', e) ->
  (forall h t, In (WinHttpSetTimeouts h t) e ->
     h = open_request env /\ is_Some h
     /\ nResolveTimeout t = 0 /\ nConnectTimeout t = 20000
     /\ nSendTimeout t = 20000 /\ nReceiveTimeout t = 1800000)
  /\ (forall u hc hr,
        crack_url env = Some u -> connect env = Some hc ->
        open_request env = Some hr ->
        In (WinHttpSetTimeouts (Some hr) (mk_timeouts 0 20000 20000 1800000)) e).
Proof.
  unfold post. drive.
  destruct (reqs s !! rp) as [r|] eqn:Hr; [|done]. drive.
  destruct (crack_url env) as [u|]; drive.
  2: { intros [= _ <-]. split; [intros h t []|done]. }
  destruct (connect env) as [hc|] eqn:Ec; drive.
  2: { intros [= _ <-]. split; [|done]. intros h t [|[]]; done. }
  destruct (open_request env) as [hr|] eqn:Eo; drive.
  2: { intros [= _ <-]. split; [|done]. intros h t [|[|[]]]; done. }
  destruct (send_request env); drive; intros [= _ <-].
  all: split; [| intros u' hc' hr' _ _ [= <-]; simpl; tauto].
  all: intros h t Hin; simpl in Hin.
  all: destruct Hin as [|[|[[= <- <-]|[|[|[]]]]]]; try done.
  all: repeat split; eauto.
Qed.

(** ** HEADERS_AVAILABLE and the gzip flag *)

Ltac headers_done :=
  eexists _, _, _, _; split; [reflexivity|]; simpl;
  rewrite ?lookup_insert_eq;
  repeat split; intros; simplify_eq/=; try done;
  try (intuition discriminate);
  try (match goal with
       | |- exists e1 e2, ?h1 :: ?h2 :: ?h3 :: _ = _ /\ _ =>
           exists [h1; h2; h3]; eexists; split; [reflexivity|];
           intros x [<-|[<-|[<-|[]]]]; eauto
       end).

Lemma headers_available_gzip chunk env h s cp c rp r info len code :
  ctxs s !! cp = Some c -> req c = Some rp ->
  reqs s !! rp = Some r -> httpiohandle r = Some cp ->
  query_status_code env = Some code ->
  exists s' e r' c',
    asynccallback chunk env h cp WINHTTP_CALLBACK_STATUS_HEADERS_AVAILABLE
                  info len s = Some (tt, s', e)
    /\ reqs s' !! rp = Some r' /\ ctxs s' !! cp = Some c'
    /\ gzip c' = gzip_after_headers env r c
    /\ (buf r = None ->
        forall n, query_original_content_length env = Some n ->
        contentlength r' = n
        /\ (query_content_encoding env = Some "gzip"%string ->
            z c' = mk_z 0 n 0 true /\ in_ r' = resize n (in_ r)
            /\ exists e1 e2,
                 e = e1 ++ InflateInit2 (MAX_WBITS + 16)
                        :: WinHttpQueryDataAvailable (hRequest c) :: e2
                 /\ forall x, In x e1 -> exists q, x = WinHttpQueryHeaders (hRequest c) q))
    /\ (gzip_after_headers env r c = false \/
        query_original_content_length env = None ->
        z c' = z c /\ in_ r' = in_ r /\ ~ In (InflateInit2 (MAX_WBITS + 16)) e)
    /\ (query_original_content_length env = None ->
        contentlength r' = contentlength r).
Proof.
  intros Hc Hreq Hr Hh Hcode.
  unfold asynccallback, on_headers_available, gzip_after_headers,
    setcontentlength, inetstatus.
  drive. rewrite Hcode. drive.
  destruct (buf r) as [b|] eqn:Hbuf; drive.
  - destruct (query_data_available env); drive.
    + destruct (non_null (waiter (httpio s)) && noinetds (httpio s)); drive;
        headers_done.
    + erewrite cancel_attached;
        [| simpl; apply lookup_insert_eq | exact Hh
         | simpl; apply lookup_insert_eq].
      drive. unfold close_calls. simpl.
      destruct (hConnect c), (hRequest c); headers_done.
  - destruct (query_original_content_length env) as [n|] eqn:Hocl; drive.
    + assert (Hg : (exists enc, query_content_encoding env = Some enc
                                /\ (enc =? "gzip")%string = true
                                /\ enc = "gzip"%string)
                   \/ match query_content_encoding env with
                      | Some enc => (enc =? "gzip")%string
                      | None => false
                      end = false
                      /\ query_content_encoding env <> Some "gzip"%string).
      { destruct (query_content_encoding env) as [enc|]; [|by right].
        destruct (String.eqb_spec enc "gzip") as [->|Hne].
        - left. by exists "gzip"%string.
        - right. split; [done|congruence]. }
      destruct Hg as [(enc & -> & Heq & ->)|[Hg Hne]]; [clear Heq|rewrite Hg];
        drive.
      * destruct (query_data_available env); drive.
        -- destruct (non_null (waiter (httpio s)) && noinetds (httpio s));
             drive; headers_done.
        -- erewrite cancel_attached;
             [| simpl; apply lookup_insert_eq | exact Hh
              | simpl; apply lookup_insert_eq].
           drive. unfold close_calls. simpl.
           destruct (hConnect c), (hRequest c); headers_done.
      * destruct (query_data_available env); drive.
        -- destruct (non_null (waiter (httpio s)) && noinetds (httpio s));
             drive; headers_done.
        -- erewrite cancel_attached;
             [| simpl; apply lookup_insert_eq | exact Hh
              | simpl; apply lookup_insert_eq].
           drive. unfold close_calls. simpl.
           destruct (hConnect c), (hRequest c); headers_done.
    + destruct (query_data_available env); drive.
      * destruct (non_null (waiter (httpio s)) && noinetds (httpio s)); drive;
          headers_done.
      * erewrite cancel_attached;
          [| simpl; apply lookup_insert_eq | exact Hh | exact Hc].
        drive. unfold close_calls. simpl.
        destruct (hConnect c), (hRequest c); headers_done.
Qed.

(** ** C7: the inflate step *)

Lemma length_resize n l : length (resize n l) = Z.to_nat n.
Proof.
  unfold resize. rewrite length_app, length_take, length_replicate. lia.
Qed.

Lemma inflate_failed_test t avail :
  negb (t =? Z_OK) && (negb (t =? Z_STREAM_END) || negb (avail =? 0)) = true
  <-> inflate_failed t avail.
Proof.
  unfold inflate_failed.
  destruct (Z.eqb_spec t Z_OK), (Z.eqb_spec t Z_STREAM_END),
    (Z.eqb_spec avail 0); simpl; unfold Z_OK, Z_STREAM_END in *;
    intuition (try congruence; try lia).
Qed.

Lemma data_available_inflates chunk env h s cp c rp r size len :
  ctxs s !! cp = Some c -> req c = Some rp ->
  reqs s !! rp = Some r -> httpiohandle r = Some cp ->
  gzip c = true -> size <> 0 -> read_data env = true ->
  let n := Z.of_nat (length (inflate_given env)) in
  let c1 := set_z (mk_z (size - inflate_taken env) (avail_out (z c) - n)
                        (next_out (z c) + n) (inited (z c))) c in
  let r1 := set_in (write_at (next_out (z c)) (inflate_given env) (in_ r)) r in
  let s1 := mk_state (<[rp := r1]> (reqs s)) (<[cp := c1]> (ctxs s)) (httpio s) in
  asynccallback chunk env h cp WINHTTP_CALLBACK_STATUS_DATA_AVAILABLE size len s
  = if negb (inflate_ret env =? Z_OK)
       && (negb (inflate_ret env =? Z_STREAM_END)
           || negb (avail_out (z c) - n =? 0))
    then Some (tt, cancelled s1 rp r1 cp c1,
               WinHttpReadData h size :: Inflate size
                 :: close_calls c ++ [SetEvent])
    else Some (tt, s1, [WinHttpReadData h size; Inflate size; SetEvent]).
Proof.
  intros Hc Hreq Hr Hh Hg Hsize Hread n c1 r1 s1.
  unfold asynccallback, on_data_available.
  destruct (Z.eqb_spec size 0) as [|_]; [done|].
  unfold inflate. drive. rewrite Hread. drive.
  fold n. rewrite !insert_insert_eq.
  destruct (negb (inflate_ret env =? Z_OK)
            && (negb (inflate_ret env =? Z_STREAM_END)
                || negb (avail_out (z c) - n =? 0))).
  - erewrite cancel_attached;
      [| simpl; apply lookup_insert_eq | exact Hh
       | simpl; apply lookup_insert_eq].
    drive. unfold cancelled, close_calls. subst s1 r1 c1. simpl.
    by rewrite !insert_insert_eq, io_eta, app_nil_r.
  - drive. subst s1 r1 c1. by rewrite io_eta.
Qed.

#[local] Instance keeps_stream_preorder cp rp : PreOrder (keeps_stream cp rp).
Proof.
  split.
  - intros s c r Hc Hr. by exists c, r.
  - intros s1 s2 s3 H12 H23 c r Hc Hr.
    destruct (H12 c r Hc Hr) as (c2 & r2 & Hc2 & Hr2 & Hz2 & Hg2 & Hl2).
    destruct (H23 c2 r2 Hc2 Hr2) as (c3 & r3 & Hc3 & Hr3 & Hz3 & Hg3 & Hl3).
    exists c3, r3. repeat split; congruence.
Qed.

Lemma keeps_stream_upd_req cp rp p f :
  (forall r, contentlength (f r) = contentlength r) ->
  preserves (keeps_stream cp rp) (upd_req p f).
Proof.
  intros Hf. apply preserves_upd_req. intros s r0 Hp c r Hc Hr. simpl.
  destruct (decide (p = rp)) as [->|Hne].
  - rewrite lookup_insert_eq. exists c, (f r0).
    assert (r0 = r) as -> by congruence. by rewrite Hf.
  - rewrite lookup_insert_ne by done. by exists c, r.
Qed.

Lemma keeps_stream_upd_ctx cp rp p f :
  (forall c, z (f c) = z c /\ gzip (f c) = gzip c) ->
  preserves (keeps_stream cp rp) (upd_ctx p f).
Proof.
  intros Hf. apply preserves_upd_ctx. intros s c0 Hp c r Hc Hr. simpl.
  destruct (decide (p = cp)) as [->|Hne].
  - rewrite lookup_insert_eq. exists (f c0), r.
    assert (c0 = c) as -> by congruence.
    by destruct (Hf c) as [-> ->].
  - rewrite lookup_insert_ne by done. by exists c, r.
Qed.

Lemma keeps_stream_io cp rp s d :
  keeps_stream cp rp s (mk_state (reqs s) (ctxs s) d).
Proof. intros c r Hc Hr. by exists c, r. Qed.

Lemma keeps_stream_upd_io cp rp f : preserves (keeps_stream cp rp) (upd_io f).
Proof. apply preserves_upd_io. intros. apply keeps_stream_io. Qed.

Lemma keeps_stream_leavecs cp rp : preserves (keeps_stream cp rp) leavecs.
Proof. apply preserves_leavecs. intros. apply keeps_stream_io. Qed.

Create HintDb stream discriminated.
#[local] Hint Resolve keeps_stream_upd_io keeps_stream_leavecs : stream.
#[local] Hint Extern 1 (preserves (keeps_stream _ _) (upd_req _ _)) =>
  apply keeps_stream_upd_req; intros; reflexivity : stream.
#[local] Hint Extern 1 (preserves (keeps_stream _ _) (upd_ctx _ _)) =>
  apply keeps_stream_upd_ctx; intros; split; reflexivity : stream.

Lemma keeps_stream_cancel cp rp p : preserves (keeps_stream cp rp) (cancel p).
Proof. unfold cancel. preserve; auto with stream. Qed.

#[local] Hint Resolve keeps_stream_cancel : stream.

Lemma keeps_stream_asynccallback cp rp chunk env h p st info len :
  st <> WINHTTP_CALLBACK_STATUS_HANDLE_CLOSING ->
  st <> WINHTTP_CALLBACK_STATUS_DATA_AVAILABLE ->
  st <> WINHTTP_CALLBACK_STATUS_HEADERS_AVAILABLE ->
  preserves (keeps_stream cp rp) (asynccallback chunk env h p st info len).
Proof.
  intros H1 H2 H3.
  unfold asynccallback, on_read_complete, on_request_error,
    on_secure_failure, on_write_complete, completeput, inetstatus, entercs.
  destruct st; try done; preserve; auto with stream.
Qed.

Lemma stream_inv_after_inflate env r c :
  zlib_contract env c -> stream_inv r c ->
  let n := Z.of_nat (length (inflate_given env)) in
  0 <= next_out (z c) + n /\ 0 <= avail_out (z c) - n
  /\ next_out (z c) + n + (avail_out (z c) - n) = contentlength r.
Proof. unfold zlib_contract, stream_inv. lia. Qed.

Ltac stream_done :=
  eexists _, _; simpl; rewrite ?lookup_insert_eq;
  (split; [first [reflexivity | eassumption]
          | split; [first [reflexivity | eassumption] |]]);
  unfold stream_ok, stream_inv in *; simpl in *;
  try (intros; first [congruence | lia | auto]).

Lemma stream_ok_data_available chunk env h s cp c rp r size len s' e :
  ctxs s !! cp = Some c -> req c = Some rp ->
  reqs s !! rp = Some r -> httpiohandle r = Some cp ->
  stream_ok r c -> zlib_contract env c ->
  asynccallback chunk env h cp WINHTTP_CALLBACK_STATUS_DATA_AVAILABLE size len s
  = Some (tt, s', e) ->
  exists r' c', reqs s' !! rp = Some r' /\ ctxs s' !! cp = Some c'
                /\ stream_ok r' c'.
Proof.
  intros Hc Hreq Hr Hh Hok Hz.
  destruct (decide (size = 0)) as [->|Hsize].
  { unfold asynccallback, on_data_available. drive. intros [= <- _].
    stream_done. }
  destruct (gzip c) eqn:Hg.
  - destruct (read_data env) eqn:Hread.
    + rewrite (data_available_inflates _ _ _ _ _ _ _ _ _ _ Hc Hreq Hr Hh Hg Hsize Hread).
      pose proof (stream_inv_after_inflate env r c Hz (Hok Hg)) as Hinv.
      destruct (negb _ && _); intros [= <- _]; unfold cancelled; stream_done.
    + unfold asynccallback, on_data_available.
      destruct (Z.eqb_spec size 0) as [|_]; [done|].
      drive. rewrite Hread.
      erewrite cancel_attached; [| exact Hr | exact Hh | exact Hc].
      drive. intros [= <- _]. unfold cancelled. stream_done.
  - unfold asynccallback, on_data_available, reserveput.
    destruct (Z.eqb_spec size 0) as [|_]; [done|].
    drive.
    destruct (buf r) as [b|] eqn:Hbuf; drive.
    + destruct (read_data env); drive.
      * intros [= <- _]. stream_done.
      * erewrite cancel_attached; [| exact Hr | exact Hh | exact Hc].
        drive. intros [= <- _]. unfold cancelled. stream_done.
    + destruct (Z.of_nat (length (in_ r)) <? bufpos r + size); drive.
      * destruct (read_data env); drive.
        -- intros [= <- _]. stream_done.
        -- erewrite cancel_attached;
             [| simpl; apply lookup_insert_eq | exact Hh | exact Hc].
           drive. intros [= <- _]. unfold cancelled. stream_done.
      * destruct (read_data env); drive.
        -- intros [= <- _]. stream_done.
        -- erewrite cancel_attached; [| exact Hr | exact Hh | exact Hc].
           drive. intros [= <- _]. unfold cancelled. stream_done.
Qed.

Lemma stream_ok_headers_available chunk env h s cp c rp r info len s' e :
  ctxs s !! cp = Some c -> req c = Some rp ->
  reqs s !! rp = Some r -> httpiohandle r = Some cp ->
  stream_ok r c ->
  (forall n, query_original_content_length env = Some n -> 0 <= n) ->
  asynccallback chunk env h cp WINHTTP_CALLBACK_STATUS_HEADERS_AVAILABLE
                info len s = Some (tt, s', e) ->
  exists r' c', reqs s' !! rp = Some r' /\ ctxs s' !! cp = Some c'
                /\ stream_ok r' c'.
Proof.
  intros Hc Hreq Hr Hh Hok Hpos.
  destruct (query_status_code env) as [code|] eqn:Hcode.
  - destruct (headers_available_gzip chunk env h s cp c rp r info len code
                Hc Hreq Hr Hh Hcode)
      as (s1 & e1 & r' & c' & -> & Hr' & Hc' & Hg' & Hlen & Hsame & Hcl).
    intros [= <- _]. exists r', c'. split; [done|split; [done|]].
    intros Hgz. rewrite Hg' in Hgz. unfold gzip_after_headers in *.
    destruct (buf r) eqn:Hbuf; [done|].
    destruct (query_original_content_length env) as [n|] eqn:Hocl.
    + destruct (query_content_encoding env) as [enc|] eqn:Henc; [|done].
      apply String.eqb_eq in Hgz as ->.
      destruct (Hlen eq_refl n eq_refl) as [Hn Hgzip].
      destruct (Hgzip eq_refl) as (Hz' & _).
      unfold stream_inv. rewrite Hz', Hn. simpl. specialize (Hpos n eq_refl). lia.
    + destruct (Hsame (or_intror eq_refl)) as (Hz' & _).
      unfold stream_inv. rewrite Hz', (Hcl eq_refl). by apply Hok.
  - unfold asynccallback, on_headers_available. drive. rewrite Hcode.
    erewrite cancel_attached; [| exact Hr | exact Hh | exact Hc].
    drive. intros [= <- _]. unfold cancelled. stream_done.
Qed.

Lemma write_at_region (off : Z) (g l : list byte) :
  0 <= off -> off + Z.of_nat (length g) <= Z.of_nat (length l) ->
  length (write_at off g l) = length l
  /\ take (Z.to_nat (off + Z.of_nat (length g))) (write_at off g l)
     = take (Z.to_nat off) l ++ g
  /\ drop (Z.to_nat (off + Z.of_nat (length g))) (write_at off g l)
     = drop (Z.to_nat (off + Z.of_nat (length g))) l.
Proof.
  intros Hoff Hfit. unfold write_at.
  assert (Hlen : length (take (Z.to_nat off) l) = Z.to_nat off)
    by (rewrite length_take; lia).
  replace (Z.to_nat (off + Z.of_nat (length g)))
    with (Z.to_nat off + length g)%nat by lia.
  split; [|split].
  - rewrite !length_app, length_drop, Hlen. lia.
  - rewrite app_assoc.
    rewrite take_app_length'; [done|]. rewrite length_app, Hlen. done.
  - rewrite app_assoc.
    rewrite drop_app_length'; [done|]. rewrite length_app, Hlen. done.
Qed.


(** C7, as the code has it. The streaming decompression of a response,
    for a context bound to its request.
    Set-up: HEADERS_AVAILABLE that takes the gzip path leaves the stream
    with nothing written and the declared content length as room, [in]
    being sized to that length.
    Feed: DATA_AVAILABLE with gzip active, once the read is issued, runs
    inflate, which (writing no more than the room it is given) keeps the
    bytes written plus the room left equal to the declared content length,
    so the bytes written never exceed it; what inflate produces lands in
    [in] right after the bytes written before, the rest of [in] and its
    length staying as they were; the request is cancelled and ends in
    REQ_FAILURE exactly when inflate returns a code that is neither Z_OK
    nor Z_STREAM_END, or returns Z_STREAM_END while room is left, and
    stays attached with its status unchanged otherwise; a return of
    Z_STREAM_END with no room left means the bytes written equal the
    declared content length.
    Every other callback for the context keeps this consistency.
    Completion: the chunk size 0 ends the transfer with the status taken
    from httpstatus alone; it calls no inflate and looks neither at the
    stream nor at the bytes written, which stay as they are. *)
Theorem gzip_stream_decodes chunk env h s cp c rp r :
  ctxs s !! cp = Some c -> req c = Some rp ->
  reqs s !! rp = Some r -> httpiohandle r = Some cp ->
  (forall info len code n,
     buf r = None -> query_status_code env = Some code ->
     query_original_content_length env = Some n ->
     query_content_encoding env = Some "gzip"%string -> 0 <= n ->
     exists s' e r' c',
       asynccallback chunk env h cp WINHTTP_CALLBACK_STATUS_HEADERS_AVAILABLE
                     info len s = Some (tt, s', e)
       /\ reqs s' !! rp = Some r' /\ ctxs s' !! cp = Some c'
       /\ gzip c' = true /\ contentlength r' = n
       /\ Z.of_nat (length (in_ r')) = n
       /\ next_out (z c') = 0 /\ avail_out (z c') = n)
  /\ (forall size len,
        gzip c = true -> size <> 0 -> read_data env = true ->
        zlib_contract env c -> stream_inv r c ->
        exists s' e r' c',
          asynccallback chunk env h cp WINHTTP_CALLBACK_STATUS_DATA_AVAILABLE
                        size len s = Some (tt, s', e)
          /\ reqs s' !! rp = Some r' /\ ctxs s' !! cp = Some c'
          /\ contentlength r' = contentlength r
          /\ next_out (z c')
             = next_out (z c) + Z.of_nat (length (inflate_given env))
          /\ stream_inv r' c'
          /\ next_out (z c') <= contentlength r'
          /\ (Z.of_nat (length (in_ r)) = contentlength r ->
              length (in_ r') = length (in_ r)
              /\ take (Z.to_nat (next_out (z c'))) (in_ r')
                 = take (Z.to_nat (next_out (z c))) (in_ r)
                   ++ inflate_given env
              /\ drop (Z.to_nat (next_out (z c'))) (in_ r')
                 = drop (Z.to_nat (next_out (z c'))) (in_ r))
          /\ (inflate_failed (inflate_ret env) (avail_out (z c'))
              <-> req c' = None /\ status r' = REQ_FAILURE)
          /\ (~ inflate_failed (inflate_ret env) (avail_out (z c'))
              -> req c' = Some rp /\ httpiohandle r' = Some cp
                 /\ status r' = status r)
          /\ (inflate_ret env = Z_STREAM_END -> avail_out (z c') = 0 ->
              next_out (z c') = contentlength r'))
  /\ (forall st info len s' e,
        st <> WINHTTP_CALLBACK_STATUS_HANDLE_CLOSING ->
        stream_ok r c -> zlib_contract env c ->
        (forall n, query_original_content_length env = Some n -> 0 <= n) ->
        asynccallback chunk env h cp st info len s = Some (tt, s', e) ->
        exists r' c', reqs s' !! rp = Some r' /\ ctxs s' !! cp = Some c'
                      /\ stream_ok r' c')
  /\ (forall len,
        exists s' e r',
          asynccallback chunk env h cp WINHTTP_CALLBACK_STATUS_DATA_AVAILABLE
                        0 len s = Some (tt, s', e)
          /\ reqs s' !! rp = Some r' /\ ctxs s' !! cp = Some c
          /\ status r' = (if httpstatus r =? 200 then REQ_SUCCESS
                          else REQ_FAILURE)
          /\ httpiohandle r' = Some cp
          /\ in_ r' = in_ r /\ contentlength r' = contentlength r
          /\ (forall a, ~ In (Inflate a) e)).
Proof.
  intros Hc Hreq Hr Hh. split; [|split; [|split]].
  - intros info len code n Hbuf Hcode Hocl Henc Hn.
    destruct (headers_available_gzip chunk env h s cp c rp r info len code
                Hc Hreq Hr Hh Hcode)
      as (s1 & e1 & r' & c' & Heq & Hr' & Hc' & Hg' & Hlen & _).
    destruct (Hlen Hbuf n Hocl) as [Hcl Hgzip].
    destruct (Hgzip Henc) as (Hz' & Hin & _).
    exists s1, e1, r', c'. repeat split; try done.
    + rewrite Hg'. unfold gzip_after_headers. by rewrite Hbuf, Hocl, Henc.
    + rewrite Hin, length_resize. lia.
    + by rewrite Hz'.
    + by rewrite Hz'.
  - intros size len Hg Hsize Hread Hz Hinv.
    rewrite (data_available_inflates _ _ _ _ _ _ _ _ _ _ Hc Hreq Hr Hh Hg Hsize Hread).
    pose proof (stream_inv_after_inflate env r c Hz Hinv) as Hinv'.
    simpl in Hinv'.
    assert (Hbytes : Z.of_nat (length (in_ r)) = contentlength r ->
              length (write_at (next_out (z c)) (inflate_given env) (in_ r))
              = length (in_ r)
              /\ take (Z.to_nat (next_out (z c)
                                 + Z.of_nat (length (inflate_given env))))
                      (write_at (next_out (z c)) (inflate_given env) (in_ r))
                 = take (Z.to_nat (next_out (z c))) (in_ r)
                   ++ inflate_given env
              /\ drop (Z.to_nat (next_out (z c)
                                 + Z.of_nat (length (inflate_given env))))
                      (write_at (next_out (z c)) (inflate_given env) (in_ r))
                 = drop (Z.to_nat (next_out (z c)
                                   + Z.of_nat (length (inflate_given env))))
                        (in_ r)).
    { intros Hsized. apply write_at_region.
      - unfold stream_inv in Hinv. lia.
      - unfold stream_inv, zlib_contract in *. lia. }
    destruct (negb _ && _) eqn:Htest.
    + apply inflate_failed_test in Htest.
      eexists _, _, _, _. split; [reflexivity|]. unfold cancelled. simpl.
      rewrite !lookup_insert_eq. split; [done|split; [done|]].
      unfold stream_inv. simpl.
      do 4 (split; [first [done | lia]|]).
      split; [exact Hbytes|].
      split; [by split|]. split; [done|]. lia.
    + assert (Hnf : ~ inflate_failed (inflate_ret env)
                       (avail_out (z c) - Z.of_nat (length (inflate_given env)))).
      { rewrite <- inflate_failed_test. by rewrite Htest. }
      eexists _, _, _, _. split; [reflexivity|]. simpl.
      rewrite !lookup_insert_eq. split; [done|split; [done|]].
      unfold stream_inv. simpl.
      do 4 (split; [first [done | lia]|]).
      split; [exact Hbytes|].
      split; [split; [done | intros [? _]; congruence]|].
      split; [done|]. lia.
  - intros st info len s' e Hst Hok Hz Hpos Hrun.
    destruct (decide (st = WINHTTP_CALLBACK_STATUS_DATA_AVAILABLE)) as [->|H1];
      [by eapply stream_ok_data_available|].
    destruct (decide (st = WINHTTP_CALLBACK_STATUS_HEADERS_AVAILABLE)) as [->|H2];
      [by eapply stream_ok_headers_available|].
    destruct (keeps_stream_asynccallback cp rp chunk env h cp st info len
                Hst H1 H2 _ _ _ _ Hrun c r Hc Hr)
      as (c' & r' & Hc' & Hr' & Hz' & Hg' & Hcl').
    exists r', c'. split; [done|split; [done|]].
    unfold stream_ok, stream_inv. rewrite Hz', Hg', Hcl'. apply Hok.
  - intros len. unfold asynccallback, on_data_available. drive.
    eexists _, _, _. split; [reflexivity|]. simpl.
    rewrite lookup_insert_eq.
    do 6 (split; [done|]). intros a. simpl. intuition discriminate.
Qed.


(** ** C5: the upload in chunks *)

Lemma run_cons chunk o os s s1 e1 s2 e2 :
  step chunk o s = Some (tt, s1, e1) ->
  run chunk os s1 = Some (tt, s2, e2) ->
  run chunk (o :: os) s = Some (tt, s2, e1 ++ e2).
Proof. intros H1 H2. simpl. unfold bind. by rewrite H1, H2. Qed.

Lemma run_one chunk o s s1 e1 :
  step chunk o s = Some (tt, s1, e1) ->
  run chunk [o] s = Some (tt, s1, e1).
Proof.
  intros H1. rewrite <- (app_nil_r e1). by eapply run_cons.
Qed.

Lemma chunks_app e1 e2 : chunks (e1 ++ e2) = chunks e1 ++ chunks e2.
Proof. apply omap_app. Qed.

Lemma total_of_app l1 l2 : total_of (l1 ++ l2) = total_of l1 + total_of l2.
Proof. unfold total_of. induction l1; simpl; lia. Qed.

Lemma total_of_positive l :
  Forall (fun x => 0 < x) l -> total_of l = 0 -> l = [].
Proof.
  unfold total_of. intros Hall. destruct Hall as [|x l Hx Hl]; [done|].
  simpl. assert (0 <= foldr Z.add 0 l); [|lia].
  induction Hl; simpl; lia.
Qed.

Lemma all_but_last_cons v x l :
  (l <> [] -> x = v) -> all_but_last_are v l -> all_but_last_are v (x :: l).
Proof.
  intros Hx Hl [|i] y; simpl.
  - intros [= <-] Hlen. apply Hx. destruct l; simpl in *; [lia|done].
  - intros Hy Hlen. apply (Hl i); [done|lia].
Qed.

Lemma write_complete_writes chunk env h s cp c rp st info len :
  ctxs s !! cp = Some c -> req c = Some rp ->
  st = WINHTTP_CALLBACK_STATUS_SENDREQUEST_COMPLETE
    \/ st = WINHTTP_CALLBACK_STATUS_WRITE_COMPLETE ->
  0 <= postpos c < postlen c -> postlen c < DWORD_MAX -> 0 < chunk ->
  write_data env = true ->
  let t := Z.min (postlen c - postpos c) chunk in
  asynccallback chunk env h cp st info len s
  = Some (tt,
          mk_state (reqs s) (<[cp := set_postpos (postpos c + t) c]> (ctxs s))
                   (httpio s),
          [WinHttpWriteData (hRequest c) (postpos c) t; SetEvent]).
Proof.
  intros Hc Hreq Hst Hpos Hlen Hchunk Hw t.
  assert (Hlt : (postpos c <? postlen c) = true) by (apply Z.ltb_lt; lia).
  assert (Ht : (if (postlen c - postpos c) mod DWORD_MAX >? chunk
                then chunk else (postlen c - postpos c) mod DWORD_MAX) = t).
  { rewrite Z.mod_small by lia. subst t. rewrite Z.gtb_ltb.
    destruct (Z.ltb_spec chunk (postlen c - postpos c)); lia. }
  assert (Hsmall : (postpos c + t) mod DWORD_MAX = postpos c + t).
  { apply Z.mod_small. subst t. lia. }
  unfold asynccallback, on_write_complete.
  destruct Hst as [-> | ->]; drive; rewrite Hlt; drive;
    rewrite Ht, Hsmall, Hw; drive; by rewrite io_eta.
Qed.

Lemma write_complete_receives chunk env h s cp c rp st info len :
  ctxs s !! cp = Some c -> req c = Some rp ->
  st = WINHTTP_CALLBACK_STATUS_SENDREQUEST_COMPLETE
    \/ st = WINHTTP_CALLBACK_STATUS_WRITE_COMPLETE ->
  postlen c <= postpos c -> receive_response env = true ->
  asynccallback chunk env h cp st info len s
  = Some (tt, s, [WinHttpReceiveResponse (hRequest c)]).
Proof.
  intros Hc Hreq Hst Hpos Hrecv.
  assert (Hlt : (postpos c <? postlen c) = false) by (apply Z.ltb_ge; lia).
  unfold asynccallback, on_write_complete.
  destruct Hst as [-> | ->]; drive; rewrite Hlt; drive;
    rewrite Hrecv; drive; by rewrite locked_state_eta.
Qed.

Lemma set_postpos_same c : set_postpos (postpos c) c = c.
Proof. by destruct c. Qed.

Lemma upload_loop chunk env h cp rp (m : nat) :
  0 < chunk -> write_data env = true -> receive_response env = true ->
  forall s c st,
  ctxs s !! cp = Some c -> req c = Some rp ->
  st = WINHTTP_CALLBACK_STATUS_SENDREQUEST_COMPLETE
    \/ st = WINHTTP_CALLBACK_STATUS_WRITE_COMPLETE ->
  0 <= postpos c <= postlen c -> postlen c < DWORD_MAX ->
  postlen c - postpos c <= Z.of_nat m * chunk ->
  exists k e,
    run chunk (Callback env h cp st 0 0
               :: replicate k (Callback env h cp
                                 WINHTTP_CALLBACK_STATUS_WRITE_COMPLETE 0 0)) s
    = Some (tt,
            mk_state (reqs s) (<[cp := set_postpos (postlen c) c]> (ctxs s))
                     (httpio s),
            e)
    /\ last e = Some (WinHttpReceiveResponse (hRequest c))
    /\ length (chunks e) = k
    /\ total_of (chunks e) = postlen c - postpos c
    /\ Forall (fun x => 0 < x <= chunk) (chunks e)
    /\ all_but_last_are chunk (chunks e).
Proof.
  intros Hchunk Hw Hrecv.
  assert (Hdone : forall s c st,
    ctxs s !! cp = Some c -> req c = Some rp ->
    st = WINHTTP_CALLBACK_STATUS_SENDREQUEST_COMPLETE
      \/ st = WINHTTP_CALLBACK_STATUS_WRITE_COMPLETE ->
    postpos c = postlen c ->
    exists k e,
      run chunk (Callback env h cp st 0 0
                 :: replicate k (Callback env h cp
                                   WINHTTP_CALLBACK_STATUS_WRITE_COMPLETE 0 0)) s
      = Some (tt,
              mk_state (reqs s) (<[cp := set_postpos (postlen c) c]> (ctxs s))
                       (httpio s),
              e)
      /\ last e = Some (WinHttpReceiveResponse (hRequest c))
      /\ length (chunks e) = k
      /\ total_of (chunks e) = postlen c - postpos c
      /\ Forall (fun x => 0 < x <= chunk) (chunks e)
      /\ all_but_last_are chunk (chunks e)).
  { intros s c st Hc Hreq Hst Heq.
    exists 0%nat, [WinHttpReceiveResponse (hRequest c)]. split.
    - rewrite <- Heq, set_postpos_same, insert_id, state_eta by done.
      apply run_one. simpl.
      eapply write_complete_receives; eauto. lia.
    - repeat split; simpl; try done; lia. }
  induction m as [|m IH]; intros s c st Hc Hreq Hst Hpos Hlen Hm.
  { apply Hdone; try done. lia. }
  destruct (decide (postpos c = postlen c)) as [Heq|Hne];
    [by apply Hdone|].
  set (t := Z.min (postlen c - postpos c) chunk).
  set (c1 := set_postpos (postpos c + t) c).
  set (s1 := mk_state (reqs s) (<[cp := c1]> (ctxs s)) (httpio s)).
  destruct (IH s1 c1 WINHTTP_CALLBACK_STATUS_WRITE_COMPLETE)
    as (k & e & Hrun & Hlast & Hk & Hsum & Hall & Hbut).
  { subst s1. simpl. apply lookup_insert_eq. }
  { done. } { by right. }
  { subst c1 t. simpl. lia. } { done. }
  { subst c1 t. simpl. lia. }
  exists (S k), ([WinHttpWriteData (hRequest c) (postpos c) t; SetEvent] ++ e).
  split; [|split; [|split; [|split; [|split]]]].
  - simpl replicate. eapply run_cons.
    + simpl. eapply write_complete_writes; eauto. lia.
    + fold t c1 s1. rewrite Hrun. subst s1 c1. simpl.
      by rewrite insert_insert_eq.
  - rewrite last_app, Hlast. done.
  - rewrite chunks_app, length_app, Hk. done.
  - rewrite chunks_app, total_of_app, Hsum. subst c1 t. simpl. lia.
  - rewrite chunks_app. apply Forall_app. split; [|done].
    simpl. constructor; [|done]. subst t. lia.
  - rewrite chunks_app. simpl. apply all_but_last_cons; [|done].
    intros Hnonempty. subst t.
    destruct (Z.min_spec (postlen c - postpos c) chunk) as [[_ Hmin]|[_ Hmin]];
      [|done].
    exfalso. apply Hnonempty. apply total_of_positive.
    + eapply Forall_impl; [exact Hall|]. simpl. intros; lia.
    + rewrite Hsum. subst c1. simpl. lia.
Qed.

Lemma post_succeeds chunk penv s rp r data len u hc hr :
  reqs s !! rp = Some r ->
  crack_url penv = Some u -> connect penv = Some hc ->
  open_request penv = Some hr -> send_request penv = true ->
  let cp := fresh (dom (ctxs s)) in
  let total := match data with
               | Some _ => len
               | None => Z.of_nat (length (out r))
               end mod DWORD_MAX in
  let first := if total <? chunk then total else chunk in
  let c1 := mk_ctx (Some hr) (Some hc) (Some rp) first total
                   (match data with Some d => d | None => out r end)
                   (gzip (fresh_ctx penv)) (z (fresh_ctx penv)) in
  exists headers,
    post chunk penv rp data len s
    = Some (tt,
            mk_state
              (<[rp := set_status REQ_INFLIGHT (set_httpiohandle (Some cp) r)]>
                 (reqs s))
              (<[cp := c1]> (ctxs s))
              (httpio s),
            [WinHttpConnect (hSession (httpio s)) (szHost u) (nPort u);
             WinHttpOpenRequest (Some hc) (lpszUrlPath u) (https u);
             WinHttpSetTimeouts (Some hr) the_timeouts;
             WinHttpSetStatusCallback (Some hr);
             WinHttpSendRequest (Some hr) headers first total cp]).
Proof.
  intros Hr Hu Hhc Hhr Hsend cp total first c1.
  unfold post. drive. rewrite Hu. drive. rewrite Hhc. drive.
  rewrite Hhr. drive. rewrite Hsend. drive.
  rewrite !insert_insert_eq. eexists. reflexivity.
Qed.

#[local] Instance keeps_cursor_preorder cp : PreOrder (keeps_cursor cp).
Proof.
  split.
  - intros s c Hc. by exists c.
  - intros s1 s2 s3 H12 H23 c Hc.
    destruct (H12 c Hc) as (c2 & Hc2 & Hl2 & Hp2).
    destruct (H23 c2 Hc2) as (c3 & Hc3 & Hl3 & Hp3).
    exists c3. repeat split; congruence.
Qed.

Lemma keeps_cursor_upd_ctx cp p f :
  (forall c, postlen (f c) = postlen c /\ postpos (f c) = postpos c) ->
  preserves (keeps_cursor cp) (upd_ctx p f).
Proof.
  intros Hf. apply preserves_upd_ctx. intros s c0 Hp c Hc. simpl.
  destruct (decide (p = cp)) as [->|Hne].
  - rewrite lookup_insert_eq. exists (f c0).
    assert (c0 = c) as -> by congruence.
    by destruct (Hf c) as [-> ->].
  - rewrite lookup_insert_ne by done. by exists c.
Qed.

Lemma keeps_cursor_other cp s rs d : keeps_cursor cp s (mk_state rs (ctxs s) d).
Proof. intros c Hc. by exists c. Qed.

Lemma keeps_cursor_upd_req cp p f : preserves (keeps_cursor cp) (upd_req p f).
Proof. apply preserves_upd_req. intros. apply keeps_cursor_other. Qed.

Lemma keeps_cursor_upd_io cp f : preserves (keeps_cursor cp) (upd_io f).
Proof. apply preserves_upd_io. intros. apply keeps_cursor_other. Qed.

Lemma keeps_cursor_leavecs cp : preserves (keeps_cursor cp) leavecs.
Proof. apply preserves_leavecs. intros. apply keeps_cursor_other. Qed.

Create HintDb cursor discriminated.
#[local] Hint Resolve keeps_cursor_upd_req keeps_cursor_upd_io
  keeps_cursor_leavecs : cursor.
#[local] Hint Extern 1 (preserves (keeps_cursor _) (upd_ctx _ _)) =>
  apply keeps_cursor_upd_ctx; intros; split; reflexivity : cursor.

Lemma keeps_cursor_cancel cp p : preserves (keeps_cursor cp) (cancel p).
Proof. unfold cancel. preserve; auto with cursor. Qed.

#[local] Hint Resolve keeps_cursor_cancel : cursor.

Lemma keeps_cursor_asynccallback cp chunk env h p st info len :
  st <> WINHTTP_CALLBACK_STATUS_HANDLE_CLOSING ->
  st <> WINHTTP_CALLBACK_STATUS_SENDREQUEST_COMPLETE ->
  st <> WINHTTP_CALLBACK_STATUS_WRITE_COMPLETE ->
  preserves (keeps_cursor cp) (asynccallback chunk env h p st info len).
Proof.
  intros H1 H2 H3.
  unfold asynccallback, on_data_available, on_read_complete,
    on_headers_available, on_request_error, on_secure_failure, inflate,
    reserveput, completeput, setcontentlength, inetstatus, entercs.
  destruct st; try done; preserve; auto with cursor.
Qed.

Lemma cursor_stays_within chunk env h s cp c rp r st info len s' e :
  0 < chunk ->
  ctxs s !! cp = Some c -> req c = Some rp ->
  reqs s !! rp = Some r -> httpiohandle r = Some cp ->
  st <> WINHTTP_CALLBACK_STATUS_HANDLE_CLOSING ->
  0 <= postpos c <= postlen c -> postlen c < DWORD_MAX ->
  asynccallback chunk env h cp st info len s = Some (tt, s', e) ->
  exists c', ctxs s' !! cp = Some c' /\ postlen c' = postlen c
             /\ postpos c <= postpos c' <= postlen c'.
Proof.
  intros Hchunk Hc Hreq Hr Hh Hst Hpos Hlen.
  assert (Hwrite :
    st = WINHTTP_CALLBACK_STATUS_SENDREQUEST_COMPLETE
    \/ st = WINHTTP_CALLBACK_STATUS_WRITE_COMPLETE ->
    asynccallback chunk env h cp st info len s = Some (tt, s', e) ->
    exists c', ctxs s' !! cp = Some c' /\ postlen c' = postlen c
               /\ postpos c <= postpos c' <= postlen c').
  { intros Hsw.
    assert (Hmin : forall d, 0 < d < DWORD_MAX ->
      0 < (if d mod DWORD_MAX >? chunk then chunk else d mod DWORD_MAX) <= d).
    { intros d Hd. rewrite Z.mod_small by lia. rewrite Z.gtb_ltb.
      destruct (Z.ltb_spec chunk d); lia. }
    unfold asynccallback, on_write_complete.
    destruct (Z.ltb_spec (postpos c) (postlen c)) as [Hlt|Hge].
    - specialize (Hmin (postlen c - postpos c) ltac:(lia)).
      set (t := if (postlen c - postpos c) mod DWORD_MAX >? chunk
                then chunk else (postlen c - postpos c) mod DWORD_MAX) in *.
      assert (Hsmall : (postpos c + t) mod DWORD_MAX = postpos c + t)
        by (apply Z.mod_small; lia).
      assert (Hltb : (postpos c <? postlen c) = true) by (apply Z.ltb_lt; lia).
      destruct Hsw as [-> | ->]; drive; rewrite Hltb; drive; fold t;
        rewrite Hsmall; (destruct (write_data env); drive;
          [| erewrite cancel_attached;
               [| exact Hr | exact Hh | simpl; apply lookup_insert_eq];
             drive; unfold cancelled]);
        intros [= <- _]; simpl; rewrite ?lookup_insert_eq;
        eexists; (split; [reflexivity|]); simpl; lia.
    - assert (Hltb : (postpos c <? postlen c) = false) by (apply Z.ltb_ge; lia).
      destruct Hsw as [-> | ->]; drive; rewrite Hltb; drive;
        (destruct (receive_response env); drive;
          [| erewrite cancel_attached; [| exact Hr | exact Hh | exact Hc];
             drive; unfold cancelled]);
        intros [= <- _]; simpl; rewrite ?lookup_insert_eq, ?Hc;
        eexists; (split; [reflexivity|]); simpl; lia. }
  destruct (decide (st = WINHTTP_CALLBACK_STATUS_SENDREQUEST_COMPLETE))
    as [H1|H1]; [by auto|].
  destruct (decide (st = WINHTTP_CALLBACK_STATUS_WRITE_COMPLETE))
    as [H2|H2]; [by auto|].
  intros Hrun.
  destruct (keeps_cursor_asynccallback cp chunk env h cp st info len
              Hst H1 H2 _ _ _ _ Hrun c Hc) as (c' & Hc' & Hl' & Hp').
  exists c'. split; [done|]. lia.
Qed.

(** C5. A body of postTotal bytes (postlen, the 32-bit length post() takes
    from its argument or from the request), with a chunk size between 1 and
    2^32 - 1, the setup calls of post() succeeding and every write and the
    final receive accepted: post() followed by the completion callbacks
    WinHTTP delivers (SENDREQUEST_COMPLETE, then WRITE_COMPLETE k times, for
    some k) hands the body over in k + 1 chunks, the first with the request
    and each of the others by one write; the chunk sizes add up to
    postTotal, none exceeds the chunk size, every one but the last equals
    it, the cursor ends at postTotal and the last call switches to receiving
    the response.  During any callback whatsoever the total stays and the
    cursor moves forward without passing it. *)
Theorem upload_in_chunks chunk penv env s rp r data len :
  0 < chunk < DWORD_MAX ->
  reqs s !! rp = Some r ->
  is_Some (crack_url penv) -> is_Some (connect penv) ->
  is_Some (open_request penv) -> send_request penv = true ->
  write_data env = true -> receive_response env = true ->
  let cp := fresh (dom (ctxs s)) in
  let postTotal := match data with
                   | Some _ => len
                   | None => Z.of_nat (length (out r))
                   end mod DWORD_MAX in
  (exists k s' e c',
     run chunk (Post penv rp data len
                :: upload_ops env (open_request penv) cp k) s
     = Some (tt, s', e)
     /\ ctxs s' !! cp = Some c'
     /\ postlen c' = postTotal /\ postpos c' = postTotal
     /\ last e = Some (WinHttpReceiveResponse (open_request penv))
     /\ length (chunks e) = S k
     /\ total_of (chunks e) = postTotal
     /\ Forall (fun x => 0 <= x <= chunk) (chunks e)
     /\ all_but_last_are chunk (chunks e))
  /\ (forall env0 h0 s0 p c0 rp0 r0 st info0 len0 s1 e1,
        ctxs s0 !! p = Some c0 -> req c0 = Some rp0 ->
        reqs s0 !! rp0 = Some r0 -> httpiohandle r0 = Some p ->
        st <> WINHTTP_CALLBACK_STATUS_HANDLE_CLOSING ->
        0 <= postpos c0 <= postlen c0 -> postlen c0 < DWORD_MAX ->
        asynccallback chunk env0 h0 p st info0 len0 s0 = Some (tt, s1, e1) ->
        exists c1, ctxs s1 !! p = Some c1 /\ postlen c1 = postlen c0
                   /\ postpos c0 <= postpos c1 <= postlen c1).
Proof.
  intros Hchunk Hr [u Hu] [hc Hhc] [hr Hhr] Hsend Hw Hrecv cp postTotal.
  split; [| intros; eapply cursor_stays_within; eauto; lia].
  destruct (post_succeeds chunk penv s rp r data len u hc hr
              Hr Hu Hhc Hhr Hsend) as [headers Hpost].
  fold cp postTotal in Hpost.
  set (first := if postTotal <? chunk then postTotal else chunk) in *.
  set (c1 := mk_ctx (Some hr) (Some hc) (Some rp) first postTotal
                    (match data with Some d => d | None => out r end)
                    (gzip (fresh_ctx penv)) (z (fresh_ctx penv))) in *.
  set (s1 := mk_state _ (<[cp := c1]> (ctxs s)) (httpio s)) in *.
  assert (Htotal : 0 <= postTotal < DWORD_MAX).
  { subst postTotal. apply Z.mod_pos_bound. unfold DWORD_MAX. lia. }
  assert (Hfirst : 0 <= first <= postTotal /\ first <= chunk
                   /\ (first < postTotal -> first = chunk)).
  { subst first. destruct (Z.ltb_spec postTotal chunk); lia. }
  destruct (upload_loop chunk env (Some hr) cp rp
              (Z.to_nat (postTotal - first)) ltac:(lia) Hw Hrecv
              s1 c1 WINHTTP_CALLBACK_STATUS_SENDREQUEST_COMPLETE)
    as (k & e & Hrun & Hlast & Hk & Hsum & Hall & Hbut).
  { subst s1. simpl. apply lookup_insert_eq. }
  { done. } { by left. } { subst c1. simpl. lia. } { subst c1. simpl. lia. }
  { subst c1. simpl. nia. }
  exists k. eexists _, _, _. split.
  { unfold upload_ops. rewrite Hhr. eapply run_cons; [exact Hpost|exact Hrun]. }
  split; [simpl; apply lookup_insert_eq|].
  split; [done|]. split; [done|].
  split; [by rewrite last_app, Hlast, Hhr|].
  rewrite chunks_app, length_app, total_of_app, Hk, Hsum.
  change (chunks [_; _; _; _; _]) with [first]. subst c1; simpl.
  split; [done|]. split; [lia|]. split.
  - constructor; [lia|]. eapply Forall_impl; [exact Hall|]. simpl. lia.
  - apply all_but_last_cons; [|done].
    intros Hne. apply Hfirst.
    destruct (decide (first = postTotal)) as [Heq|]; [|lia].
    exfalso. apply Hne. apply total_of_positive.
    + eapply Forall_impl; [exact Hall|]. simpl. lia.
    + rewrite Hsum. simpl. lia.
Qed.

(** ** C1: how the status moves *)

#[local] Instance status_moves_preorder rp : PreOrder (status_moves rp).
Proof.
  split.
  - intros s r Hr. exists r. auto.
  - intros s1 s2 s3 H12 H23 r Hr.
    destruct (H12 r Hr) as (r2 & Hr2 & H2).
    destruct (H23 r2 Hr2) as (r3 & Hr3 & H3).
    exists r3. split; [done|]. intuition congruence.
Qed.

Lemma status_moves_upd_req rp p f :
  (forall r, status (f r) = status r \/ status (f r) = REQ_SUCCESS
             \/ status (f r) = REQ_FAILURE) ->
  preserves (status_moves rp) (upd_req p f).
Proof.
  intros Hf. apply preserves_upd_req. intros s r0 Hp r Hr. simpl.
  destruct (decide (p = rp)) as [->|Hne].
  - rewrite lookup_insert_eq. exists (f r0).
    assert (r0 = r) as -> by congruence. auto.
  - rewrite lookup_insert_ne by done. exists r. auto.
Qed.

Lemma status_moves_other rp s cs d : status_moves rp s (mk_state (reqs s) cs d).
Proof. intros r Hr. exists r. auto. Qed.

Lemma status_moves_upd_ctx rp p f : preserves (status_moves rp) (upd_ctx p f).
Proof. apply preserves_upd_ctx. intros. apply status_moves_other. Qed.

Lemma status_moves_upd_io rp f : preserves (status_moves rp) (upd_io f).
Proof. apply preserves_upd_io. intros. apply status_moves_other. Qed.

Lemma status_moves_leavecs rp : preserves (status_moves rp) leavecs.
Proof. apply preserves_leavecs. intros. apply status_moves_other. Qed.

Lemma status_moves_delete_ctx rp p : preserves (status_moves rp) (delete_ctx p).
Proof.
  intros s a s' e. unfold delete_ctx. destruct (ctxs s !! p); [|done].
  intros [= _ <- _]. apply status_moves_other.
Qed.

Create HintDb status discriminated.
#[local] Hint Resolve status_moves_upd_ctx status_moves_upd_io
  status_moves_leavecs status_moves_delete_ctx : status.
#[local] Hint Extern 1 (preserves (status_moves _) (upd_req _ _)) =>
  apply status_moves_upd_req; intros; simpl;
  repeat match goal with |- context [if ?b then _ else _] => destruct b end;
  auto : status.

Lemma status_moves_cancel rp p : preserves (status_moves rp) (cancel p).
Proof. unfold cancel. preserve; auto with status. Qed.

#[local] Hint Resolve status_moves_cancel : status.

Lemma status_moves_asynccallback rp chunk env h p st info len :
  preserves (status_moves rp) (asynccallback chunk env h p st info len).
Proof.
  unfold asynccallback, on_data_available, on_read_complete,
    on_headers_available, on_request_error, on_secure_failure,
    on_write_complete, inflate, reserveput, completeput, setcontentlength,
    inetstatus, entercs.
  destruct st; preserve; auto with status.
Qed.

Lemma status_moves_upd_req_other rp p f :
  p <> rp -> preserves (status_moves rp) (upd_req p f).
Proof.
  intros Hne. apply preserves_upd_req. intros s r0 Hp r Hr. simpl.
  rewrite lookup_insert_ne by done. exists r. auto.
Qed.

Lemma status_moves_new_ctx rp c0 : preserves (status_moves rp) (new_ctx c0).
Proof. intros s a s' e [= _ <- _]. apply status_moves_other. Qed.

Lemma status_moves_post rp chunk env p data len :
  p <> rp -> preserves (status_moves rp) (post chunk env p data len).
Proof.
  intros Hne. unfold post.
  pose proof (status_moves_upd_req_other rp p) as Hreq.
  pose proof (status_moves_new_ctx rp) as Hnew.
  preserve; auto with status.
Qed.

Lemma status_moves_run rp chunk os :
  Forall (no_post_of rp) os -> preserves (status_moves rp) (run chunk os).
Proof.
  induction 1 as [|o os Ho _ IH]; simpl.
  - apply preserves_ret. apply _.
  - apply preserves_bind; [apply _ | | by intros].
    destruct o; [by apply status_moves_post | apply status_moves_cancel
                | apply status_moves_asynccallback].
Qed.

#[local] Instance leaves_alone_preorder rp : PreOrder (leaves_alone rp).
Proof.
  split.
  - intros s. split; [done|]. intros cp c Hc Hreq. by exists c.
  - intros s1 s2 s3 [Hr12 Hc12] [Hr23 Hc23]. split; [congruence|].
    intros cp c3 Hc3 Hreq3.
    destruct (Hc23 cp c3 Hc3 Hreq3) as (c2 & Hc2 & Hreq2). eauto.
Qed.

Lemma leaves_alone_upd_req rp p f :
  p <> rp -> preserves (leaves_alone rp) (upd_req p f).
Proof.
  intros Hne. apply preserves_upd_req. intros s r0 Hp. split; simpl.
  - by rewrite lookup_insert_ne.
  - intros cp c Hc Hreq. by exists c.
Qed.

Lemma leaves_alone_upd_ctx rp p f :
  (forall c, req (f c) = req c \/ req (f c) = None) ->
  preserves (leaves_alone rp) (upd_ctx p f).
Proof.
  intros Hf. apply preserves_upd_ctx. intros s c0 Hp. split; [done|]. simpl.
  intros cp c Hc Hreq. destruct (decide (p = cp)) as [->|Hne].
  - rewrite lookup_insert_eq in Hc. injection Hc as <-.
    exists c0. split; [done|]. destruct (Hf c0) as [<-|Hnone]; congruence.
  - rewrite lookup_insert_ne in Hc by done. by exists c.
Qed.

Lemma leaves_alone_io rp s d : leaves_alone rp s (mk_state (reqs s) (ctxs s) d).
Proof. split; [done|]. intros cp c Hc Hreq. by exists c. Qed.

Lemma leaves_alone_upd_io rp f : preserves (leaves_alone rp) (upd_io f).
Proof. apply preserves_upd_io. intros. apply leaves_alone_io. Qed.

Lemma leaves_alone_leavecs rp : preserves (leaves_alone rp) leavecs.
Proof. apply preserves_leavecs. intros. apply leaves_alone_io. Qed.

Lemma leaves_alone_delete_ctx rp p : preserves (leaves_alone rp) (delete_ctx p).
Proof.
  intros s a s' e. unfold delete_ctx. destruct (ctxs s !! p); [|done].
  intros [= _ <- _]. split; [done|]. simpl. intros cp c Hc Hreq.
  apply lookup_delete_Some in Hc as [_ Hc]. by exists c.
Qed.

Create HintDb alone discriminated.
#[local] Hint Resolve leaves_alone_upd_io leaves_alone_leavecs
  leaves_alone_delete_ctx : alone.
#[local] Hint Extern 1 (preserves (leaves_alone _) (upd_req _ _)) =>
  apply leaves_alone_upd_req; assumption : alone.
#[local] Hint Extern 1 (preserves (leaves_alone _) (upd_ctx _ _)) =>
  apply leaves_alone_upd_ctx; intros; simpl; auto : alone.

Lemma leaves_alone_cancel rp p :
  p <> rp -> preserves (leaves_alone rp) (cancel p).
Proof. intros Hne. unfold cancel. preserve; auto with alone. Qed.

Lemma leaves_alone_post rp chunk env p data len s s' e :
  p <> rp -> post chunk env p data len s = Some (tt, s', e) ->
  leaves_alone rp s s'.
Proof.
  intros Hne. unfold post.
  intros (cp & s1 & e1 & e2 & Hnew & Hrest & _)%bind_Some.
  injection Hnew as <- <- _.
  apply bind_Some in Hrest as ([] & s2 & e3 & e4 & Hset & Hrest & _).
  revert Hset. unfold upd_ctx. simpl. rewrite lookup_insert_eq.
  intros [= <- _]. rewrite insert_insert_eq in Hrest.
  transitivity (mk_state (reqs s)
                  (<[fresh (dom (ctxs s)) := set_req (Some p) (fresh_ctx env)]>
                     (ctxs s)) (httpio s)).
  - split; [done|]. simpl. intros q c' Hq Hback.
    destruct (decide (q = fresh (dom (ctxs s)))) as [->|Hq'].
    + rewrite lookup_insert_eq in Hq. injection Hq as <-. simpl in Hback.
      congruence.
    + rewrite lookup_insert_ne in Hq by done. by exists c'.
  - revert Hrest.
    match goal with
    | |- ?body ?s0 = _ -> _ =>
        assert (Hpres : preserves (leaves_alone rp) body); [| by apply Hpres]
    end.
    preserve; auto with alone.
Qed.

Lemma detached_step chunk s rp r o s' e :
  reqs s !! rp = Some r -> detached s rp -> no_post_of rp o ->
  step chunk o s = Some (tt, s', e) ->
  leaves_alone rp s s'.
Proof.
  intros Hr [(r0 & Hr0 & Hh) Hback] Ho.
  assert (r0 = r) as -> by congruence.
  destruct o as [env p data len | p | env h p st info len]; simpl.
  - by apply leaves_alone_post.
  - destruct (decide (p = rp)) as [->|Hne].
    + rewrite (cancel_detached s rp r Hr Hh). intros [= <- _]. reflexivity.
    + apply leaves_alone_cancel. done.
  - intros (c & s1 & e1 & e2 & Hget & Hbody & _)%bind_Some.
    unfold get_ctx in Hget. destruct (ctxs s !! p) as [c0|] eqn:Hc; [|done].
    injection Hget as <- <- _. revert Hbody.
    match goal with
    | |- ?body s = _ -> _ =>
        assert (Hpres : preserves (leaves_alone rp) body); [| by apply Hpres]
    end.
    unfold on_data_available, on_read_complete,
      on_headers_available, on_request_error, on_secure_failure,
      on_write_complete, inflate, reserveput, completeput, setcontentlength,
      inetstatus, entercs.
    pose proof (Hback p c0 Hc) as Hnot.
    destruct (req c0) as [rp'|].
    + assert (Hne : rp' <> rp) by congruence.
      pose proof (leaves_alone_cancel rp rp' Hne).
      destruct st; preserve; auto with alone.
    + destruct st; preserve; auto with alone.
Qed.

Lemma detached_leaves_alone s s' rp :
  detached s rp -> leaves_alone rp s s' -> detached s' rp.
Proof.
  intros [(r & Hr & Hh) Hback] [Hsame Hnew]. split.
  - exists r. by rewrite Hsame.
  - intros cp c' Hc' Hreq'.
    destruct (Hnew cp c' Hc' Hreq') as (c & Hc & Hreq). by eapply Hback.
Qed.

Lemma detached_run chunk rp r os :
  Forall (no_post_of rp) os ->
  forall s s' e,
  reqs s !! rp = Some r -> detached s rp ->
  run chunk os s = Some (tt, s', e) ->
  reqs s' !! rp = Some r /\ detached s' rp.
Proof.
  induction 1 as [|o os Ho _ IH]; intros s s' e Hr Hd; simpl.
  - by intros [= <- _].
  - intros ([] & s1 & e1 & e2 & Hstep & Hrun & _)%bind_Some.
    pose proof (detached_step chunk s rp r o s1 e1 Hr Hd Ho Hstep) as Hal.
    eapply IH; [| by eapply detached_leaves_alone | exact Hrun].
    destruct Hal as [-> _]. done.
Qed.

(** C1, as the code has it. Only post() sets a status to REQ_INFLIGHT:
    cancel(), the callbacks and post() for other requests leave the status
    of a request as it is or set it to REQ_SUCCESS or REQ_FAILURE, so it
    never goes back to Prepared or InFlight.  Natural completion (the
    chunk size 0) sets the status from httpstatus and leaves the context
    attached, both links in place; cancel() on a request with a context
    attached, completed or not, sets the status to REQ_FAILURE and
    httpstatus to 0 and detaches the request, so cancel() after a natural
    REQ_SUCCESS makes it REQ_FAILURE.  Once the request is detached, no
    later cancel(), no callback and no post() for another request changes
    its record, status included, nor attaches it again; that takes a
    fresh post() of this request. *)
Theorem status_settles_on_detach chunk s rp r :
  reqs s !! rp = Some r ->
  (forall os s' e,
     Forall (no_post_of rp) os -> run chunk os s = Some (tt, s', e) ->
     exists r', reqs s' !! rp = Some r'
       /\ (status r' = status r \/ status r' = REQ_SUCCESS
           \/ status r' = REQ_FAILURE))
  /\ (forall cp c env h len,
        httpiohandle r = Some cp -> ctxs s !! cp = Some c ->
        req c = Some rp ->
        exists s1 e1 r1,
          asynccallback chunk env h cp WINHTTP_CALLBACK_STATUS_DATA_AVAILABLE
                        0 len s = Some (tt, s1, e1)
          /\ reqs s1 !! rp = Some r1
          /\ status r1 = (if httpstatus r =? 200 then REQ_SUCCESS
                          else REQ_FAILURE)
          /\ httpiohandle r1 = Some cp
          /\ ctxs s1 !! cp = Some c
          /\ exists s2 e2 r2,
               cancel rp s1 = Some (tt, s2, e2) /\ reqs s2 !! rp = Some r2
               /\ status r2 = REQ_FAILURE /\ httpstatus r2 = 0
               /\ httpiohandle r2 = None)
  /\ (forall cp c,
        httpiohandle r = Some cp -> ctxs s !! cp = Some c ->
        exists s' e r',
          cancel rp s = Some (tt, s', e) /\ reqs s' !! rp = Some r'
          /\ status r' = REQ_FAILURE /\ httpstatus r' = 0
          /\ httpiohandle r' = None
          /\ ((forall p c0, ctxs s !! p = Some c0 -> req c0 = Some rp -> p = cp)
              -> detached s' rp))
  /\ (detached s rp ->
      forall os s' e,
        Forall (no_post_of rp) os -> run chunk os s = Some (tt, s', e) ->
        reqs s' !! rp = Some r /\ detached s' rp).
Proof.
  intros Hr. split; [|split; [|split]].
  - intros os s' e Hos Hrun.
    by apply (status_moves_run rp chunk os Hos s tt s' e Hrun r).
  - intros cp c env h len Hh Hc Hreq.
    unfold asynccallback, on_data_available. drive.
    eexists _, _, _. split; [reflexivity|]. simpl.
    rewrite lookup_insert_eq.
    do 4 (split; [done|]).
    eexists _, _, _. split.
    { apply cancel_attached with (cp := cp) (c := c); simpl;
        [apply lookup_insert_eq | exact Hh | exact Hc]. }
    unfold cancelled. simpl. rewrite lookup_insert_eq. by repeat split.
  - intros cp c Hh Hc.
    eexists _, _, _. split; [by apply cancel_attached|].
    unfold cancelled. simpl. rewrite lookup_insert_eq.
    do 4 (split; [reflexivity|]). intros Honly. split.
    + eexists. simpl. rewrite lookup_insert_eq. by split.
    + simpl. intros p c0 Hc0.
      destruct (decide (p = cp)) as [->|Hne].
      * rewrite lookup_insert_eq in Hc0. by injection Hc0 as <-.
      * rewrite lookup_insert_ne in Hc0 by done.
        intros Hback. apply Hne. by eapply Honly.
  - intros Hd os s' e Hos Hrun. by eapply detached_run.
Qed.

(** ** The sample session *)

Example ex_streaming_reached :
  exists e, run ex_chunk (ex_until_headers ex_post_ok ex_gzip) ex_s0
            = Some (tt, ex_streaming, e)
            /\ chunks e = [3; 3; 1].
Proof. eexists. split; vm_compute; reflexivity. Qed.

Example ex_cancelled_reached :
  cancel 0%nat ex_streaming
  = Some (tt, ex_cancelled, [WinHttpCloseHandle 10; WinHttpCloseHandle 11]).
Proof. vm_compute. reflexivity. Qed.

(** ** The theorems at the sample session *)

Lemma cancelled_request_is_inert_witness :
  (reqs ex_cancelled !! 0%nat = Some ex_req_cancelled
   /\ httpiohandle ex_req_cancelled = None
   /\ ctxs ex_cancelled !! 0%nat = Some ex_ctx_cancelled
   /\ req ex_ctx_cancelled = None)
  /\ cancel 0%nat ex_cancelled = Some (tt, ex_cancelled, [])
  /\ (forall env h st info len,
        st <> WINHTTP_CALLBACK_STATUS_HANDLE_CLOSING ->
        asynccallback ex_chunk env h 0%nat st info len ex_cancelled
        = Some (tt, ex_cancelled, [])).
Proof.
  split; [repeat split; vm_compute; reflexivity|].
  pose proof (cancelled_request_is_inert ex_chunk ex_cancelled 0%nat
                ex_req_cancelled 0%nat ex_ctx_cancelled
                eq_refl eq_refl eq_refl eq_refl) as H.
  split; apply H.
Defined.

Lemma read_complete_zero_is_noop_witness :
  (ctxs ex_streaming !! 0%nat = Some ex_ctx_streaming
   /\ req ex_ctx_streaming = Some 0%nat)
  /\ asynccallback ex_chunk ex_gzip (Some 11%nat) 0%nat
       WINHTTP_CALLBACK_STATUS_READ_COMPLETE 0 0 ex_streaming
     = Some (tt, ex_streaming, []).
Proof.
  split; [split; reflexivity|].
  apply (read_complete_zero_is_noop ex_chunk ex_gzip (Some 11%nat)
           ex_streaming 0%nat ex_ctx_streaming 0%nat 0); reflexivity.
Defined.

Lemma data_available_zero_completes_witness :
  (ctxs ex_streaming !! 0%nat = Some ex_ctx_streaming
   /\ req ex_ctx_streaming = Some 0%nat
   /\ reqs ex_streaming !! 0%nat = Some ex_req_streaming
   /\ httpstatus ex_req_streaming = 200)
  /\ exists s' r',
       asynccallback ex_chunk ex_gzip (Some 11%nat) 0%nat
         WINHTTP_CALLBACK_STATUS_DATA_AVAILABLE 0 4 ex_streaming
       = Some (tt, s', [SetEvent; SetEvent])
       /\ reqs s' !! 0%nat = Some r'
       /\ status r' = REQ_SUCCESS
       /\ httpiohandle r' = Some 0%nat
       /\ ctxs s' = ctxs ex_streaming
       /\ success (httpio s') = true.
Proof.
  split; [repeat split; reflexivity|].
  destruct (data_available_zero_completes ex_chunk ex_gzip (Some 11%nat)
              ex_streaming 0%nat ex_ctx_streaming 0%nat ex_req_streaming 4
              eq_refl eq_refl eq_refl)
    as (s' & r' & H1 & H2 & H3 & (_ & H4 & _) & _ & H5 & (H6 & _) & _).
  exists s', r'. by repeat (split; [assumption|]).
Defined.

Lemma read_complete_commits_witness :
  (ctxs ex_streaming !! 0%nat = Some ex_ctx_streaming
   /\ req ex_ctx_streaming = Some 0%nat
   /\ reqs ex_streaming !! 0%nat = Some ex_req_streaming
   /\ httpiohandle ex_req_streaming = Some 0%nat
   /\ 22 <> 0)
  /\ asynccallback ex_chunk ex_gzip (Some 11%nat) 0%nat
       WINHTTP_CALLBACK_STATUS_READ_COMPLETE 0 22 ex_streaming
     = Some (tt,
             mk_state (<[0%nat := set_bufpos 22 ex_req_streaming]>
                         (reqs ex_streaming))
                      (ctxs ex_streaming) (httpio ex_streaming),
             [WinHttpQueryDataAvailable (Some 11%nat)])
  /\ exists s' e',
       asynccallback ex_chunk ex_gzip (Some 11%nat) 0%nat
         WINHTTP_CALLBACK_STATUS_DATA_AVAILABLE 22 4 ex_streaming
       = Some (tt, s', WinHttpReadData (Some 11%nat) 22 :: Inflate 22 :: e')
       /\ in_ <$> reqs s' !! 0%nat = Some [x7b; x7d].
Proof.
  split; [repeat split; done|].
  destruct (read_complete_commits ex_chunk ex_gzip (Some 11%nat) ex_streaming
              0%nat ex_ctx_streaming 0%nat ex_req_streaming 0 22 22 4
              eq_refl eq_refl eq_refl eq_refl ltac:(done)) as [H1 H2].
  split; [exact H1|]. apply H2; done.
Defined.

Lemma post_failure_keeps_context_witness :
  reqs ex_s0 !! 0%nat = Some ex_req
  /\ crack_url ex_post_bad_url = None
  /\ exists s' e r' c',
       post ex_chunk ex_post_bad_url 0%nat None 0 ex_s0 = Some (tt, s', e)
       /\ reqs s' !! 0%nat = Some r'
       /\ status r' = REQ_FAILURE
       /\ httpiohandle r' = Some 0%nat
       /\ ctxs s' !! 0%nat = Some c'
       /\ req c' = Some 0%nat.
Proof.
  split; [reflexivity|]. split; [reflexivity|].
  destruct (post_failure_keeps_context ex_chunk ex_post_bad_url ex_s0 0%nat
              ex_req None 0 eq_refl (or_introl eq_refl))
    as (s' & e & r' & c' & H1 & H2 & H3 & H4 & _ & H5 & H6 & _).
  exists s', e, r', c'. repeat split; assumption.
Defined.

Lemma post_sets_timeouts_witness :
  exists s' e,
    post ex_chunk ex_post_ok 0%nat None 0 ex_s0 = Some (tt, s', e)
    /\ In (WinHttpSetTimeouts (Some 11%nat) (mk_timeouts 0 20000 20000 1800000)) e
    /\ forall h t, In (WinHttpSetTimeouts h t) e ->
         h = open_request ex_post_ok /\ is_Some h
         /\ nResolveTimeout t = 0 /\ nConnectTimeout t = 20000
         /\ nSendTimeout t = 20000 /\ nReceiveTimeout t = 1800000.
Proof.
  eexists _, _. split; [vm_compute; reflexivity|].
  match goal with
  | |- In _ ?e /\ _ =>
      destruct (post_sets_timeouts ex_chunk ex_post_ok ex_s0 0%nat None 0 _ e
                  ltac:(vm_compute; reflexivity)) as [H1 H2]
  end.
  split; [|exact H1]. by eapply H2.
Defined.

Lemma upload_in_chunks_witness :
  (0 < ex_chunk < DWORD_MAX
   /\ reqs ex_s0 !! 0%nat = Some ex_req
   /\ is_Some (crack_url ex_post_ok) /\ is_Some (connect ex_post_ok)
   /\ is_Some (open_request ex_post_ok) /\ send_request ex_post_ok = true
   /\ write_data ex_plain = true /\ receive_response ex_plain = true)
  /\ exists k s' e c',
       run ex_chunk (Post ex_post_ok 0%nat None 0
                     :: upload_ops ex_plain (Some 11%nat) 0%nat k) ex_s0
       = Some (tt, s', e)
       /\ ctxs s' !! 0%nat = Some c'
       /\ postlen c' = 7 /\ postpos c' = 7
       /\ length (chunks e) = S k
       /\ total_of (chunks e) = 7
       /\ Forall (fun x => 0 <= x <= ex_chunk) (chunks e)
       /\ all_but_last_are ex_chunk (chunks e).
Proof.
  split; [repeat split; try done; by eexists|].
  destruct (upload_in_chunks ex_chunk ex_post_ok ex_plain ex_s0 0%nat ex_req
              None 0)
    as [(k & s' & e & c' & H1 & H2 & H3 & H4 & _ & H5 & H6 & H7 & H8) _];
    try done; try by eexists.
  exists k, s', e, c'. repeat split; assumption.
Defined.

Lemma gzip_stream_decodes_witness :
  (ctxs ex_streaming !! 0%nat = Some ex_ctx_streaming
   /\ req ex_ctx_streaming = Some 0%nat
   /\ reqs ex_streaming !! 0%nat = Some ex_req_streaming
   /\ httpiohandle ex_req_streaming = Some 0%nat)
  /\ (gzip ex_ctx_streaming = true /\ 22 <> 0 /\ read_data ex_gzip = true
      /\ zlib_contract ex_gzip ex_ctx_streaming
      /\ stream_inv ex_req_streaming ex_ctx_streaming
      /\ Z.of_nat (length (in_ ex_req_streaming))
         = contentlength ex_req_streaming)
  /\ (exists s' e r' c',
        asynccallback ex_chunk ex_gzip (Some 11%nat) 0%nat
          WINHTTP_CALLBACK_STATUS_DATA_AVAILABLE 22 4 ex_streaming
        = Some (tt, s', e)
        /\ reqs s' !! 0%nat = Some r' /\ ctxs s' !! 0%nat = Some c'
        /\ next_out (z c') = 2 /\ contentlength r' = 2
        /\ length (in_ r') = 2%nat
        /\ take (Z.to_nat (next_out (z c'))) (in_ r') = [x7b; x7d]
        /\ req c' = Some 0%nat /\ status r' = REQ_INFLIGHT)
  /\ (exists s' e r',
        asynccallback ex_chunk ex_gzip (Some 11%nat) 0%nat
          WINHTTP_CALLBACK_STATUS_DATA_AVAILABLE 0 4 ex_streaming
        = Some (tt, s', e)
        /\ reqs s' !! 0%nat = Some r'
        /\ ctxs s' !! 0%nat = Some ex_ctx_streaming
        /\ status r' = REQ_SUCCESS /\ in_ r' = [x00; x00]).
Proof.
  assert (Hz : zlib_contract ex_gzip ex_ctx_streaming)
    by (unfold zlib_contract; simpl; lia).
  assert (Hinv : stream_inv ex_req_streaming ex_ctx_streaming)
    by (unfold stream_inv; simpl; lia).
  split; [repeat split; reflexivity|]. split; [repeat split; done|].
  destruct (gzip_stream_decodes ex_chunk ex_gzip (Some 11%nat) ex_streaming
              0%nat ex_ctx_streaming 0%nat ex_req_streaming
              eq_refl eq_refl eq_refl eq_refl) as (_ & Hfeed & _ & Hend).
  split.
  - destruct (Hfeed 22 4 eq_refl ltac:(done) eq_refl Hz Hinv)
      as (s' & e & r' & c' & H1 & H2 & H3 & H4 & H5 & [_ [Hav Hsum]] & _
          & Hbytes & Hfail & Hgood & _).
    destruct (Hbytes eq_refl) as (Hlen & Htake & _).
    exists s', e, r', c'.
    assert (Hok : ~ inflate_failed (inflate_ret ex_gzip) (avail_out (z c'))).
    { unfold inflate_failed. simpl in *. unfold Z_OK, Z_STREAM_END. lia. }
    destruct (Hgood Hok) as (Hreq & _ & Hst).
    repeat split; try assumption.
  - destruct (Hend 4) as (s' & e & r' & H1 & H2 & H3 & H4 & _ & H5 & _).
    by exists s', e, r'.
Defined.

Lemma status_settles_on_detach_witness :
  (reqs ex_streaming !! 0%nat = Some ex_req_streaming
   /\ httpiohandle ex_req_streaming = Some 0%nat
   /\ ctxs ex_streaming !! 0%nat = Some ex_ctx_streaming
   /\ req ex_ctx_streaming = Some 0%nat
   /\ reqs ex_cancelled !! 0%nat = Some ex_req_cancelled
   /\ detached ex_cancelled 0%nat)
  /\ (forall os s' e,
        Forall (no_post_of 0%nat) os ->
        run ex_chunk os ex_streaming = Some (tt, s', e) ->
        exists r', reqs s' !! 0%nat = Some r'
          /\ (status r' = REQ_INFLIGHT \/ status r' = REQ_SUCCESS
              \/ status r' = REQ_FAILURE))
  /\ (exists s1 e1 r1,
        asynccallback ex_chunk ex_gzip (Some 11%nat) 0%nat
          WINHTTP_CALLBACK_STATUS_DATA_AVAILABLE 0 4 ex_streaming
        = Some (tt, s1, e1)
        /\ reqs s1 !! 0%nat = Some r1 /\ status r1 = REQ_SUCCESS
        /\ httpiohandle r1 = Some 0%nat
        /\ ctxs s1 !! 0%nat = Some ex_ctx_streaming
        /\ exists s2 e2 r2,
             cancel 0%nat s1 = Some (tt, s2, e2)
             /\ reqs s2 !! 0%nat = Some r2 /\ status r2 = REQ_FAILURE)
  /\ (exists s' e r',
        cancel 0%nat ex_streaming = Some (tt, s', e)
        /\ reqs s' !! 0%nat = Some r'
        /\ status r' = REQ_FAILURE /\ httpstatus r' = 0
        /\ httpiohandle r' = None /\ detached s' 0%nat)
  /\ (forall os s' e,
        Forall (no_post_of 0%nat) os ->
        run ex_chunk os ex_cancelled = Some (tt, s', e) ->
        reqs s' !! 0%nat = Some ex_req_cancelled /\ detached s' 0%nat).
Proof.
  assert (Hd : detached ex_cancelled 0%nat).
  { split; [by exists ex_req_cancelled|].
    intros cp c Hc. unfold ex_cancelled in Hc. simpl in Hc.
    apply lookup_singleton_Some in Hc as [_ <-]. done. }
  split; [do 5 (split; [reflexivity|]); exact Hd|].
  destruct (status_settles_on_detach ex_chunk ex_streaming 0%nat
              ex_req_streaming eq_refl) as (Hmoves & Hdone & Hcancel & _).
  destruct (status_settles_on_detach ex_chunk ex_cancelled 0%nat
              ex_req_cancelled eq_refl) as (_ & _ & _ & Hinert).
  split; [exact Hmoves|]. split; [|split].
  - destruct (Hdone 0%nat ex_ctx_streaming ex_gzip (Some 11%nat) 4
                eq_refl eq_refl eq_refl)
      as (s1 & e1 & r1 & H1 & H2 & H3 & H4 & H5 & s2 & e2 & r2 & H6 & H7 & H8 & _).
    exists s1, e1, r1. do 5 (split; [assumption|]).
    by exists s2, e2, r2.
  - destruct (Hcancel 0%nat ex_ctx_streaming eq_refl eq_refl)
      as (s' & e & r' & H1 & H2 & H3 & H4 & H5 & H6).
    exists s', e, r'. do 5 (split; [assumption|]). apply H6.
    intros p c0 Hc0 _. unfold ex_streaming in Hc0. simpl in Hc0.
    by apply lookup_singleton_Some in Hc0 as [<- _].
  - exact (Hinert Hd).
Defined.

(** ** Where the code and the spec's wording part *)

(** C1, counterexample. The sample exchange runs to natural completion
    and leaves the status REQ_SUCCESS; cancel() on the same record then
    makes it REQ_FAILURE. *)
Lemma cancel_after_success_changes_status :
  exists s1 e1 r1 s2 e2 r2,
    run ex_chunk ex_until_complete ex_s0 = Some (tt, s1, e1)
    /\ reqs s1 !! 0%nat = Some r1 /\ status r1 = REQ_SUCCESS
    /\ cancel 0%nat s1 = Some (tt, s2, e2)
    /\ reqs s2 !! 0%nat = Some r2 /\ status r2 = REQ_FAILURE.
Proof.
  eexists _, _, _, _, _, _.
  split; [vm_compute; reflexivity|].
  split; [vm_compute; reflexivity|]. split; [reflexivity|].
  split; [vm_compute; reflexivity|].
  split; [vm_compute; reflexivity|]. reflexivity.
Qed.

(** C7, counterexample. The gzip reply of the sample session declares two
    bytes; the body breaks off after a chunk from which inflate produces
    one byte and returns Z_OK, and the chunk size 0 follows.  The request
    ends in REQ_SUCCESS, still attached, with one byte written of the two
    declared. *)
Lemma short_gzip_stream_succeeds :
  exists s' e r' c',
    run ex_chunk ex_until_short ex_s0 = Some (tt, s', e)
    /\ reqs s' !! 0%nat = Some r' /\ ctxs s' !! 0%nat = Some c'
    /\ gzip c' = true /\ inflate_ret ex_short = Z_OK
    /\ status r' = REQ_SUCCESS /\ httpiohandle r' = Some 0%nat
    /\ contentlength r' = 2 /\ next_out (z c') = 1
    /\ next_out (z c') <> contentlength r'
    /\ in_ r' = [x7b; x00].
Proof.
  eexists _, _, _, _.
  split; [vm_compute; reflexivity|].
  split; [vm_compute; reflexivity|].
  split; [vm_compute; reflexivity|]. by repeat split.
Qed.

(** C2, counterexample. With gzip active, READ_COMPLETE carrying 22 bytes
    commits 22 bytes and queries the next chunk size: inflate is not
    called, the stream is as it was and nothing is written into the
    incoming buffer, although inflate would have produced output. *)
Lemma read_complete_does_not_inflate :
  gzip ex_ctx_streaming = true
  /\ inflate_given ex_gzip = [x7b; x7d]
  /\ exists s' r' c',
       asynccallback ex_chunk ex_gzip (Some 11%nat) 0%nat
         WINHTTP_CALLBACK_STATUS_READ_COMPLETE 0 22 ex_streaming
       = Some (tt, s', [WinHttpQueryDataAvailable (Some 11%nat)])
       /\ reqs s' !! 0%nat = Some r' /\ ctxs s' !! 0%nat = Some c'
       /\ in_ r' = in_ ex_req_streaming
       /\ bufpos r' = bufpos ex_req_streaming + 22
       /\ z c' = z ex_ctx_streaming.
Proof.
  split; [reflexivity|]. split; [reflexivity|].
  eexists _, _, _.
  split; [vm_compute; reflexivity|].
  split; [vm_compute; reflexivity|].
  split; [vm_compute; reflexivity|]. by repeat split.
Qed.

(** C4, counterexample. post() with a URL that does not parse returns
    with the status REQ_FAILURE and the request's httpiohandle pointing to
    the context it created. *)
Lemma post_failure_leaves_context_attached :
  exists s' e r',
    post ex_chunk ex_post_bad_url 0%nat None 0 ex_s0 = Some (tt, s', e)
    /\ reqs s' !! 0%nat = Some r'
    /\ status r' = REQ_FAILURE
    /\ httpiohandle r' <> None.
Proof.
  eexists _, _, _.
  split; [vm_compute; reflexivity|].
  split; [vm_compute; reflexivity|]. by split.
Qed.

(** C9, counterexample. The timeouts post() sets on the request handle are
    not the spec's: the connect timeout is 20000, not 0, and the receive
    timeout is 1800000, not 20000. *)
Lemma post_timeouts_are_not_the_specs :
  exists s' e t,
    post ex_chunk ex_post_ok 0%nat None 0 ex_s0 = Some (tt, s', e)
    /\ In (WinHttpSetTimeouts (Some 11%nat) t) e
    /\ ~ spec_timeouts t
    /\ nConnectTimeout t = 20000 /\ nReceiveTimeout t = 1800000.
Proof.
  eexists _, _, _.
  split; [vm_compute; reflexivity|].
  split; [simpl; right; right; left; reflexivity|].
  split; [|by split]. by intros [? _].
Qed.

(** C6, at the failing input. The fresh context's gzip byte happens to be
    set and the response carries no Original-Content-Length: after
    HEADERS_AVAILABLE the flag is still set although the spec's condition
    for the gzip path fails, inflateInit2 was not called and the incoming
    buffer was not presized; the next DATA_AVAILABLE then runs inflate on
    the stream that was never initialized. *)
Theorem headers_without_length_keep_stale_gzip :
  ~ spec_gzip_path ex_plain
  /\ exists s1 e1 r1 c1 s2 e2,
       run ex_chunk (ex_until_headers ex_post_dirty ex_plain) ex_s0
       = Some (tt, s1, e1)
       /\ reqs s1 !! 0%nat = Some r1 /\ ctxs s1 !! 0%nat = Some c1
       /\ buf r1 = None /\ req c1 = Some 0%nat
       /\ gzip c1 = true /\ inited (z c1) = false /\ in_ r1 = []
       /\ ~ In (InflateInit2 (MAX_WBITS + 16)) e1
       /\ asynccallback ex_chunk ex_plain (Some 11%nat) 0%nat
            WINHTTP_CALLBACK_STATUS_DATA_AVAILABLE 22 4 s1
          = Some (tt, s2, e2)
       /\ In (Inflate 22) e2.
Proof.
  split; [by intros [[? ?] _]|].
  eexists _, _, _, _, _, _.
  split; [vm_compute; reflexivity|].
  split; [vm_compute; reflexivity|].
  split; [vm_compute; reflexivity|].
  do 5 (split; [reflexivity|]).
  split; [simpl; intuition discriminate|].
  split; [vm_compute; reflexivity|].
  simpl. auto.
Qed.

(** * Further properties of the driver *)

(** ** Running a callback through all its branches *)

Lemma non_null_is_Some {A} (p : option A) : non_null p = true -> is_Some p.
Proof. destruct p; [by eexists | done]. Qed.

(** cancel() met during the run, on a request known to be attached. *)
Ltac cancel_now :=
  erewrite cancel_attached;
    [ | simpl; first [apply lookup_insert_eq | eassumption]
      | simpl; eassumption
      | simpl; first [apply lookup_insert_eq | eassumption] ];
  unfold cancelled.

(** The next undecided test of the code: an answer of the environment,
    a flag, a comparison. *)
Ltac split_next :=
  match goal with
  | |- context [match ?x with _ => _ end] =>
      lazymatch x with
      | context [match _ with _ => _ end] => fail
      | cancel _ _ => fail
      | _ => destruct x eqn:?
      end
  end.

Ltac crunch :=
  drive;
  repeat (first [cancel_now | split_next]; drive; rewrite ?insert_insert_eq).

Ltac splitl tac := split; [tac|].

Ltac in_calls := simpl; intuition (first [discriminate | congruence | eauto]).

Ltac lookup_done :=
  simpl; rewrite ?lookup_insert_eq; first [reflexivity | eassumption].

Ltac frame_done :=
  intros; simpl; rewrite ?lookup_insert_ne by done; reflexivity.

Ltac links_done :=
  first [ left; splitl ltac:(simpl; eassumption);
          splitl ltac:(simpl; eassumption); intros ?; in_calls
        | right; do 4 (split; [reflexivity|]);
          (split; [in_calls|]); split; intros; simplify_eq; in_calls ].

Ltac wakeup_done :=
  intros Hne; first [by (exfalso; apply Hne) | in_calls].

Ltac inet_done :=
  intros up Hin; simpl in Hin;
  repeat (destruct Hin as [Hin|Hin]; try discriminate Hin);
  try done;
  injection Hin as <-;
  repeat match goal with
         | H : _ && _ = true |- _ => apply andb_true_iff in H as [? ?]
         | H : negb _ = true |- _ => apply negb_true_iff in H
         | H : (_ =? _) = false |- _ => apply Z.eqb_neq in H
         end;
  (split; [by apply non_null_is_Some|]);
  first [left; by repeat split | right; by repeat split].

Ltac effect_done :=
  unfold close_calls; simpl;
  match goal with
  | H : ctxs _ !! _ = Some ?c |- _ =>
      destruct (hConnect c) eqn:?, (hRequest c) eqn:?
  end; simpl;
  eexists _, _;
  splitl lookup_done; splitl lookup_done;
  splitl frame_done; splitl frame_done;
  splitl ltac:(by repeat split); splitl ltac:(by repeat split);
  splitl links_done; splitl wakeup_done; inet_done.

Lemma asynccallback_effect chunk env h s cp c rp r st info len :
  ctxs s !! cp = Some c -> req c = Some rp ->
  reqs s !! rp = Some r -> httpiohandle r = Some cp ->
  st <> WINHTTP_CALLBACK_STATUS_HANDLE_CLOSING ->
  match asynccallback chunk env h cp st info len s with
  | Some (_, s', e) => callback_effect s cp rp c r env st s' e
  | None => False
  end.
Proof.
  intros Hc Hreq Hr Hh Hst.
  unfold asynccallback, on_data_available, on_read_complete,
    on_headers_available, on_request_error, on_secure_failure,
    on_write_complete, inflate, reserveput, completeput, setcontentlength,
    inetstatus.
  destruct st; try done; crunch; solve [effect_done].
Qed.

(** ** The links between requests and contexts are kept *)

Lemma asynccallback_unbound chunk env h s cp c st info len :
  ctxs s !! cp = Some c -> req c = None ->
  st <> WINHTTP_CALLBACK_STATUS_HANDLE_CLOSING ->
  asynccallback chunk env h cp st info len s = Some (tt, s, []).
Proof.
  intros Hc Hreq Hst. unfold asynccallback.
  destruct st; try done; drive; by rewrite locked_state_eta.
Qed.

Lemma asynccallback_closing chunk env h s cp c info len :
  ctxs s !! cp = Some c -> req c = None ->
  asynccallback chunk env h cp WINHTTP_CALLBACK_STATUS_HANDLE_CLOSING info len s
  = Some (tt, mk_state (reqs s) (delete cp (ctxs s)) (httpio s), []).
Proof. intros Hc Hreq. unfold asynccallback. by drive. Qed.

Lemma linked_callback s cp rp c r env st s' e :
  ctxs s !! cp = Some c -> req c = Some rp ->
  reqs s !! rp = Some r -> httpiohandle r = Some cp ->
  linked s -> callback_effect s cp rp c r env st s' e -> linked s'.
Proof.
  intros Hc Hreq Hr Hh [Hfwd Hbwd]
    (r' & c' & Hr' & Hc' & Hreqs & Hctxs & _ & _ & Hlinks & _).
  split.
  - intros p c0 q Hc0 Hreq0.
    destruct (decide (p = cp)) as [->|Hp].
    + assert (c0 = c') as -> by congruence.
      destruct Hlinks as [(Hb & Hl & _)|(Hb & _)]; [|congruence].
      assert (q = rp) as -> by congruence. eauto.
    + rewrite Hctxs in Hc0 by done.
      destruct (Hfwd p c0 q Hc0 Hreq0) as (r0 & Hr0 & Hh0).
      assert (q <> rp) by (intros ->; congruence).
      exists r0. by rewrite Hreqs.
  - intros q r0 p Hr0 Hh0.
    destruct (decide (q = rp)) as [->|Hq].
    + assert (r0 = r') as -> by congruence.
      destruct Hlinks as [(Hb & Hl & _)|(_ & Hl & _)]; [|congruence].
      assert (p = cp) as -> by congruence. eauto.
    + rewrite Hreqs in Hr0 by done.
      destruct (Hbwd q r0 p Hr0 Hh0) as (c0 & Hc0 & Hreq0).
      assert (p <> cp) by (intros ->; congruence).
      exists c0. by rewrite Hctxs.
Qed.

Lemma linked_cancelled s rp r cp c :
  reqs s !! rp = Some r -> httpiohandle r = Some cp ->
  ctxs s !! cp = Some c ->
  linked s -> linked (cancelled s rp r cp c).
Proof.
  intros Hr Hh Hc [Hfwd Hbwd].
  destruct (Hbwd rp r cp Hr Hh) as (c0 & Hc0 & Hreq).
  assert (c0 = c) as -> by congruence.
  split; unfold cancelled; simpl.
  - intros p c0 q Hc0' Hreq0.
    destruct (decide (p = cp)) as [->|Hp].
    + rewrite lookup_insert_eq in Hc0'. by injection Hc0' as <-.
    + rewrite lookup_insert_ne in Hc0' by done.
      destruct (Hfwd p c0 q Hc0' Hreq0) as (r0 & Hr0 & Hh0).
      assert (q <> rp) by (intros ->; congruence).
      exists r0. by rewrite lookup_insert_ne.
  - intros q r0 p Hr0 Hh0.
    destruct (decide (q = rp)) as [->|Hq].
    + rewrite lookup_insert_eq in Hr0. by injection Hr0 as <-.
    + rewrite lookup_insert_ne in Hr0 by done.
      destruct (Hbwd q r0 p Hr0 Hh0) as (c0 & Hc0' & Hreq0).
      assert (p <> cp) by (intros ->; congruence).
      exists c0. by rewrite lookup_insert_ne.
Qed.

Lemma linked_closing s cp c :
  ctxs s !! cp = Some c -> req c = None ->
  linked s -> linked (mk_state (reqs s) (delete cp (ctxs s)) (httpio s)).
Proof.
  intros Hc Hreq [Hfwd Hbwd]. split; simpl.
  - intros p c0 q Hc0 Hreq0. apply lookup_delete_Some in Hc0 as [_ Hc0]. eauto.
  - intros q r0 p Hr0 Hh0.
    destruct (Hbwd q r0 p Hr0 Hh0) as (c0 & Hc0 & Hreq0).
    assert (p <> cp) by (intros ->; congruence).
    exists c0. by rewrite lookup_delete_ne.
Qed.

Lemma post_effect chunk env s rp r data len :
  reqs s !! rp = Some r ->
  let cp := fresh (dom (ctxs s)) in
  match post chunk env rp data len s with
  | Some (_, s', e) =>
      exists c',
        reqs s' = <[rp := set_status (if post_ok env then REQ_INFLIGHT
                                      else REQ_FAILURE)
                            (set_httpiohandle (Some cp) r)]> (reqs s)
        /\ ctxs s' = <[cp := c']> (ctxs s)
        /\ httpio s' = httpio s
        /\ req c' = Some rp
        /\ hConnect c' = match crack_url env with
                         | Some _ => connect env
                         | None => None
                         end
        /\ hRequest c' = match crack_url env, connect env with
                         | Some _, Some _ => open_request env
                         | _, _ => None
                         end
        /\ (forall h, ~ In (WinHttpCloseHandle h) e)
        /\ ~ In SetEvent e
        /\ (forall up, ~ In (Inetstatus up) e)
        /\ (is_Some (crack_url env) -> is_Some (connect env) ->
            is_Some (open_request env) ->
            let total := match data with
                         | Some _ => len
                         | None => Z.of_nat (length (out r))
                         end mod DWORD_MAX in
            postlen c' = total
            /\ postpos c' = (if total <? chunk then total else chunk)
            /\ postdata c' = match data with Some d => d | None => out r end
            /\ exists headers,
                 last e = Some (WinHttpSendRequest (open_request env) headers
                                  (postpos c') total cp)
                 /\ (headers = String.append "Content-Type: application/json"
                       (String "013"%char (String "010"%char "Accept-Encoding: gzip"))
                     \/ headers = "Content-Type: application/octet-stream"%string)
                 /\ (headers = String.append "Content-Type: application/json"
                       (String "013"%char (String "010"%char "Accept-Encoding: gzip"))
                     <-> wants_gzip r = true))
  | None => False
  end.
Proof.
  intros Hr cp. unfold post, post_ok, wants_gzip. crunch.
  all: rewrite ?insert_insert_eq.
  all: eexists; do 6 (split; [reflexivity|]).
  all: split; [intros ?; in_calls|].
  all: split; [in_calls|].
  all: split; [intros ?; in_calls|].
  all: intros [? ?] [? ?] [? ?]; try done.
  all: simpl; do 3 (split; [reflexivity|]).
  all: eexists; split; [reflexivity|].
  all: split; [by auto|]; split; intros Heq; first [reflexivity | discriminate Heq].
Qed.

Lemma linked_post s rp r c' st :
  reqs s !! rp = Some r -> httpiohandle r = None -> req c' = Some rp ->
  linked s ->
  let cp := fresh (dom (ctxs s)) in
  linked (mk_state (<[rp := set_status st (set_httpiohandle (Some cp) r)]> (reqs s))
                   (<[cp := c']> (ctxs s)) (httpio s)).
Proof.
  intros Hr Hh Hreq [Hfwd Hbwd] cp.
  assert (Hfree : ctxs s !! cp = None) by apply fresh_ctx_free.
  split; simpl.
  - intros p c0 q Hc0 Hreq0.
    destruct (decide (p = cp)) as [->|Hp].
    + rewrite lookup_insert_eq in Hc0. injection Hc0 as <-.
      assert (q = rp) as -> by congruence.
      rewrite lookup_insert_eq. by eexists.
    + rewrite lookup_insert_ne in Hc0 by done.
      destruct (Hfwd p c0 q Hc0 Hreq0) as (r0 & Hr0 & Hh0).
      assert (q <> rp) by (intros ->; congruence).
      exists r0. by rewrite lookup_insert_ne.
  - intros q r0 p Hr0 Hh0.
    destruct (decide (q = rp)) as [->|Hq].
    + rewrite lookup_insert_eq in Hr0. injection Hr0 as <-.
      simpl in Hh0. injection Hh0 as <-.
      rewrite lookup_insert_eq. by eexists.
    + rewrite lookup_insert_ne in Hr0 by done.
      destruct (Hbwd q r0 p Hr0 Hh0) as (c0 & Hc0 & Hreq0).
      assert (p <> cp) by (intros ->; congruence).
      exists c0. by rewrite lookup_insert_ne.
Qed.

(** One admissible call in a linked state. *)
Lemma step_linked chunk s o :
  linked s -> admissible s o ->
  exists s' e,
    step chunk o s = Some (tt, s', e) /\ linked s'
    /\ hSession (httpio s') = hSession (httpio s)
    /\ csHTTP (httpio s') = csHTTP (httpio s)
    /\ waiter (httpio s') = waiter (httpio s)
    /\ (forall p, is_Some (reqs s !! p) -> is_Some (reqs s' !! p)).
Proof.
  intros Hl Hadm. destruct o as [env rp data len | rp | env h cp st info len];
    simpl in *.
  - destruct Hadm as (r & Hr & Hh).
    pose proof (post_effect chunk env s rp r data len Hr) as Hpost.
    simpl in Hpost.
    destruct (post chunk env rp data len s) as [[[[] s'] e]|]; [|done].
    destruct Hpost as (c' & Hreqs & Hctxs & Hio & Hreq & _).
    exists s', e. split; [done|].
    destruct s' as [rs cs d]. simpl in *. subst rs cs d.
    split; [by apply linked_post|]. repeat split; try done.
    intros p [r0 Hp]. destruct (decide (p = rp)) as [->|Hne].
    + rewrite lookup_insert_eq. by eexists.
    + rewrite lookup_insert_ne by done. by eexists.
  - destruct Hadm as [r Hr].
    destruct (httpiohandle r) as [cp|] eqn:Hh.
    + destruct Hl as [Hfwd Hbwd].
      destruct (Hbwd rp r cp Hr Hh) as (c & Hc & Hreq).
      eexists _, _. split; [by apply cancel_attached|].
      split; [by apply linked_cancelled|]. repeat split; try done.
      intros p [r0 Hp]. unfold cancelled. simpl.
      destruct (decide (p = rp)) as [->|Hne].
      * rewrite lookup_insert_eq. by eexists.
      * rewrite lookup_insert_ne by done. by eexists.
    + exists s, []. split; [by eapply cancel_detached|].
      do 4 (split; [done|]). auto.
  - destruct Hadm as (c & Hc & Hclosing).
    destruct (req c) as [rp|] eqn:Hreq.
    + assert (Hst : st <> WINHTTP_CALLBACK_STATUS_HANDLE_CLOSING)
        by (intros ->; by specialize (Hclosing eq_refl)).
      destruct (proj1 Hl cp c rp Hc Hreq) as (r & Hr & Hh).
      pose proof (asynccallback_effect chunk env h s cp c rp r st info len
                    Hc Hreq Hr Hh Hst) as Heff.
      destruct (asynccallback chunk env h cp st info len s)
        as [[[[] s'] e]|]; [|done].
      exists s', e. split; [done|].
      split; [by eapply linked_callback|].
      destruct Heff as (r' & c' & Hr' & _ & Hreqs & _ & (? & ? & ?) & _).
      repeat split; try done.
      intros p [r0 Hp]. destruct (decide (p = rp)) as [->|Hne].
      * by eexists.
      * rewrite Hreqs by done. by eexists.
    + destruct (decide (st = WINHTTP_CALLBACK_STATUS_HANDLE_CLOSING)) as [->|Hst].
      * eexists _, _. split; [by eapply asynccallback_closing|].
        split; [by eapply linked_closing|]. do 3 (split; [done|]). auto.
      * exists s, []. split; [by eapply asynccallback_unbound|].
        do 4 (split; [done|]). auto.
Qed.

Lemma run_linked chunk os :
  forall s, linked s -> admissible_run chunk os s ->
  exists s' e,
    run chunk os s = Some (tt, s', e) /\ linked s'
    /\ hSession (httpio s') = hSession (httpio s)
    /\ csHTTP (httpio s') = csHTTP (httpio s)
    /\ waiter (httpio s') = waiter (httpio s)
    /\ (forall p, is_Some (reqs s !! p) -> is_Some (reqs s' !! p)).
Proof.
  induction os as [|o os IH]; intros s Hl Hadm; simpl in *.
  - exists s, []. do 5 (split; [done|]). auto.
  - destruct Hadm as [Ho Hrest].
    destruct (step_linked chunk s o Hl Ho)
      as (s1 & e1 & Hstep & Hl1 & Hs1 & Hcs1 & Hw1 & Hlive1).
    destruct (IH s1 Hl1 (Hrest s1 e1 Hstep))
      as (s2 & e2 & Hrun & Hl2 & Hs2 & Hcs2 & Hw2 & Hlive2).
    exists s2, (e1 ++ e2). unfold bind. rewrite Hstep, Hrun.
    split; [done|]. split; [done|]. do 3 (split; [congruence|]). auto.
Qed.

(** X1.  In a state where requests and contexts point at each other, any
    sequence of post(), cancel() and callbacks that is admissible (post()
    on a live request without a context, cancel() on a live request, a
    callback on a live context, HANDLE_CLOSING only once the context is
    detached) runs to its end: no call dereferences a pointer to a freed
    object or fails the assertion.  The links still hold afterwards, the
    session handle, the critical section and the waiter are as before,
    and every request is still there. *)
Theorem driver_calls_are_defined chunk os s :
  linked s -> admissible_run chunk os s ->
  exists s' e,
    run chunk os s = Some (tt, s', e) /\ linked s'
    /\ hSession (httpio s') = hSession (httpio s)
    /\ csHTTP (httpio s') = csHTTP (httpio s)
    /\ waiter (httpio s') = waiter (httpio s)
    /\ (forall p, is_Some (reqs s !! p) -> is_Some (reqs s' !! p)).
Proof. apply run_linked. Qed.

(** X2.  A callback for a bound context touches only that context and the
    request it is bound to: every other request and every other context
    is as before, the request and the context are still there, the
    context's handles and its total are unchanged, and the session handle,
    the critical section (entered and left) and the waiter are as
    before. *)
Theorem callback_leaves_others_alone chunk env h s cp c rp r st info len :
  ctxs s !! cp = Some c -> req c = Some rp ->
  reqs s !! rp = Some r -> httpiohandle r = Some cp ->
  st <> WINHTTP_CALLBACK_STATUS_HANDLE_CLOSING ->
  exists s' e c',
    asynccallback chunk env h cp st info len s = Some (tt, s', e)
    /\ (forall p, p <> rp -> reqs s' !! p = reqs s !! p)
    /\ (forall p, p <> cp -> ctxs s' !! p = ctxs s !! p)
    /\ is_Some (reqs s' !! rp)
    /\ ctxs s' !! cp = Some c'
    /\ hRequest c' = hRequest c /\ hConnect c' = hConnect c
    /\ postlen c' = postlen c
    /\ hSession (httpio s') = hSession (httpio s)
    /\ csHTTP (httpio s') = csHTTP (httpio s)
    /\ waiter (httpio s') = waiter (httpio s).
Proof.
  intros Hc Hreq Hr Hh Hst.
  pose proof (asynccallback_effect chunk env h s cp c rp r st info len
                Hc Hreq Hr Hh Hst) as Heff.
  destruct (asynccallback chunk env h cp st info len s)
    as [[[[] s'] e]|]; [|done].
  destruct Heff as (r' & c' & Hr' & Hc' & Hreqs & Hctxs & (? & ? & ?)
                    & (? & ? & ?) & _).
  exists s', e, c'. split; [done|]. split; [done|]. split; [done|].
  split; [by eexists|]. by repeat split.
Qed.

(** X3.  Whenever a callback changes the status of the request, it sets the
    wakeup event. *)
Theorem status_change_raises_wakeup chunk env h s cp c rp r st info len :
  ctxs s !! cp = Some c -> req c = Some rp ->
  reqs s !! rp = Some r -> httpiohandle r = Some cp ->
  st <> WINHTTP_CALLBACK_STATUS_HANDLE_CLOSING ->
  exists s' e r',
    asynccallback chunk env h cp st info len s = Some (tt, s', e)
    /\ reqs s' !! rp = Some r'
    /\ (status r' <> status r -> In SetEvent e).
Proof.
  intros Hc Hreq Hr Hh Hst.
  pose proof (asynccallback_effect chunk env h s cp c rp r st info len
                Hc Hreq Hr Hh Hst) as Heff.
  destruct (asynccallback chunk env h cp st info len s)
    as [[[[] s'] e]|]; [|done].
  destruct Heff as (r' & c' & Hr' & _ & _ & _ & _ & _ & _ & Hwake & _).
  by exists s', e, r'.
Qed.

(** X4.  A callback either leaves request and context attached to each
    other and closes no handle, or detaches them on both sides, sets the
    status to REQ_FAILURE and the HTTP status to 0, closes every handle
    the context holds and sets the wakeup event. *)
Theorem callback_detaches_or_keeps_handles chunk env h s cp c rp r st info len :
  ctxs s !! cp = Some c -> req c = Some rp ->
  reqs s !! rp = Some r -> httpiohandle r = Some cp ->
  st <> WINHTTP_CALLBACK_STATUS_HANDLE_CLOSING ->
  exists s' e r' c',
    asynccallback chunk env h cp st info len s = Some (tt, s', e)
    /\ reqs s' !! rp = Some r' /\ ctxs s' !! cp = Some c'
    /\ ((req c' = Some rp /\ httpiohandle r' = Some cp
         /\ forall h0, ~ In (WinHttpCloseHandle h0) e)
        \/ (req c' = None /\ httpiohandle r' = None
            /\ status r' = REQ_FAILURE /\ httpstatus r' = 0
            /\ In SetEvent e
            /\ (forall h0, hConnect c = Some h0 -> In (WinHttpCloseHandle h0) e)
            /\ (forall h0, hRequest c = Some h0 -> In (WinHttpCloseHandle h0) e))).
Proof.
  intros Hc Hreq Hr Hh Hst.
  pose proof (asynccallback_effect chunk env h s cp c rp r st info len
                Hc Hreq Hr Hh Hst) as Heff.
  destruct (asynccallback chunk env h cp st info len s)
    as [[[[] s'] e]|]; [|done].
  destruct Heff as (r' & c' & Hr' & Hc' & _ & _ & _ & _ & Hlinks & _).
  by exists s', e, r', c'.
Qed.

(** X5.  A callback reports connectivity only to a registered waiter:
    "up" only on HEADERS_AVAILABLE when noinetds is set and the chunk-size
    query succeeded, "down" only on REQUEST_ERROR with a last error other
    than the timeout. *)
Theorem connectivity_notice_is_guarded chunk env h s cp c rp r st info len :
  ctxs s !! cp = Some c -> req c = Some rp ->
  reqs s !! rp = Some r -> httpiohandle r = Some cp ->
  st <> WINHTTP_CALLBACK_STATUS_HANDLE_CLOSING ->
  exists s' e,
    asynccallback chunk env h cp st info len s = Some (tt, s', e)
    /\ forall up, In (Inetstatus up) e ->
         is_Some (waiter (httpio s))
         /\ ((up = true
              /\ st = WINHTTP_CALLBACK_STATUS_HEADERS_AVAILABLE
              /\ noinetds (httpio s) = true
              /\ query_data_available env = true)
             \/ (up = false
                 /\ st = WINHTTP_CALLBACK_STATUS_REQUEST_ERROR
                 /\ last_error env <> ERROR_WINHTTP_TIMEOUT)).
Proof.
  intros Hc Hreq Hr Hh Hst.
  pose proof (asynccallback_effect chunk env h s cp c rp r st info len
                Hc Hreq Hr Hh Hst) as Heff.
  destruct (asynccallback chunk env h cp st info len s)
    as [[[[] s'] e]|]; [|done].
  destruct Heff as (r' & c' & _ & _ & _ & _ & _ & _ & _ & _ & Hinet).
  by exists s', e.
Qed.

(** X6.  REQUEST_ERROR does what SECURE_FAILURE does (cancel the request,
    close its handles, set the wakeup event), preceded by the notice
    "down" exactly when a waiter is registered and the last error is not
    ERROR_WINHTTP_TIMEOUT; SECURE_FAILURE gives no notice.  After
    addevents() has registered a waiter, a REQUEST_ERROR with any other
    error than the timeout starts with that notice. *)
Theorem request_error_notifies_unless_timeout chunk env h s cp c rp r info len w flags :
  ctxs s !! cp = Some c -> req c = Some rp ->
  reqs s !! rp = Some r -> httpiohandle r = Some cp ->
  let gone := cancelled s rp r cp c in
  let notice := if non_null (waiter (httpio s))
                   && negb (last_error env =? ERROR_WINHTTP_TIMEOUT)
                then [Inetstatus false] else [] in
  (exists s',
     asynccallback chunk env h cp WINHTTP_CALLBACK_STATUS_REQUEST_ERROR info len s
     = Some (tt, s', notice ++ close_calls c ++ [SetEvent])
     /\ reqs s' = reqs gone /\ ctxs s' = ctxs gone)
  /\ asynccallback chunk env h cp WINHTTP_CALLBACK_STATUS_SECURE_FAILURE info len s
     = Some (tt, gone, close_calls c ++ [SetEvent])
  /\ (last_error env <> ERROR_WINHTTP_TIMEOUT ->
      exists s1 s2 e,
        addevents w flags s = Some (tt, s1, [])
        /\ asynccallback chunk env h cp WINHTTP_CALLBACK_STATUS_REQUEST_ERROR
             info len s1 = Some (tt, s2, Inetstatus false :: e)).
Proof.
  intros Hc Hreq Hr Hh gone notice. split; [|split].
  - unfold asynccallback, on_request_error, on_secure_failure, inetstatus.
    subst notice. drive.
    destruct (non_null (waiter (httpio s))
              && negb (last_error env =? ERROR_WINHTTP_TIMEOUT)); drive;
      cancel_now; drive; eexists; (split; [rewrite app_nil_r; reflexivity|]);
      by split.
  - unfold asynccallback, on_secure_failure. drive. cancel_now. drive.
    subst gone. unfold cancelled. by rewrite io_eta, app_nil_r.
  - intros Hne. unfold addevents. drive.
    eexists _, _, _. split; [reflexivity|].
    unfold asynccallback, on_request_error, on_secure_failure, inetstatus.
    drive.
    apply Z.eqb_neq in Hne. rewrite Hne. drive. cancel_now. drive. reflexivity.
Qed.

(** X7.  When WinHttpWriteData fails, the cursor has already been moved
    past the chunk: the context is left detached with postpos advanced by
    the size of the chunk that was not written, the request is cancelled
    and the wakeup event is set. *)
Theorem failed_write_still_advances_cursor chunk env h s cp c rp r st info len :
  ctxs s !! cp = Some c -> req c = Some rp ->
  reqs s !! rp = Some r -> httpiohandle r = Some cp ->
  st = WINHTTP_CALLBACK_STATUS_SENDREQUEST_COMPLETE
    \/ st = WINHTTP_CALLBACK_STATUS_WRITE_COMPLETE ->
  0 <= postpos c < postlen c -> postlen c < DWORD_MAX -> 0 < chunk ->
  write_data env = false ->
  let t := Z.min (postlen c - postpos c) chunk in
  let c1 := set_postpos (postpos c + t) c in
  asynccallback chunk env h cp st info len s
  = Some (tt,
          cancelled (mk_state (reqs s) (<[cp := c1]> (ctxs s)) (httpio s))
                    rp r cp c1,
          WinHttpWriteData (hRequest c) (postpos c) t
            :: close_calls c ++ [SetEvent]).
Proof.
  intros Hc Hreq Hr Hh Hst Hpos Hlen Hchunk Hw t c1.
  assert (Hlt : (postpos c <? postlen c) = true) by (apply Z.ltb_lt; lia).
  assert (Ht : (if (postlen c - postpos c) mod DWORD_MAX >? chunk
                then chunk else (postlen c - postpos c) mod DWORD_MAX) = t).
  { rewrite Z.mod_small by lia. subst t. rewrite Z.gtb_ltb.
    destruct (Z.ltb_spec chunk (postlen c - postpos c)); lia. }
  assert (Hsmall : (postpos c + t) mod DWORD_MAX = postpos c + t).
  { apply Z.mod_small. subst t. lia. }
  unfold asynccallback, on_write_complete.
  destruct Hst as [-> | ->]; drive; rewrite Hlt; drive;
    rewrite Ht, Hsmall, Hw; cancel_now; drive; fold c1;
    by rewrite io_eta, app_nil_r.
Qed.

(** X8.  post() on a live request always returns: it attaches a context
    at a fresh address, linked both ways, sets the status to REQ_INFLIGHT
    if every set-up call succeeded and to REQ_FAILURE otherwise, leaves
    the driver object alone, closes no handle and does not set the wakeup
    event.  Once the request handle is open, the total is the 32-bit
    length, the cursor the smaller of total and chunk size, and the last
    call is WinHttpSendRequest with the JSON headers asking for gzip (the
    two header lines separated by CR LF) exactly for a JSON request or a
    binary one without a buffer, and the octet-stream header otherwise. *)
Theorem post_outcome chunk env s rp r data len :
  reqs s !! rp = Some r ->
  let cp := fresh (dom (ctxs s)) in
  exists s' e c',
    post chunk env rp data len s = Some (tt, s', e)
    /\ ctxs s !! cp = None
    /\ reqs s' = <[rp := set_status (if post_ok env then REQ_INFLIGHT
                                     else REQ_FAILURE)
                           (set_httpiohandle (Some cp) r)]> (reqs s)
    /\ ctxs s' = <[cp := c']> (ctxs s)
    /\ httpio s' = httpio s
    /\ req c' = Some rp
    /\ (forall h, ~ In (WinHttpCloseHandle h) e)
    /\ ~ In SetEvent e
    /\ (is_Some (crack_url env) -> is_Some (connect env) ->
        is_Some (open_request env) ->
        let total := match data with
                     | Some _ => len
                     | None => Z.of_nat (length (out r))
                     end mod DWORD_MAX in
        postlen c' = total
        /\ postpos c' = (if total <? chunk then total else chunk)
        /\ postdata c' = match data with Some d => d | None => out r end
        /\ exists headers,
             last e = Some (WinHttpSendRequest (open_request env) headers
                              (postpos c') total cp)
             /\ (headers = String.append "Content-Type: application/json"
                       (String "013"%char (String "010"%char "Accept-Encoding: gzip"))
                 \/ headers = "Content-Type: application/octet-stream"%string)
             /\ (headers = String.append "Content-Type: application/json"
                       (String "013"%char (String "010"%char "Accept-Encoding: gzip"))
                 <-> wants_gzip r = true)).
Proof.
  intros Hr cp.
  pose proof (post_effect chunk env s rp r data len Hr) as Hpost.
  simpl in Hpost.
  destruct (post chunk env rp data len s) as [[[[] s'] e]|]; [|done].
  destruct Hpost as (c' & H1 & H2 & H3 & H4 & _ & _ & H5 & H6 & _ & H7).
  exists s', e, c'. split; [done|]. split; [apply fresh_ctx_free|].
  by repeat (split; [done|]).
Qed.

(** X9.  post(), cancel() and the HANDLE_CLOSING callback for the context
    leave the context heap exactly as it was before post(): the context
    is freed, the request is detached with status REQ_FAILURE and HTTP
    status 0, and the handles closed are exactly the ones post()
    obtained. *)
Theorem post_cancel_closing_restores chunk env env' h s rp r data len info len' :
  reqs s !! rp = Some r ->
  let cp := fresh (dom (ctxs s)) in
  exists e,
    run chunk [Post env rp data len; Cancel rp;
               Callback env' h cp WINHTTP_CALLBACK_STATUS_HANDLE_CLOSING info len'] s
    = Some (tt,
            mk_state
              (<[rp := set_httpiohandle None
                         (set_status REQ_FAILURE (set_httpstatus 0 r))]> (reqs s))
              (ctxs s) (httpio s),
            e)
    /\ forall h0,
         In (WinHttpCloseHandle h0) e
         <-> is_Some (crack_url env)
             /\ (connect env = Some h0
                 \/ (is_Some (connect env) /\ open_request env = Some h0)).
Proof.
  intros Hr cp.
  pose proof (post_effect chunk env s rp r data len Hr) as Hpost.
  simpl in Hpost. fold cp in Hpost.
  destruct (post chunk env rp data len s) as [[[[] s1] e1]|] eqn:Hp; [|done].
  destruct Hpost as (c' & H1 & H2 & H3 & H4 & Hhc & Hhr & Hnoclose & _).
  destruct s1 as [rs cs d]. simpl in H1, H2, H3. subst rs cs d.
  set (r1 := set_status _ (set_httpiohandle (Some cp) r)) in *.
  assert (Hfree : ctxs s !! cp = None) by apply fresh_ctx_free.
  simpl. unfold bind. rewrite Hp.
  erewrite cancel_attached;
    [| simpl; apply lookup_insert_eq | done | simpl; apply lookup_insert_eq].
  erewrite asynccallback_closing;
    [| unfold cancelled; simpl; apply lookup_insert_eq | done].
  unfold cancelled, ret. simpl.
  rewrite !insert_insert_eq, delete_insert_eq, delete_id by done.
  eexists. split; [reflexivity|].
  intros h0. rewrite !app_nil_r, in_app_iff. unfold close_calls.
  rewrite Hhc, Hhr.
  split.
  - intros [Hin|Hin]; [by apply Hnoclose in Hin|].
    destruct (crack_url env) as [u|]; [|by destruct Hin].
    split; [by eexists|].
    destruct (connect env) as [hc|]; simpl in Hin.
    + destruct Hin as [[= ->]|Hin]; [by left|right].
      split; [by eexists|].
      destruct (open_request env); [|by destruct Hin].
      by destruct Hin as [[= ->]|[]].
    + by destruct Hin.
  - intros [[u ->] Hh0]. right.
    destruct Hh0 as [->|[[hc ->] ->]]; simpl; auto.
Qed.

Lemma write_at_end (w g pad : list byte) :
  (length g <= length pad)%nat ->
  write_at (Z.of_nat (length w)) g (w ++ pad) = (w ++ g) ++ drop (length g) pad.
Proof.
  intros Hlen. unfold write_at. rewrite Nat2Z.id.
  rewrite take_app_length, drop_app_add'; [|done].
  by rewrite <- app_assoc.
Qed.

(** X10.  With gzip active and the output pointer at the end of what was
    written so far, a data chunk appends what inflate produces to the
    written part of [in], inside the room reserved for it: the length of
    [in] does not change and the output pointer and the room left follow
    the data. *)
Theorem inflate_appends_output chunk env h s cp c rp r size len w pad :
  ctxs s !! cp = Some c -> req c = Some rp ->
  reqs s !! rp = Some r -> httpiohandle r = Some cp ->
  gzip c = true -> size <> 0 -> read_data env = true ->
  zlib_contract env c ->
  in_ r = w ++ pad ->
  Z.of_nat (length w) = next_out (z c) ->
  Z.of_nat (length pad) = avail_out (z c) ->
  exists s' e r' c',
    asynccallback chunk env h cp WINHTTP_CALLBACK_STATUS_DATA_AVAILABLE size len s
    = Some (tt, s', e)
    /\ reqs s' !! rp = Some r' /\ ctxs s' !! cp = Some c'
    /\ in_ r' = (w ++ inflate_given env) ++ drop (length (inflate_given env)) pad
    /\ length (in_ r') = length (in_ r)
    /\ Z.of_nat (length (w ++ inflate_given env)) = next_out (z c')
    /\ Z.of_nat (length (drop (length (inflate_given env)) pad))
       = avail_out (z c').
Proof.
  intros Hc Hreq Hr Hh Hg Hsize Hread Hz Hin Hw Hpad.
  unfold zlib_contract in Hz.
  assert (Hle : (length (inflate_given env) <= length pad)%nat) by lia.
  rewrite (data_available_inflates _ _ _ _ _ _ _ _ _ _ Hc Hreq Hr Hh Hg Hsize Hread).
  assert (Hbuf : write_at (next_out (z c)) (inflate_given env) (in_ r)
                 = (w ++ inflate_given env)
                   ++ drop (length (inflate_given env)) pad).
  { rewrite Hin, <- Hw. by apply write_at_end. }
  destruct (negb _ && _); eexists _, _, _, _; (split; [reflexivity|]);
    unfold cancelled; simpl; rewrite !lookup_insert_eq;
    (split; [reflexivity|]); (split; [reflexivity|]); simpl; rewrite Hbuf;
    (split; [reflexivity|]);
    (split; [rewrite Hin, !length_app, length_drop; lia|]);
    (split; [rewrite length_app; lia | rewrite length_drop; lia]).
Qed.

Lemma step_inflight chunk s o s' e :
  0 < chunk -> linked s -> inflight_ok s -> admissible s o ->
  step chunk o s = Some (tt, s', e) -> inflight_ok s'.
Proof.
  intros Hchunk [Hfwd Hbwd] Hin Hadm Hstep.
  destruct o as [env rp data len | rp | env h cp st info len]; simpl in *.
  - destruct Hadm as (r & Hr & Hh).
    pose proof (post_effect chunk env s rp r data len Hr) as Hpost.
    simpl in Hpost. rewrite Hstep in Hpost.
    destruct Hpost as (c' & Hreqs & Hctxs & _ & _ & _ & _ & _ & _ & _ & Hsent).
    assert (Hfree := fresh_ctx_free s).
    intros q r0 Hq Hst. rewrite Hreqs in Hq. rewrite Hctxs.
    destruct (decide (q = rp)) as [->|Hne].
    + rewrite lookup_insert_eq in Hq. injection Hq as <-.
      simpl in Hst. unfold post_ok in Hst.
      destruct (crack_url env), (connect env), (open_request env); try done.
      destruct (Hsent ltac:(by eexists) ltac:(by eexists) ltac:(by eexists))
        as (Hlen & Hpos & _).
      eexists _, c'. split; [reflexivity|]. rewrite lookup_insert_eq.
      split; [done|]. rewrite Hpos, Hlen.
      assert (0 <= match data with
                   | Some _ => len
                   | None => Z.of_nat (length (out r))
                   end mod DWORD_MAX < DWORD_MAX)
        by (apply Z.mod_pos_bound; unfold DWORD_MAX; lia).
      destruct (Z.ltb_spec (match data with
                            | Some _ => len
                            | None => Z.of_nat (length (out r))
                            end mod DWORD_MAX) chunk); lia.
    + rewrite lookup_insert_ne in Hq by done.
      destruct (Hin q r0 Hq Hst) as (p & c & Hh0 & Hc & Hb).
      exists p, c. split; [done|]. split; [|done].
      rewrite lookup_insert_ne; [done|]. intros <-. congruence.
  - destruct Hadm as [r Hr].
    destruct (httpiohandle r) as [cp|] eqn:Hh.
    + destruct (Hbwd rp r cp Hr Hh) as (c & Hc & Hreq).
      rewrite (cancel_attached s rp r cp c Hr Hh Hc) in Hstep.
      injection Hstep as <- _. unfold cancelled.
      intros q r0 Hq Hst. simpl in *.
      destruct (decide (q = rp)) as [->|Hne].
      * rewrite lookup_insert_eq in Hq. by injection Hq as <-.
      * rewrite lookup_insert_ne in Hq by done.
        destruct (Hin q r0 Hq Hst) as (p & c0 & Hh0 & Hc0 & Hb).
        exists p, c0. split; [done|]. split; [|done].
        rewrite lookup_insert_ne; [done|]. intros <-.
        destruct (Hbwd q r0 cp Hq Hh0) as (c1 & Hc1 & Hreq1). congruence.
    + rewrite (cancel_detached s rp r Hr Hh) in Hstep. by injection Hstep as <- _.
  - destruct Hadm as (c & Hc & Hclosing).
    destruct (req c) as [rp|] eqn:Hreq.
    + assert (Hst : st <> WINHTTP_CALLBACK_STATUS_HANDLE_CLOSING)
        by (intros ->; by specialize (Hclosing eq_refl)).
      destruct (Hfwd cp c rp Hc Hreq) as (r & Hr & Hh).
      pose proof (asynccallback_effect chunk env h s cp c rp r st info len
                    Hc Hreq Hr Hh Hst) as Heff.
      rewrite Hstep in Heff.
      destruct Heff as (r' & c' & Hr' & Hc' & Hreqs & Hctxs & _ & _ & Hlinks & _).
      destruct (status_moves_asynccallback rp chunk env h cp st info len
                  s tt s' e Hstep r Hr) as (r2 & Hr2 & Hmove).
      assert (r2 = r') as -> by congruence.
      intros q r0 Hq Hst0.
      destruct (decide (q = rp)) as [->|Hne].
      * assert (r0 = r') as -> by congruence.
        assert (Hwas : status r = REQ_INFLIGHT)
          by (destruct Hmove as [|[|]]; congruence).
        destruct (Hin rp r Hr Hwas) as (p & c0 & Hh0 & Hc0 & Hb & Hb').
        assert (p = cp) as -> by congruence.
        assert (c0 = c) as -> by congruence.
        destruct (cursor_stays_within chunk env h s cp c rp r st info len s' e
                    Hchunk Hc Hreq Hr Hh Hst Hb Hb' Hstep)
          as (c1 & Hc1 & Hl1 & Hp1).
        assert (c1 = c') as -> by congruence.
        exists cp, c'. split.
        { destruct Hlinks as [(_ & ? & _)|(_ & _ & ? & _)]; [done|congruence]. }
        split; [done|]. lia.
      * rewrite Hreqs in Hq by done.
        destruct (Hin q r0 Hq Hst0) as (p & c0 & Hh0 & Hc0 & Hb).
        exists p, c0. split; [done|]. split; [|done].
        rewrite Hctxs; [done|]. intros ->.
        destruct (Hbwd q r0 cp Hq Hh0) as (c1 & Hc1 & Hreq1). congruence.
    + destruct (decide (st = WINHTTP_CALLBACK_STATUS_HANDLE_CLOSING)) as [->|Hst].
      * rewrite (asynccallback_closing chunk env h s cp c info len Hc Hreq) in Hstep.
        injection Hstep as <- _.
        intros q r0 Hq Hst0. simpl in *.
        destruct (Hin q r0 Hq Hst0) as (p & c0 & Hh0 & Hc0 & Hb).
        exists p, c0. split; [done|]. split; [|done].
        rewrite lookup_delete_ne; [done|]. intros <-.
        destruct (Hbwd q r0 cp Hq Hh0) as (c1 & Hc1 & Hreq1). congruence.
      * rewrite (asynccallback_unbound chunk env h s cp c st info len Hc Hreq Hst)
          in Hstep.
        by injection Hstep as <- _.
Qed.

(** X11.  Along any admissible sequence of calls, every request whose
    status is REQ_INFLIGHT has a live context attached, so that postpos()
    on its handle is defined, and the progress it reports lies between 0
    and the total of the upload. *)
Theorem inflight_postpos_is_in_bounds chunk os s :
  0 < chunk -> linked s -> inflight_ok s -> admissible_run chunk os s ->
  exists s' e,
    run chunk os s = Some (tt, s', e)
    /\ forall rp r, reqs s' !! rp = Some r -> status r = REQ_INFLIGHT ->
         exists cp c v,
           httpiohandle r = Some cp /\ ctxs s' !! cp = Some c
           /\ WinHttpIO_postpos cp s' = Some (v, s', [])
           /\ 0 <= v <= postlen c.
Proof.
  intros Hchunk. revert s.
  assert (Hrun : forall s, linked s -> inflight_ok s ->
            admissible_run chunk os s ->
            exists s' e, run chunk os s = Some (tt, s', e) /\ inflight_ok s').
  { induction os as [|o os IH]; intros s Hl Hin Hadm; simpl in *.
    - by exists s, [].
    - destruct Hadm as [Ho Hrest].
      destruct (step_linked chunk s o Hl Ho) as (s1 & e1 & Hstep & Hl1 & _).
      pose proof (step_inflight chunk s o s1 e1 Hchunk Hl Hin Ho Hstep) as Hin1.
      destruct (IH s1 Hl1 Hin1 (Hrest s1 e1 Hstep)) as (s2 & e2 & Hrun & Hin2).
      exists s2, (e1 ++ e2). unfold bind. by rewrite Hstep, Hrun. }
  intros s Hl Hin Hadm.
  destruct (Hrun s Hl Hin Hadm) as (s' & e & Hres & Hin').
  exists s', e. split; [done|].
  intros rp r Hr Hst.
  destruct (Hin' rp r Hr Hst) as (cp & c & Hh & Hc & Hb & _).
  exists cp, c, (postpos c). split; [done|]. split; [done|]. split; [|done].
  unfold WinHttpIO_postpos. by drive.
Qed.

Lemma writes_app e1 e2 : writes (e1 ++ e2) = writes e1 ++ writes e2.
Proof. apply omap_app. Qed.

Lemma take_add_split {A} (a b : nat) (l : list A) :
  take (a + b) l = take a l ++ take b (drop a l).
Proof.
  revert l. induction a as [|a IH]; intros [|x l]; simpl; try done.
  - by rewrite take_nil.
  - by rewrite IH.
Qed.

Lemma contiguous_le l : forall from to, contiguous from to l -> from <= to.
Proof.
  induction l as [|[pos len] l IH]; simpl; intros from to H; [lia|].
  destruct H as (_ & Hlen & Hrest). apply IH in Hrest. lia.
Qed.

Lemma contiguous_concat data l :
  forall from to, 0 <= from -> contiguous from to l ->
  concat (map (piece data) l)
  = take (Z.to_nat (to - from)) (drop (Z.to_nat from) data).
Proof.
  induction l as [|[pos len] l IH]; simpl; intros from to Hfrom H.
  - subst. by rewrite Z.sub_diag.
  - destruct H as (-> & Hlen & Hrest).
    pose proof (contiguous_le _ _ _ Hrest) as Hle.
    rewrite (IH (from + len) to ltac:(lia) Hrest). unfold piece. simpl.
    replace (Z.to_nat (to - from))
      with (Z.to_nat len + Z.to_nat (to - (from + len)))%nat by lia.
    rewrite take_add_split, drop_drop. do 3 f_equal. lia.
Qed.

Lemma upload_loop_writes chunk env h cp rp (m : nat) :
  0 < chunk -> write_data env = true -> receive_response env = true ->
  forall s c st,
  ctxs s !! cp = Some c -> req c = Some rp ->
  st = WINHTTP_CALLBACK_STATUS_SENDREQUEST_COMPLETE
    \/ st = WINHTTP_CALLBACK_STATUS_WRITE_COMPLETE ->
  0 <= postpos c <= postlen c -> postlen c < DWORD_MAX ->
  postlen c - postpos c <= Z.of_nat m * chunk ->
  exists k s' e,
    run chunk (Callback env h cp st 0 0
               :: replicate k (Callback env h cp
                                 WINHTTP_CALLBACK_STATUS_WRITE_COMPLETE 0 0)) s
    = Some (tt, s', e)
    /\ contiguous (postpos c) (postlen c) (writes e)
    /\ Forall (fun o => forall h' pos len,
                 o = WinHttpWriteData h' pos len -> h' = hRequest c) e.
Proof.
  intros Hchunk Hw Hrecv.
  assert (Hdone : forall s c st,
    ctxs s !! cp = Some c -> req c = Some rp ->
    st = WINHTTP_CALLBACK_STATUS_SENDREQUEST_COMPLETE
      \/ st = WINHTTP_CALLBACK_STATUS_WRITE_COMPLETE ->
    postpos c = postlen c ->
    exists k s' e,
      run chunk (Callback env h cp st 0 0
                 :: replicate k (Callback env h cp
                                   WINHTTP_CALLBACK_STATUS_WRITE_COMPLETE 0 0)) s
      = Some (tt, s', e)
      /\ contiguous (postpos c) (postlen c) (writes e)
      /\ Forall (fun o => forall h' pos len,
                   o = WinHttpWriteData h' pos len -> h' = hRequest c) e).
  { intros s c st Hc Hreq Hst Heq.
    exists 0%nat, s, [WinHttpReceiveResponse (hRequest c)]. split.
    - apply run_one. simpl. eapply write_complete_receives; eauto. lia.
    - split; [done|]. by repeat constructor. }
  induction m as [|m IH]; intros s c st Hc Hreq Hst Hpos Hlen Hm.
  { apply Hdone; try done. lia. }
  destruct (decide (postpos c = postlen c)) as [Heq|Hne];
    [by apply Hdone|].
  set (t := Z.min (postlen c - postpos c) chunk).
  set (c1 := set_postpos (postpos c + t) c).
  set (s1 := mk_state (reqs s) (<[cp := c1]> (ctxs s)) (httpio s)).
  destruct (IH s1 c1 WINHTTP_CALLBACK_STATUS_WRITE_COMPLETE)
    as (k & s' & e & Hrun & Hcont & Hall).
  { subst s1. simpl. apply lookup_insert_eq. }
  { done. } { by right. }
  { subst c1 t. simpl. lia. } { done. }
  { subst c1 t. simpl. lia. }
  exists (S k), s',
    ([WinHttpWriteData (hRequest c) (postpos c) t; SetEvent] ++ e).
  split; [|split].
  - simpl replicate. eapply run_cons.
    + simpl. eapply write_complete_writes; eauto. lia.
    + exact Hrun.
  - rewrite writes_app. simpl. split; [done|]. split; [subst t; lia|done].
  - apply Forall_app. split; [|done].
    constructor; [by intros ? ? ? [= <- _ _]|]. by repeat constructor.
Qed.

(** X12.  With every call accepted, post() and the completions that
    follow hand the body over in order: WinHttpSendRequest carries the
    first bytes, every WinHttpWriteData is made on the request handle and
    starts where the previous piece ended, none is empty, the last one
    ends at the total, and the pieces put together are the first postlen
    bytes of the body. *)
Theorem upload_hands_over_the_body_in_order chunk penv env s rp r data len :
  0 < chunk < DWORD_MAX ->
  reqs s !! rp = Some r ->
  is_Some (crack_url penv) -> is_Some (connect penv) ->
  is_Some (open_request penv) -> send_request penv = true ->
  write_data env = true -> receive_response env = true ->
  let cp := fresh (dom (ctxs s)) in
  let body := match data with Some d => d | None => out r end in
  let postTotal := match data with
                   | Some _ => len
                   | None => Z.of_nat (length (out r))
                   end mod DWORD_MAX in
  let first := Z.min postTotal chunk in
  exists k s' e headers,
    run chunk (Post penv rp data len
               :: upload_ops env (open_request penv) cp k) s
    = Some (tt, s', e)
    /\ In (WinHttpSendRequest (open_request penv) headers first postTotal cp) e
    /\ contiguous first postTotal (writes e)
    /\ Forall (fun o => forall h' pos len',
                 o = WinHttpWriteData h' pos len' -> h' = open_request penv) e
    /\ concat (map (piece body) ((0, first) :: writes e))
       = take (Z.to_nat postTotal) body.
Proof.
  intros Hchunk Hr [u Hu] [hc Hhc] [hr Hhr] Hsend Hw Hrecv cp body postTotal
    first.
  destruct (post_succeeds chunk penv s rp r data len u hc hr
              Hr Hu Hhc Hhr Hsend) as [headers Hpost].
  fold cp postTotal in Hpost.
  assert (Htotal : 0 <= postTotal < DWORD_MAX).
  { subst postTotal. apply Z.mod_pos_bound. unfold DWORD_MAX. lia. }
  assert (Hfirst : (if postTotal <? chunk then postTotal else chunk) = first).
  { subst first. destruct (Z.ltb_spec postTotal chunk); lia. }
  rewrite Hfirst in Hpost.
  set (c1 := mk_ctx (Some hr) (Some hc) (Some rp) first postTotal
                    (match data with Some d => d | None => out r end)
                    (gzip (fresh_ctx penv)) (z (fresh_ctx penv))) in *.
  set (s1 := mk_state _ (<[cp := c1]> (ctxs s)) (httpio s)) in *.
  destruct (upload_loop_writes chunk env (Some hr) cp rp
              (Z.to_nat (postTotal - first)) ltac:(lia) Hw Hrecv
              s1 c1 WINHTTP_CALLBACK_STATUS_SENDREQUEST_COMPLETE)
    as (k & s' & e & Hrun & Hcont & Hall).
  { subst s1. simpl. apply lookup_insert_eq. }
  { done. } { by left. } { subst c1 first. simpl. lia. }
  { subst c1. simpl. lia. }
  { subst c1 first. simpl. nia. }
  simpl in Hcont, Hall.
  exists k, s'. eexists _, headers. split.
  { unfold upload_ops. rewrite Hhr. eapply run_cons; [exact Hpost|exact Hrun]. }
  split; [apply in_app_iff; left; simpl; rewrite Hhr; tauto|].
  rewrite writes_app. change (writes [_; _; _; _; _]) with (@nil (Z * Z)).
  simpl app.
  split; [done|]. split.
  - rewrite Hhr. by repeat (constructor; [by intros ? ? ? [=]|]).
  - pose proof (contiguous_le _ _ _ Hcont) as Hle.
    simpl. rewrite (contiguous_concat body _ first postTotal ltac:(subst first; lia) Hcont).
    unfold piece. simpl. rewrite drop_0.
    replace (Z.to_nat postTotal)
      with (Z.to_nat first + Z.to_nat (postTotal - first))%nat
      by (subst first; lia).
    by rewrite take_add_split.
Qed.

(** X13.  The driver gives up on a request only on an error: when the event
    is neither REQUEST_ERROR nor SECURE_FAILURE and every call made while
    handling it succeeds (inflate answering Z_OK), the request stays
    attached, and its status is unchanged unless the event is the chunk
    size 0 that completes the transfer. *)
Theorem callback_keeps_request_when_calls_succeed
    chunk env h s cp c rp r st info len code :
  ctxs s !! cp = Some c -> req c = Some rp ->
  reqs s !! rp = Some r -> httpiohandle r = Some cp ->
  st <> WINHTTP_CALLBACK_STATUS_HANDLE_CLOSING ->
  st <> WINHTTP_CALLBACK_STATUS_REQUEST_ERROR ->
  st <> WINHTTP_CALLBACK_STATUS_SECURE_FAILURE ->
  read_data env = true -> inflate_ret env = Z_OK ->
  query_data_available env = true -> query_status_code env = Some code ->
  write_data env = true -> receive_response env = true ->
  exists s' e r' c',
    asynccallback chunk env h cp st info len s = Some (tt, s', e)
    /\ reqs s' !! rp = Some r' /\ ctxs s' !! cp = Some c'
    /\ httpiohandle r' = Some cp /\ req c' = Some rp
    /\ (status r' = status r
        \/ (st = WINHTTP_CALLBACK_STATUS_DATA_AVAILABLE /\ info = 0
            /\ status r' = if httpstatus r =? 200 then REQ_SUCCESS
                           else REQ_FAILURE)).
Proof.
  intros Hc Hreq Hr Hh Hst1 Hst2 Hst3 Hread Hinf Hq Hcode Hw Hrecv.
  unfold asynccallback, on_data_available, on_read_complete,
    on_headers_available, on_write_complete, inflate, reserveput, completeput,
    setcontentlength, inetstatus.
  rewrite ?Hread, ?Hinf, ?Hq, ?Hcode, ?Hw, ?Hrecv.
  destruct st; try done; crunch;
    rewrite ?Hread, ?Hinf, ?Hq, ?Hcode, ?Hw, ?Hrecv; crunch.
  all: try (eexists _, _, _, _; split; [reflexivity|]; simpl;
            rewrite ?lookup_insert_eq;
            split; [first [reflexivity|eassumption]|];
            split; [first [reflexivity|eassumption]|];
            split; [simpl; first [reflexivity|eassumption]|];
            split; [simpl; first [reflexivity|eassumption]|];
            first [by left
                  | right; repeat split; try done;
                    by match goal with
                       | H : (_ =? 0) = true |- _ => apply Z.eqb_eq in H
                       end]).
Qed.

(** X14.  A reply for a request with a buffer of the caller's is never
    decompressed: HEADERS_AVAILABLE queries the status code only and
    clears the gzip flag whatever it was, and the data chunk that follows
    calls neither inflateInit2 nor inflate and leaves [in] alone. *)
Theorem raw_buffer_is_never_inflated
    chunk env env2 h s cp c rp r info len size len2 :
  ctxs s !! cp = Some c -> req c = Some rp ->
  reqs s !! rp = Some r -> httpiohandle r = Some cp ->
  is_Some (buf r) -> is_Some (query_status_code env) ->
  exists s' e,
    run chunk [Callback env h cp WINHTTP_CALLBACK_STATUS_HEADERS_AVAILABLE
                 info len;
               Callback env2 h cp WINHTTP_CALLBACK_STATUS_DATA_AVAILABLE
                 size len2] s
    = Some (tt, s', e)
    /\ (forall a, ~ In (Inflate a) e)
    /\ (forall w, ~ In (InflateInit2 w) e)
    /\ (forall q, In (WinHttpQueryHeaders (hRequest c) q) e ->
          q = QUERY_STATUS_CODE)
    /\ exists r' c', reqs s' !! rp = Some r' /\ ctxs s' !! cp = Some c'
                     /\ gzip c' = false /\ in_ r' = in_ r.
Proof.
  intros Hc Hreq Hr Hh [b Hbuf] [code Hcode].
  simpl. unfold asynccallback, on_data_available, on_headers_available,
    inflate, reserveput, setcontentlength, inetstatus.
  rewrite Hcode. crunch.
  all: unfold close_calls; simpl;
    destruct (hConnect c) eqn:?, (hRequest c) eqn:?; simpl;
    eexists _, _; (split; [reflexivity|]);
    (split; [intros ?; in_calls|]);
    (split; [intros ?; in_calls|]);
    (split; [intros ?; in_calls|]);
    eexists _, _; simpl; rewrite ?lookup_insert_eq;
    (split; [first [reflexivity|eassumption]|]);
    (split; [first [reflexivity|eassumption]|]);
    split; simpl; first [reflexivity|eassumption].
Qed.

(** ** The further properties at the sample session *)

Lemma ex_s0_linked : linked ex_s0.
Proof.
  split.
  - intros cp c rp H. unfold ex_s0 in H. simpl in H.
    by rewrite lookup_empty in H.
  - intros rp r cp H. unfold ex_s0 in H. simpl in H.
    apply lookup_singleton_Some in H as [<- <-]. done.
Qed.

Lemma ex_s0_inflight_ok : inflight_ok ex_s0.
Proof.
  intros rp r H. unfold ex_s0 in H. simpl in H.
  apply lookup_singleton_Some in H as [<- <-]. done.
Qed.

Lemma ex_sending_reached :
  exists e, post ex_chunk ex_post_ok 0%nat None 0 ex_s0
            = Some (tt, ex_sending, e).
Proof. eexists. vm_compute. reflexivity. Qed.

Lemma ex_first_write_admissible :
  admissible_run ex_chunk ex_first_write ex_s0.
Proof.
  destruct ex_sending_reached as [e0 He0].
  split; [by exists ex_req|].
  intros s' e H. simpl in H. rewrite He0 in H. injection H as <- <-.
  split; [|done]. exists ex_ctx_sending. by split.
Qed.

Lemma driver_calls_are_defined_witness :
  (linked ex_s0 /\ admissible_run ex_chunk ex_first_write ex_s0)
  /\ exists s' e,
       run ex_chunk ex_first_write ex_s0 = Some (tt, s', e) /\ linked s'
       /\ (forall p, is_Some (reqs ex_s0 !! p) -> is_Some (reqs s' !! p)).
Proof.
  split; [split; [apply ex_s0_linked | apply ex_first_write_admissible]|].
  destruct (driver_calls_are_defined ex_chunk ex_first_write ex_s0
              ex_s0_linked ex_first_write_admissible)
    as (s' & e & H1 & H2 & _ & _ & _ & H3).
  by exists s', e.
Defined.

Lemma callback_leaves_others_alone_witness :
  (ctxs ex_streaming !! 0%nat = Some ex_ctx_streaming
   /\ req ex_ctx_streaming = Some 0%nat
   /\ reqs ex_streaming !! 0%nat = Some ex_req_streaming
   /\ httpiohandle ex_req_streaming = Some 0%nat
   /\ WINHTTP_CALLBACK_STATUS_DATA_AVAILABLE
      <> WINHTTP_CALLBACK_STATUS_HANDLE_CLOSING)
  /\ exists s' e c',
       asynccallback ex_chunk ex_gzip (Some 11%nat) 0%nat
         WINHTTP_CALLBACK_STATUS_DATA_AVAILABLE 22 4 ex_streaming
       = Some (tt, s', e)
       /\ (forall p, p <> 0%nat -> reqs s' !! p = reqs ex_streaming !! p)
       /\ (forall p, p <> 0%nat -> ctxs s' !! p = ctxs ex_streaming !! p)
       /\ ctxs s' !! 0%nat = Some c'
       /\ hRequest c' = Some 11%nat /\ hConnect c' = Some 10%nat
       /\ postlen c' = 7
       /\ httpio s' = httpio ex_streaming.
Proof.
  split; [by repeat split|].
  destruct (callback_leaves_others_alone ex_chunk ex_gzip (Some 11%nat)
              ex_streaming 0%nat ex_ctx_streaming 0%nat ex_req_streaming
              WINHTTP_CALLBACK_STATUS_DATA_AVAILABLE 22 4
              eq_refl eq_refl eq_refl eq_refl ltac:(done))
    as (s' & e & c' & H1 & H2 & H3 & _ & H4 & H5 & H6 & H7 & _).
  exists s', e, c'. do 7 (split; [assumption|]).
  vm_compute in H1. by injection H1 as <- _.
Defined.

Lemma status_change_raises_wakeup_witness :
  (ctxs ex_streaming !! 0%nat = Some ex_ctx_streaming
   /\ req ex_ctx_streaming = Some 0%nat
   /\ reqs ex_streaming !! 0%nat = Some ex_req_streaming
   /\ httpiohandle ex_req_streaming = Some 0%nat
   /\ WINHTTP_CALLBACK_STATUS_DATA_AVAILABLE
      <> WINHTTP_CALLBACK_STATUS_HANDLE_CLOSING)
  /\ exists s' e r',
       asynccallback ex_chunk ex_gzip (Some 11%nat) 0%nat
         WINHTTP_CALLBACK_STATUS_DATA_AVAILABLE 0 4 ex_streaming
       = Some (tt, s', e)
       /\ reqs s' !! 0%nat = Some r'
       /\ (status r' <> REQ_INFLIGHT -> In SetEvent e).
Proof.
  split; [by repeat split|].
  apply (status_change_raises_wakeup ex_chunk ex_gzip (Some 11%nat)
           ex_streaming 0%nat ex_ctx_streaming 0%nat ex_req_streaming
           WINHTTP_CALLBACK_STATUS_DATA_AVAILABLE 0 4
           eq_refl eq_refl eq_refl eq_refl ltac:(done)).
Defined.

Lemma callback_detaches_or_keeps_handles_witness :
  (ctxs ex_streaming !! 0%nat = Some ex_ctx_streaming
   /\ req ex_ctx_streaming = Some 0%nat
   /\ reqs ex_streaming !! 0%nat = Some ex_req_streaming
   /\ httpiohandle ex_req_streaming = Some 0%nat
   /\ WINHTTP_CALLBACK_STATUS_SECURE_FAILURE
      <> WINHTTP_CALLBACK_STATUS_HANDLE_CLOSING)
  /\ exists s' e r' c',
       asynccallback ex_chunk ex_gzip (Some 11%nat) 0%nat
         WINHTTP_CALLBACK_STATUS_SECURE_FAILURE 0 4 ex_streaming
       = Some (tt, s', e)
       /\ reqs s' !! 0%nat = Some r' /\ ctxs s' !! 0%nat = Some c'
       /\ ((req c' = Some 0%nat /\ httpiohandle r' = Some 0%nat
            /\ forall h0, ~ In (WinHttpCloseHandle h0) e)
           \/ (req c' = None /\ httpiohandle r' = None
               /\ status r' = REQ_FAILURE /\ httpstatus r' = 0
               /\ In SetEvent e
               /\ In (WinHttpCloseHandle 10) e
               /\ In (WinHttpCloseHandle 11) e)).
Proof.
  split; [by repeat split|].
  destruct (callback_detaches_or_keeps_handles ex_chunk ex_gzip (Some 11%nat)
              ex_streaming 0%nat ex_ctx_streaming 0%nat ex_req_streaming
              WINHTTP_CALLBACK_STATUS_SECURE_FAILURE 0 4
              eq_refl eq_refl eq_refl eq_refl ltac:(done))
    as (s' & e & r' & c' & H1 & H2 & H3 & H4).
  exists s', e, r', c'. do 3 (split; [assumption|]).
  destruct H4 as [H4|(H4 & H5 & H6 & H7 & H8 & H9 & H10)]; [by left|right].
  do 5 (split; [assumption|]).
  split; [by apply H9 | by apply H10].
Defined.

Lemma connectivity_notice_is_guarded_witness :
  (ctxs ex_streaming !! 0%nat = Some ex_ctx_streaming
   /\ req ex_ctx_streaming = Some 0%nat
   /\ reqs ex_streaming !! 0%nat = Some ex_req_streaming
   /\ httpiohandle ex_req_streaming = Some 0%nat
   /\ WINHTTP_CALLBACK_STATUS_REQUEST_ERROR
      <> WINHTTP_CALLBACK_STATUS_HANDLE_CLOSING)
  /\ exists s' e,
       asynccallback ex_chunk ex_gzip (Some 11%nat) 0%nat
         WINHTTP_CALLBACK_STATUS_REQUEST_ERROR 0 4 ex_streaming
       = Some (tt, s', e)
       /\ forall up, In (Inetstatus up) e ->
            up = false /\ last_error ex_gzip <> ERROR_WINHTTP_TIMEOUT.
Proof.
  split; [by repeat split|].
  destruct (connectivity_notice_is_guarded ex_chunk ex_gzip (Some 11%nat)
              ex_streaming 0%nat ex_ctx_streaming 0%nat ex_req_streaming
              WINHTTP_CALLBACK_STATUS_REQUEST_ERROR 0 4
              eq_refl eq_refl eq_refl eq_refl ltac:(done))
    as (s' & e & H1 & H2).
  exists s', e. split; [assumption|].
  intros up Hup. destruct (H2 up Hup) as [_ [(_ & Hst & _)|(Hu & _ & Hl)]];
    [discriminate Hst | by split].
Defined.

Lemma request_error_notifies_unless_timeout_witness :
  (ctxs ex_streaming !! 0%nat = Some ex_ctx_streaming
   /\ req ex_ctx_streaming = Some 0%nat
   /\ reqs ex_streaming !! 0%nat = Some ex_req_streaming
   /\ httpiohandle ex_req_streaming = Some 0%nat)
  /\ (exists s',
        asynccallback ex_chunk ex_gzip (Some 11%nat) 0%nat
          WINHTTP_CALLBACK_STATUS_REQUEST_ERROR 0 4 ex_streaming
        = Some (tt, s',
                [Inetstatus false; WinHttpCloseHandle 10;
                 WinHttpCloseHandle 11; SetEvent])
        /\ reqs s' = reqs ex_cancelled /\ ctxs s' = ctxs ex_cancelled)
  /\ asynccallback ex_chunk ex_gzip (Some 11%nat) 0%nat
       WINHTTP_CALLBACK_STATUS_SECURE_FAILURE 0 4 ex_streaming
     = Some (tt, ex_cancelled,
             [WinHttpCloseHandle 10; WinHttpCloseHandle 11; SetEvent]).
Proof.
  split; [by repeat split|].
  destruct (request_error_notifies_unless_timeout ex_chunk ex_gzip
              (Some 11%nat) ex_streaming 0%nat ex_ctx_streaming 0%nat
              ex_req_streaming 0 4 5%nat 0
              eq_refl eq_refl eq_refl eq_refl)
    as ((s' & H1 & H2 & H3) & H4 & _).
  split; [exists s'; split; [exact H1|]; split; [exact H2 | exact H3]
         | exact H4].
Defined.

Lemma failed_write_still_advances_cursor_witness :
  (ctxs ex_sending !! 0%nat = Some ex_ctx_sending
   /\ req ex_ctx_sending = Some 0%nat
   /\ reqs ex_sending !! 0%nat = Some ex_req_sending
   /\ httpiohandle ex_req_sending = Some 0%nat
   /\ 0 <= postpos ex_ctx_sending < postlen ex_ctx_sending
   /\ postlen ex_ctx_sending < DWORD_MAX /\ 0 < ex_chunk
   /\ write_data ex_write_fails = false)
  /\ exists s' c',
       asynccallback ex_chunk ex_write_fails (Some 11%nat) 0%nat
         WINHTTP_CALLBACK_STATUS_WRITE_COMPLETE 0 0 ex_sending
       = Some (tt, s',
               [WinHttpWriteData (Some 11%nat) 3 3; WinHttpCloseHandle 10;
                WinHttpCloseHandle 11; SetEvent])
       /\ ctxs s' !! 0%nat = Some c' /\ postpos c' = 6 /\ req c' = None.
Proof.
  split; [by repeat split|].
  eexists _, _. split.
  - apply (failed_write_still_advances_cursor ex_chunk ex_write_fails
             (Some 11%nat) ex_sending 0%nat ex_ctx_sending 0%nat
             ex_req_sending WINHTTP_CALLBACK_STATUS_WRITE_COMPLETE 0 0
             eq_refl eq_refl eq_refl eq_refl (or_intror eq_refl));
      [by split | done | done | done].
  - by repeat split.
Defined.

Lemma post_outcome_witness :
  reqs ex_s0 !! 0%nat = Some ex_req
  /\ exists s' e c' headers,
       post ex_chunk ex_post_ok 0%nat None 0 ex_s0 = Some (tt, s', e)
       /\ reqs s' = <[0%nat := ex_req_sending]> (reqs ex_s0)
       /\ ctxs s' = <[0%nat := c']> (ctxs ex_s0)
       /\ req c' = Some 0%nat
       /\ (forall h, ~ In (WinHttpCloseHandle h) e)
       /\ postlen c' = 7 /\ postpos c' = 3
       /\ last e = Some (WinHttpSendRequest (Some 11%nat) headers 3 7 0%nat)
       /\ String.length headers = 53%nat
       /\ String.get 30 headers = Some "013"%char
       /\ String.get 31 headers = Some "010"%char.
Proof.
  split; [done|].
  destruct (post_outcome ex_chunk ex_post_ok ex_s0 0%nat ex_req None 0 eq_refl)
    as (s' & e & c' & H1 & _ & H2 & H3 & _ & H4 & H5 & _ & H6).
  destruct H6 as (H6 & H7 & _ & headers & H8 & _ & H9); [by eexists..|].
  exists s', e, c', headers. do 5 (split; [assumption|]).
  split; [assumption|]. split; [assumption|].
  split; [rewrite H8, H7; reflexivity|].
  by rewrite (proj2 H9 eq_refl).
Defined.

Lemma post_cancel_closing_restores_witness :
  reqs ex_s0 !! 0%nat = Some ex_req
  /\ exists e,
       run ex_chunk
         [Post ex_post_ok 0%nat None 0; Cancel 0%nat;
          Callback ex_plain (Some 11%nat) 0%nat
            WINHTTP_CALLBACK_STATUS_HANDLE_CLOSING 0 0] ex_s0
       = Some (tt,
               mk_state
                 (<[0%nat := set_httpiohandle None
                               (set_status REQ_FAILURE
                                  (set_httpstatus 0 ex_req))]> (reqs ex_s0))
                 (ctxs ex_s0) (httpio ex_s0),
               e)
       /\ In (WinHttpCloseHandle 10) e /\ In (WinHttpCloseHandle 11) e.
Proof.
  split; [done|].
  destruct (post_cancel_closing_restores ex_chunk ex_post_ok ex_plain
              (Some 11%nat) ex_s0 0%nat ex_req None 0 0 0 eq_refl)
    as (e & H1 & H2).
  exists e. split; [exact H1|].
  split; apply H2; (split; [by eexists|]);
    [by left | right; split; [by eexists | done]].
Defined.

Lemma inflate_appends_output_witness :
  (ctxs ex_streaming !! 0%nat = Some ex_ctx_streaming
   /\ req ex_ctx_streaming = Some 0%nat
   /\ reqs ex_streaming !! 0%nat = Some ex_req_streaming
   /\ httpiohandle ex_req_streaming = Some 0%nat
   /\ gzip ex_ctx_streaming = true /\ 22 <> 0 /\ read_data ex_gzip = true
   /\ zlib_contract ex_gzip ex_ctx_streaming
   /\ in_ ex_req_streaming = [] ++ [x00; x00])
  /\ exists s' e r',
       asynccallback ex_chunk ex_gzip (Some 11%nat) 0%nat
         WINHTTP_CALLBACK_STATUS_DATA_AVAILABLE 22 4 ex_streaming
       = Some (tt, s', e)
       /\ reqs s' !! 0%nat = Some r'
       /\ in_ r' = [x7b; x7d].
Proof.
  split; [by repeat split|].
  destruct (inflate_appends_output ex_chunk ex_gzip (Some 11%nat) ex_streaming
              0%nat ex_ctx_streaming 0%nat ex_req_streaming 22 4
              [] [x00; x00]
              eq_refl eq_refl eq_refl eq_refl eq_refl ltac:(done) eq_refl
              ltac:(by vm_compute) eq_refl eq_refl eq_refl)
    as (s' & e & r' & c' & H1 & H2 & _ & H3 & _).
  by exists s', e, r'.
Defined.

Lemma inflight_postpos_is_in_bounds_witness :
  (0 < ex_chunk /\ linked ex_s0 /\ inflight_ok ex_s0
   /\ admissible_run ex_chunk ex_first_write ex_s0)
  /\ exists s' e,
       run ex_chunk ex_first_write ex_s0 = Some (tt, s', e)
       /\ forall rp r, reqs s' !! rp = Some r -> status r = REQ_INFLIGHT ->
            exists cp c v,
              httpiohandle r = Some cp /\ ctxs s' !! cp = Some c
              /\ WinHttpIO_postpos cp s' = Some (v, s', [])
              /\ 0 <= v <= postlen c.
Proof.
  split.
  { split; [done|]. split; [apply ex_s0_linked|].
    split; [apply ex_s0_inflight_ok | apply ex_first_write_admissible]. }
  apply (inflight_postpos_is_in_bounds ex_chunk ex_first_write ex_s0
           ltac:(done) ex_s0_linked ex_s0_inflight_ok
           ex_first_write_admissible).
Defined.

Lemma upload_hands_over_the_body_in_order_witness :
  (0 < ex_chunk < DWORD_MAX
   /\ reqs ex_s0 !! 0%nat = Some ex_req
   /\ is_Some (crack_url ex_post_ok) /\ is_Some (connect ex_post_ok)
   /\ is_Some (open_request ex_post_ok) /\ send_request ex_post_ok = true
   /\ write_data ex_plain = true /\ receive_response ex_plain = true)
  /\ exists k s' e,
       run ex_chunk (Post ex_post_ok 0%nat None 0
                     :: upload_ops ex_plain (Some 11%nat) 0%nat k) ex_s0
       = Some (tt, s', e)
       /\ contiguous 3 7 (writes e)
       /\ concat (map (piece ex_body) ((0, 3) :: writes e)) = ex_body.
Proof.
  split; [repeat split; try done; by eexists|].
  destruct (upload_hands_over_the_body_in_order ex_chunk ex_post_ok ex_plain
              ex_s0 0%nat ex_req None 0)
    as (k & s' & e & headers & H1 & _ & H2 & _ & H3);
    try done; try by eexists.
  by exists k, s', e.
Defined.

Lemma callback_keeps_request_when_calls_succeed_witness :
  (ctxs ex_streaming !! 0%nat = Some ex_ctx_streaming
   /\ req ex_ctx_streaming = Some 0%nat
   /\ reqs ex_streaming !! 0%nat = Some ex_req_streaming
   /\ httpiohandle ex_req_streaming = Some 0%nat
   /\ read_data ex_plain = true /\ inflate_ret ex_plain = Z_OK
   /\ query_data_available ex_plain = true
   /\ query_status_code ex_plain = Some 200
   /\ write_data ex_plain = true /\ receive_response ex_plain = true)
  /\ exists s' e r' c',
       asynccallback ex_chunk ex_plain (Some 11%nat) 0%nat
         WINHTTP_CALLBACK_STATUS_READ_COMPLETE 0 22 ex_streaming
       = Some (tt, s', e)
       /\ reqs s' !! 0%nat = Some r' /\ ctxs s' !! 0%nat = Some c'
       /\ httpiohandle r' = Some 0%nat /\ req c' = Some 0%nat
       /\ status r' = REQ_INFLIGHT.
Proof.
  split; [by repeat split|].
  destruct (callback_keeps_request_when_calls_succeed ex_chunk ex_plain
              (Some 11%nat) ex_streaming 0%nat ex_ctx_streaming 0%nat
              ex_req_streaming WINHTTP_CALLBACK_STATUS_READ_COMPLETE 0 22 200
              eq_refl eq_refl eq_refl eq_refl ltac:(done) ltac:(done)
              ltac:(done) eq_refl eq_refl eq_refl eq_refl eq_refl eq_refl)
    as (s' & e & r' & c' & H1 & H2 & H3 & H4 & H5 & H6).
  exists s', e, r', c'. do 5 (split; [assumption|]).
  destruct H6 as [H6|(H6 & _)]; [exact H6 | discriminate H6].
Defined.

Lemma raw_buffer_is_never_inflated_witness :
  (ctxs ex_raw !! 0%nat = Some ex_ctx_streaming
   /\ req ex_ctx_streaming = Some 0%nat
   /\ reqs ex_raw !! 0%nat = Some ex_req_raw
   /\ httpiohandle ex_req_raw = Some 0%nat
   /\ is_Some (buf ex_req_raw) /\ is_Some (query_status_code ex_gzip)
   /\ gzip ex_ctx_streaming = true)
  /\ exists s' e,
       run ex_chunk
         [Callback ex_gzip (Some 11%nat) 0%nat
            WINHTTP_CALLBACK_STATUS_HEADERS_AVAILABLE 0 0;
          Callback ex_gzip (Some 11%nat) 0%nat
            WINHTTP_CALLBACK_STATUS_DATA_AVAILABLE 22 4] ex_raw
       = Some (tt, s', e)
       /\ (forall a, ~ In (Inflate a) e)
       /\ (forall w, ~ In (InflateInit2 w) e)
       /\ exists r' c', reqs s' !! 0%nat = Some r' /\ ctxs s' !! 0%nat = Some c'
                        /\ gzip c' = false /\ in_ r' = [].
Proof.
  split; [repeat split; try done; by eexists|].
  destruct (raw_buffer_is_never_inflated ex_chunk ex_gzip ex_gzip
              (Some 11%nat) ex_raw 0%nat ex_ctx_streaming 0%nat ex_req_raw
              0 0 22 4 eq_refl eq_refl eq_refl eq_refl
              ltac:(by eexists) ltac:(by eexists))
    as (s' & e & H1 & H2 & H3 & _ & H4).
  by exists s', e.
Defined.
